(** * Air-quality ETL pipeline: a shallow embedding of [flows/etl_flow.py]

    The development follows the source file task by task:
    [extract_data], [transform_data], [create_database_tables],
    [validate_database] and the flow [air_quality_etl_flow].  The
    functions of [dashboard/app.py] that read the store the flow leaves
    follow.

    - A data frame is a list of column labels and a list of rows.
    - Text cells are byte strings (UTF-8), missing cells are [NA], numeric
      cells are IEEE-754 binary64 numbers ([spec_float] at precision 53).
    - Exceptions are values of [exn]; a computation that may raise returns a
      [result]; the tasks that touch the SQLite file or the logger run in
      the state-and-exception monad [Task].
    - The SQLite store is a finite map from table names to tables together
      with a finite map of named indexes. *)

From Stdlib Require Import ZArith List String Ascii Bool Lia SpecFloat OrderedTypeEx.
From stdpp Require Import gmap strings list sorting.

Open Scope string_scope.
Open Scope list_scope.

(* ===================================================================== *)
(** * Exceptions *)
(* ===================================================================== *)

Inductive exn : Type :=
| KeyError (label : string)
| ValueError (text : string)
| TypeError
| FileNotFoundError (path : string)
| OperationalError (what : string).

Inductive result (A : Type) : Type :=
| Ok (a : A)
| Raise (e : exn).
Arguments Ok {A} a.
Arguments Raise {A} e.

#[global] Instance result_ret : MRet result := fun A a => Ok a.
#[global] Instance result_bind : MBind result := fun A B f m =>
  match m with
  | Ok a => f a
  | Raise e => Raise e
  end.

#[global] Instance result_fmap : FMap result := fun A B f m =>
  match m with
  | Ok a => Ok (f a)
  | Raise e => Raise e
  end.

Definition is_ok {A} (r : result A) : bool :=
  match r with Ok _ => true | Raise _ => false end.

(** [mapM] for [result]: the first exception wins, as in a Python loop. *)
Fixpoint result_mapM {A B} (f : A -> result B) (l : list A) : result (list B) :=
  match l with
  | [] => Ok []
  | x :: l' =>
      match f x with
      | Ok y =>
          match result_mapM f l' with
          | Ok ys => Ok (y :: ys)
          | Raise e => Raise e
          end
      | Raise e => Raise e
      end
  end.

(* ===================================================================== *)
(** * Floating point: binary64 *)
(* ===================================================================== *)

Module Float.

#[local] Open Scope Z_scope.

Definition prec : Z := 53.
Definition emax : Z := 1024.

Definition t : Type := spec_float.

Definition nan : t := S754_nan.
Definition inf (neg : bool) : t := S754_infinity neg.

Definition is_nan (x : t) : bool :=
  match x with S754_nan => true | _ => false end.

Definition is_zero (x : t) : bool :=
  match x with S754_zero _ => true | _ => false end.

(** [==], [<=] of IEEE-754: any comparison with NaN is false. *)
Definition eqb (x y : t) : bool := SFeqb x y.
Definition leb (x y : t) : bool := SFleb x y.

(** Python's [x != y] on floats. *)
Definition neqb (x y : t) : bool := negb (eqb x y).

(** The float nearest to an integer. *)
Definition of_Z (z : Z) : t := binary_normalize prec emax z 0 false.

(** The float nearest to [(-1)^neg * m * 10^e] (round to nearest, ties to
    even), which is what a correctly rounded decimal-to-binary conversion
    returns. *)
Definition of_decimal (neg : bool) (m : Z) (e : Z) : t :=
  match m with
  | Z0 => S754_zero neg
  | Zneg _ => S754_nan
  | Zpos p =>
      match e with
      | Zneg k =>
          SFdiv prec emax (S754_finite neg p 0)
                          (S754_finite false (Pos.pow 10 k) 0)
      | _ =>
          match m * 10 ^ e with
          | Zpos q => binary_round prec emax neg q 0
          | _ => S754_nan
          end
      end
  end.



#[global] Instance eq_dec : EqDecision t.
Proof. solve_decision. Defined.

End Float.

(* ===================================================================== *)
(** * Python's [float(str)] and [str.replace] *)
(* ===================================================================== *)

Module Py.

#[local] Open Scope Z_scope.

Definition chars (s : string) : list ascii := list_ascii_of_string s.

Definition code (c : ascii) : nat := nat_of_ascii c.

(** ASCII white space, as [Py_ISSPACE] has it. *)
Definition is_space (c : ascii) : bool :=
  let n := code c in
  ((9 <=? n)%nat && (n <=? 13)%nat) || ((28 <=? n)%nat && (n <=? 32)%nat).

Definition is_digit (c : ascii) : bool :=
  let n := code c in (48 <=? n)%nat && (n <=? 57)%nat.

Definition digit_value (c : ascii) : Z := Z.of_nat (code c) - 48.

Definition lower (c : ascii) : ascii :=
  let n := code c in
  if (65 <=? n)%nat && (n <=? 90)%nat then ascii_of_nat (n + 32) else c.

Fixpoint lstrip (l : list ascii) : list ascii :=
  match l with
  | c :: l' => if is_space c then lstrip l' else l
  | [] => []
  end.

Definition strip (l : list ascii) : list ascii :=
  rev (lstrip (rev (lstrip l))).

(** Underscores are allowed only between two digits. *)
Fixpoint drop_underscores (prev : option ascii) (l : list ascii)
  : option (list ascii) :=
  match l with
  | [] => Some []
  | c :: l' =>
      if Ascii.eqb c "_" then
        match prev, l' with
        | Some p, n :: _ =>
            if is_digit p && is_digit n
            then drop_underscores (Some c) l'
            else None
        | _, _ => None
        end
      else option_map (cons c) (drop_underscores (Some c) l')
  end.

Fixpoint span (p : ascii -> bool) (l : list ascii)
  : list ascii * list ascii :=
  match l with
  | c :: l' =>
      if p c then let '(a, b) := span p l' in (c :: a, b) else ([], l)
  | [] => ([], [])
  end.

Definition digits_value (ds : list ascii) : Z :=
  fold_left (fun acc c => 10 * acc + digit_value c) ds 0.

Definition take_sign (l : list ascii) : bool * list ascii :=
  match l with
  | c :: l' =>
      if Ascii.eqb c "-" then (true, l')
      else if Ascii.eqb c "+" then (false, l')
      else (false, l)
  | [] => (false, [])
  end.

Definition is_e (c : ascii) : bool := Ascii.eqb c "e" || Ascii.eqb c "E".

(** The exponent part: nothing, or [e], an optional sign and digits. *)
Definition parse_exponent (l : list ascii) : option Z :=
  match l with
  | [] => Some 0
  | c :: l' =>
      if is_e c then
        let '(neg, l1) := take_sign l' in
        let '(ds, rest) := span is_digit l1 in
        match ds, rest with
        | _ :: _, [] =>
            Some (if neg then - digits_value ds else digits_value ds)
        | _, _ => None
        end
      else None
  end.

(** A decimal literal without its sign: mantissa digits with an optional
    point, then an optional exponent.  Returns the integer mantissa and
    the decimal exponent. *)
Definition parse_decimal (l : list ascii) : option (Z * Z) :=
  let '(ip, l1) := span is_digit l in
  let '(fp, l2) :=
    match l1 with
    | c :: l1' => if Ascii.eqb c "." then span is_digit l1' else ([], l1)
    | [] => ([], [])
    end in
  match ip ++ fp with
  | [] => None
  | ds =>
      match parse_exponent l2 with
      | Some e => Some (digits_value ds, e - Z.of_nat (length fp))
      | None => None
      end
  end.

Definition keyword (l : list ascii) : string :=
  string_of_list_ascii (map lower l).

(** [float(s)]: [None] stands for [ValueError].  White space is stripped,
    single underscores between digits are dropped, then the text is an
    optional sign followed by [inf], [infinity] or [nan] (in any case) or
    by a decimal literal.  Only ASCII is read: digits and white space
    outside ASCII, which Python also accepts, are not. *)
Definition float_of_string (s : string) : option Float.t :=
  match drop_underscores None (strip (chars s)) with
  | None => None
  | Some l =>
      let '(neg, body) := take_sign l in
      let kw := keyword body in
      if String.eqb kw "inf" || String.eqb kw "infinity"
      then Some (Float.inf neg)
      else if String.eqb kw "nan" then Some Float.nan
      else
        match parse_decimal body with
        | Some (m, e) => Some (Float.of_decimal neg m e)
        | None => None
        end
  end.

(** [s.replace(old, new)] for one-character [old] and [new]. *)
Definition replace_char (old new : ascii) (s : string) : string :=
  string_of_list_ascii
    (map (fun c => if Ascii.eqb c old then new else c) (chars s)).

End Py.

(* ===================================================================== *)
(** * Cells and data frames *)
(* ===================================================================== *)

(** A cell of a frame (or of a stored table): missing, text or number.
    In a numeric column the missing value is the float NaN. *)
Inductive cell : Type :=
| NA
| Str (s : string)
| Num (x : Float.t).

#[global] Instance cell_eq_dec : EqDecision cell.
Proof. solve_decision. Defined.

(** [pandas.isna] *)
Definition isna (c : cell) : bool :=
  match c with
  | NA => true
  | Str _ => false
  | Num x => Float.is_nan x
  end.

Definition notna (c : cell) : bool := negb (isna c).

Abbreviation row := (list cell) (only parsing).

Record DataFrame : Type := mkFrame {
  columns : list string;
  rows : list row
}.

#[global] Instance DataFrame_eq_dec : EqDecision DataFrame.
Proof. solve_decision. Defined.

(** The cell of a row at a position; a row too short reads as missing. *)
Definition cell_at (i : nat) (r : row) : cell := default NA (r !! i).

(** ** Column labels *)

(** All positions at which a label occurs. *)
Fixpoint positions_from (start : nat) (label : string) (cols : list string)
  : list nat :=
  match cols with
  | [] => []
  | c :: cols' =>
      if String.eqb c label
      then start :: positions_from (S start) label cols'
      else positions_from (S start) label cols'
  end.

Definition positions (label : string) (cols : list string) : list nat :=
  positions_from 0 label cols.

(** [df.columns.get_indexer_for([label])]: every position of the label,
    [KeyError] when there is none. *)
Definition get_locs (label : string) (cols : list string) : result (list nat) :=
  match positions label cols with
  | [] => Raise (KeyError label)
  | ps => Ok ps
  end.

(** [df[label]] as a series: the position of the one column with that
    label.  A label that names several columns makes pandas return a
    sub-frame, to which the series operations of the flow do not apply
    ([.str], [to_numeric]) and which the store refuses on write: the model
    raises at the look-up. *)
Definition get_loc (label : string) (cols : list string) : result nat :=
  match positions label cols with
  | [] => Raise (KeyError label)
  | [i] => Ok i
  | _ => Raise (ValueError label)
  end.

(** [label in df.columns] *)
Definition has_column (label : string) (df : DataFrame) : bool :=
  bool_decide (label ∈ columns df).

(** ** Frame operations *)

(** [dict(zip(keys, values))]: pairs are inserted from left to right, a
    later pair replaces an earlier one with the same key, and the shorter
    list decides the length. *)
Fixpoint dict_zip (keys values : list string) (d : gmap string string)
  : gmap string string :=
  match keys, values with
  | k :: keys', v :: values' => dict_zip keys' values' (<[k := v]> d)
  | _, _ => d
  end.

(** [df.rename(columns=mapping)]: a label found in the mapping is replaced,
    the others are kept; cells do not move. *)
Definition rename (mapping : gmap string string) (df : DataFrame) : DataFrame :=
  {| columns := map (fun c => default c (mapping !! c)) (columns df);
     rows := rows df |}.

(** [df.dropna(subset=labels)]: keep the rows whose cells under all the
    labels are present. *)
Definition dropna (subset : list string) (df : DataFrame) : result DataFrame :=
  idx ← result_mapM (fun l => get_locs l (columns df)) subset;
  Ok {| columns := columns df;
        rows := List.filter
                  (fun r => forallb (fun i => notna (cell_at i r)) (concat idx))
                  (rows df) |}.

(** [df[label] = f(df[label])] for an element-wise [f] that may raise. *)
Definition assign (label : string) (f : cell -> result cell) (df : DataFrame)
  : result DataFrame :=
  i ← get_loc label (columns df);
  rs ← result_mapM (fun r => c ← f (cell_at i r); Ok (<[i := c]> r)) (rows df);
  Ok {| columns := columns df; rows := rs |}.

(** [df[mask(df[label])]]: boolean indexing on one column. *)
Definition where_ (label : string) (mask : cell -> bool) (df : DataFrame)
  : result DataFrame :=
  i ← get_loc label (columns df);
  Ok {| columns := columns df;
        rows := List.filter (fun r => mask (cell_at i r)) (rows df) |}.

(** [df[labels]]: projection on a list of labels, in the order given. *)
Definition select (labels : list string) (df : DataFrame) : result DataFrame :=
  idx ← result_mapM (fun l => get_loc l (columns df)) labels;
  Ok {| columns := labels;
        rows := map (fun r => map (fun i => cell_at i r) idx) (rows df) |}.

(** Two cells are the same for [drop_duplicates] when they hash alike:
    every missing value is one value, and so are the two zeros. *)
Definition hash_key (c : cell) : cell :=
  match c with
  | NA => NA
  | Str s => Str s
  | Num x =>
      if Float.is_nan x then NA
      else if Float.is_zero x then Num (S754_zero false)
      else Num x
  end.

(** Keep the first row of every key. *)
Fixpoint keep_first {K} `{EqDecision K} (key : row -> K) (seen : list K)
    (l : list row) : list row :=
  match l with
  | [] => []
  | r :: l' =>
      if decide (key r ∈ seen)
      then keep_first key seen l'
      else r :: keep_first key (key r :: seen) l'
  end.

Definition row_key (idx : list nat) (r : row) : list cell :=
  map (fun i => hash_key (cell_at i r)) idx.

(** [df.drop_duplicates(subset)], [keep='first']. *)
Definition drop_duplicates_on (subset : list string) (df : DataFrame)
  : result DataFrame :=
  idx ← result_mapM (fun l => get_loc l (columns df)) subset;
  Ok {| columns := columns df;
        rows := keep_first (row_key idx) [] (rows df) |}.

(** [df.drop_duplicates()]: all the columns are the key. *)
Definition drop_duplicates (df : DataFrame) : result DataFrame :=
  drop_duplicates_on (columns df) df.

(** ** Sorting *)

(** The order of [sort_values] on one column: ascending, missing values
    last.  Text is compared byte-wise (which is the code-point order of
    UTF-8 text), numbers by [<=].  Text and numbers are not comparable in
    Python. *)
Definition cell_leb (a b : cell) : bool :=
  if isna b then true
  else if isna a then false
  else
    match a, b with
    | Str s, Str t => String.leb s t
    | Num x, Num y => Float.leb x y
    | Num _, Str _ => true
    | _, _ => false
    end.

Definition string_le (a b : string) : Prop := String.leb a b = true.

#[global] Instance string_le_dec a b : Decision (string_le a b).
Proof. unfold string_le. apply _. Defined.

Definition is_text (c : cell) : bool :=
  match c with Str _ => true | _ => false end.

Definition is_number (c : cell) : bool :=
  match c with Num x => negb (Float.is_nan x) | _ => false end.

(** A column can be sorted when it does not mix text and numbers. *)
Definition comparable (keys : list cell) : bool :=
  negb (existsb is_text keys && existsb is_number keys).

Definition key_le (i : nat) (r1 r2 : row) : Prop :=
  cell_leb (cell_at i r1) (cell_at i r2) = true.

#[global] Instance key_le_dec i r1 r2 : Decision (key_le i r1 r2).
Proof. unfold key_le. apply _. Defined.

(** [df.sort_values(label)].  pandas does not promise an order among rows
    with equal keys; the model fixes the one of a merge sort. *)
Definition sort_values (label : string) (df : DataFrame) : result DataFrame :=
  i ← get_loc label (columns df);
  if comparable (map (cell_at i) (rows df))
  then Ok {| columns := columns df; rows := merge_sort (key_le i) (rows df) |}
  else Raise TypeError.

(* ===================================================================== *)
(** * [transform_data] *)
(* ===================================================================== *)

Definition new_names : list string :=
  [ "section"; "indicator"; "unit"; "code"; "substance";
    "source_type"; "emission_type"; "location_level"; "region";
    "municipal_district"; "municipal_formation"; "oktmo_code";
    "year"; "value" ].

(** [dd.to_numeric(series, errors='coerce')]: text that is not a number
    becomes NaN.  The result is kept as a float, and the literals are read
    as [float] reads them (the parser of pandas may differ on unusual
    literals); nothing below depends on the value of a year. *)
Definition to_numeric_coerce (c : cell) : result cell :=
  Ok (match c with
      | Str s => Num (default Float.nan (Py.float_of_string s))
      | NA => Num Float.nan
      | Num x => Num x
      end).

(** [series.str.replace(old, new)]: a cell that is not text becomes
    missing. *)
Definition str_replace (old new : ascii) (c : cell) : cell :=
  match c with
  | Str s => Str (Py.replace_char old new s)
  | _ => NA
  end.

(** [series.astype('float')]: [float(s)] on every text cell; text that is
    not a float literal raises [ValueError]. *)
Definition astype_float (c : cell) : result cell :=
  match c with
  | Str s =>
      match Py.float_of_string s with
      | Some x => Ok (Num x)
      | None => Raise (ValueError s)
      end
  | NA => Ok (Num Float.nan)
  | Num x => Ok (Num x)
  end.

(** The literal [9999999999.0]. *)
Definition sentinel : Float.t := Float.of_Z 9999999999%Z.

(** [series != y] for a float [y]. *)
Definition ne_float (y : Float.t) (c : cell) : bool :=
  match c with
  | Num x => Float.neqb x y
  | _ => true
  end.

(** [series.isin(values)] *)
Definition isin (values : list string) (c : cell) : bool :=
  match c with
  | Str s => bool_decide (s ∈ values)
  | _ => false
  end.

Definition required : list string := ["value"; "section"; "code"; "substance"].
Definition excluded_substances : list string := ["CD"; "ND"].

(** The body of the [try] of [transform_data], steps 1 to 5.  The Dask
    frame is evaluated at [compute]; the building of the frame and its
    evaluation are both inside the [try], so an exception of the
    conversion is the exception of the body. *)
Definition transform_data_body (df : DataFrame) : result DataFrame :=
  let df := rename (dict_zip (columns df) new_names ∅) df in
  df_cleaned ← dropna required df;
  df_cleaned ←
    (if has_column "year" df_cleaned
     then assign "year" to_numeric_coerce df_cleaned
     else Ok df_cleaned);
  df_cleaned ←
    (if has_column "value" df_cleaned
     then assign "value" (fun c => astype_float (str_replace "," "." c)) df_cleaned
     else Ok df_cleaned);
  let df_final := df_cleaned in
  df_final ← where_ "value" (ne_float sentinel) df_final;
  df_final ← where_ "substance" (fun c => negb (isin excluded_substances c)) df_final;
  Ok df_final.

(* ===================================================================== *)
(** * The SQLite store *)
(* ===================================================================== *)

(** A database file holds named tables and named indexes.  Names are
    compared exactly, and a table and an index never share a name:
    SQLite's case-insensitive matching of ASCII letters, its single name
    space for tables and indexes, and its column affinities are outside
    the model (the pipeline writes and reads its own names, and its key
    columns are all text). *)
Record Index : Type := mkIndex {
  index_table : string;
  index_column : string
}.

#[global] Instance Index_eq_dec : EqDecision Index.
Proof. solve_decision. Defined.

Record Database : Type := mkDatabase {
  tables : gmap string DataFrame;
  indexes : gmap string Index
}.

Definition empty_db : Database := {| tables := ∅; indexes := ∅ |}.

Module SQL.

(** What a frame cell becomes when it is written: NaN is stored as
    NULL. *)
Definition value (c : cell) : cell := if isna c then NA else c.

Definition stored (df : DataFrame) : DataFrame :=
  {| columns := columns df; rows := map (map value) (rows df) |}.

(** [DROP TABLE name]: the table goes, and its indexes with it. *)
Definition drop_table (name : string) (db : Database) : Database :=
  {| tables := delete name (tables db);
     indexes := filter (fun kv => index_table kv.2 <> name) (indexes db) |}.

(** [df.to_sql(name, conn, if_exists='replace', index=False)]: drop the
    table when it exists, create it from the frame and insert the rows.
    The create statement fails on a repeated column name. *)
Definition to_sql (name : string) (df : DataFrame) (db : Database)
  : result unit * Database :=
  let db := drop_table name db in
  if bool_decide (NoDup (columns df)) then
    (Ok tt, {| tables := <[name := stored df]> (tables db);
               indexes := indexes db |})
  else (Raise (OperationalError "duplicate column name"), db).

(** [CREATE INDEX IF NOT EXISTS idx ON table(column)] *)
Definition create_index (table idx column : string) (db : Database)
  : result unit * Database :=
  match tables db !! table with
  | None => (Raise (OperationalError table), db)
  | Some t =>
      match indexes db !! idx with
      | Some _ => (Ok tt, db)
      | None =>
          if bool_decide (column ∈ columns t) then
            (Ok tt, {| tables := tables db;
                       indexes := <[idx := mkIndex table column]> (indexes db) |})
          else (Raise (OperationalError column), db)
      end
  end.

(** [SELECT name FROM sqlite_master WHERE type='table' ORDER BY name] *)
Definition table_names (db : Database) : list string :=
  merge_sort string_le (elements (dom (tables db))).

(** Three-valued logic: [None] is NULL (unknown). *)
Definition tv : Type := option bool.

Definition is_null (c : cell) : bool := isna c.

(** Equality of two values that are not NULL. *)
Definition same (a b : cell) : bool :=
  match a, b with
  | Str s, Str t => String.eqb s t
  | Num x, Num y => Float.eqb x y
  | _, _ => false
  end.

(** [x IN (v1, ..., vn)]: false on the empty list whatever [x] is; NULL
    when [x] is NULL; true when some [vi] equals [x]; otherwise NULL when
    some [vi] is NULL, and false when none is. *)
Definition in_ (x : cell) (vs : list cell) : tv :=
  match vs with
  | [] => Some false
  | _ =>
      if is_null x then None
      else if existsb (fun v => negb (is_null v) && same x v) vs then Some true
      else if existsb is_null vs then None
      else Some false
  end.

Definition not_ (b : tv) : tv := option_map negb b.

(** A [WHERE] clause keeps the rows on which the condition is true. *)
Definition holds (b : tv) : bool :=
  match b with Some true => true | _ => false end.

(** [COUNT(DISTINCT x)]: the number of distinct values that are not
    NULL. *)
Definition count_distinct (vs : list cell) : nat :=
  length (remove_dups (map hash_key (List.filter (fun v => negb (is_null v)) vs))).

Definition table (name : string) (db : Database) : result DataFrame :=
  match tables db !! name with
  | Some t => Ok t
  | None => Raise (OperationalError name)
  end.

Definition column (label : string) (t : DataFrame) : result nat :=
  match positions label (columns t) with
  | i :: _ => Ok i
  | [] => Raise (OperationalError label)
  end.

(** [COUNT(DISTINCT x)] over the rows on which [x NOT IN sub] is true,
    [x] being the column at position [i]. *)
Definition count_where_not_in (i : nat) (fact_rows : list row) (sub : list cell)
  : nat :=
  let kept := List.filter (fun r => holds (not_ (in_ (cell_at i r) sub))) fact_rows in
  count_distinct (map (cell_at i) kept).

(** [SELECT COUNT(DISTINCT fc) FROM ft WHERE fc NOT IN (SELECT dc FROM dt)].
    Each column is looked up in its own table; a table or a column that is
    not there is an [OperationalError]. *)
Definition count_not_in (ft fc dt dc : string) (db : Database) : result nat :=
  fact ← table ft db;
  dim ← table dt db;
  i ← column fc fact;
  j ← column dc dim;
  Ok (count_where_not_in i (rows fact) (map (cell_at j) (rows dim))).

End SQL.

(* ===================================================================== *)
(** * Tasks: state, exceptions and the logger *)
(* ===================================================================== *)

Inductive level : Type := DEBUG | INFO | WARNING | ERROR.

(** The log keeps the records that report an outcome: warnings, errors,
    the creation of an index and the result of every integrity check.
    Progress messages, which only echo sizes and names, are left out. *)
Inductive message : Type :=
| TaskFailed (task : string) (e : exn)
| IndexCreated (idx : string)
| IndexFailed (idx : string) (e : exn)
| TableEmpty (name : string)
| ReferencesOk (check : string)
| ReferencesMissing (check : string) (missing : nat)
| CheckFailed (check : string) (e : exn).

Definition record : Type := level * message.

(** What a run can see and change: the CSV files as [dd.read_csv] reads
    them (read only), the database files by path, and the log. *)
Record World : Type := mkWorld {
  files : gmap string DataFrame;
  dbs : gmap string Database;
  log : list record
}.

Definition Task (A : Type) : Type := World -> result A * World.

#[global] Instance task_ret : MRet Task := fun A a w => (Ok a, w).
#[global] Instance task_bind : MBind Task := fun A B f m w =>
  match m w with
  | (Ok a, w') => f a w'
  | (Raise e, w') => (Raise e, w')
  end.

Definition lift {A} (r : result A) : Task A := fun w => (r, w).

Definition raise {A} (e : exn) : Task A := fun w => (Raise e, w).

(** [try: body except Exception as e: handler(e)] *)
Definition try_except {A} (body : Task A) (handler : exn -> Task A) : Task A :=
  fun w =>
    match body w with
    | (Ok a, w') => (Ok a, w')
    | (Raise e, w') => handler e w'
    end.

(** The world with more records in the log, and with a database file
    replaced. *)
Definition add_log (rs : list record) (w : World) : World :=
  {| files := files w; dbs := dbs w; log := log w ++ rs |}.

Definition put_db (db_path : string) (db : Database) (w : World) : World :=
  {| files := files w; dbs := <[db_path := db]> (dbs w); log := log w |}.

Definition logger (l : level) (m : message) : Task unit :=
  fun w => (Ok tt, add_log [(l, m)] w).

(** The handler every task ends with: log the error and raise it again. *)
Definition logged {A} (task : string) (body : Task A) : Task A :=
  try_except body (fun e => _ ← logger ERROR (TaskFailed task e); raise e).

(** [for x in xs: body(x)] *)
Fixpoint for_each {A} (xs : list A) (body : A -> Task unit) : Task unit :=
  match xs with
  | [] => mret tt
  | x :: xs' => _ ← body x; for_each xs' body
  end.

(** [sqlite3.connect(db_path)] opens the file and creates it empty when it
    is not there: a path without a file reads as the empty database. *)
Definition database_at (db_path : string) (w : World) : Database :=
  default empty_db (dbs w !! db_path).

(** A statement run on the connection; its effect is committed. *)
Definition execute {A} (db_path : string)
    (stmt : Database -> result A * Database) : Task A :=
  fun w =>
    let '(r, db') := stmt (database_at db_path w) in
    (r, put_db db_path db' w).

(** A query: it reads the database and leaves it as it is. *)
Definition query {A} (db_path : string) (q : Database -> result A) : Task A :=
  fun w => (q (database_at db_path w), w).

(** A task with [retries=n] is run again, up to [n] more times, when it
    raises. *)
Fixpoint with_retries {A} (n : nat) (t : Task A) : Task A :=
  fun w =>
    match t w with
    | (Ok a, w') => (Ok a, w')
    | (Raise e, w') =>
        match n with
        | O => (Raise e, w')
        | S n' => with_retries n' t w'
        end
    end.

(* ===================================================================== *)
(** * [extract_data] *)
(* ===================================================================== *)

Definition read_csv (file_path : string) : Task DataFrame :=
  fun w =>
    match files w !! file_path with
    | Some df => (Ok df, w)
    | None => (Raise (FileNotFoundError file_path), w)
    end.

Definition extract_data (file_path : string) : Task DataFrame :=
  with_retries 2 (logged "extract_data" (read_csv file_path)).

(** [transform_data] as a task. *)
Definition transform_data (df : DataFrame) : Task DataFrame :=
  logged "transform_data" (lift (transform_data_body df)).

(* ===================================================================== *)
(** * [create_database_tables] *)
(* ===================================================================== *)

Definition air_emissions_cols : list string :=
  ["section"; "code"; "substance"; "value"; "oktmo_code"; "year"].

Definition location_cols : list string :=
  ["oktmo_code"; "municipal_formation"; "municipal_district"; "region"].

(** (table, index name, column) *)
Definition index_specs : list (string * string * string) :=
  [ ("air_emissions", "idx_air_year", "year");
    ("air_emissions", "idx_air_code", "code");
    ("air_emissions", "idx_air_substance", "substance");
    ("air_emissions", "idx_air_section", "section");
    ("air_emissions", "idx_air_oktmo", "oktmo_code");
    ("indicator_codes", "idx_indicator_code", "code");
    ("substance_types", "idx_substance", "substance");
    ("location_codes", "idx_location_oktmo", "oktmo_code") ].

(** The body of the loop over [indexes]. *)
Definition create_index_logged (db_path : string) (spec : string * string * string)
  : Task unit :=
  let '(table, idx_name, column) := spec in
  try_except
    (_ ← execute db_path (SQL.create_index table idx_name column);
     logger DEBUG (IndexCreated idx_name))
    (fun e => logger WARNING (IndexFailed idx_name e)).

Definition create_indexes (db_path : string) : Task unit :=
  for_each index_specs (create_index_logged db_path).

Definition stats_t : Type := list (string * nat).

Definition total (stats : stats_t) : nat := sum_list (map snd stats).

Definition create_database_tables_body (df_final : DataFrame) (db_path : string)
  : Task (nat * stats_t) :=
  let stats : stats_t := [] in
  (* 1. air_emissions *)
  air_emissions_df ← lift (select air_emissions_cols df_final);
  _ ← execute db_path (SQL.to_sql "air_emissions" air_emissions_df);
  let stats := stats ++ [("air_emissions", length (rows air_emissions_df))] in
  (* 2. indicator_codes *)
  indicator_data ← lift (select ["code"; "indicator"] df_final ≫= drop_duplicates);
  indicator_data ← lift (sort_values "code" indicator_data);
  _ ← execute db_path (SQL.to_sql "indicator_codes" indicator_data);
  let stats := stats ++ [("indicator_codes", length (rows indicator_data))] in
  (* 3. substance_types *)
  substance_data ← lift (select ["substance"; "source_type"] df_final
                          ≫= drop_duplicates_on ["substance"]);
  substance_data ← lift (sort_values "substance" substance_data);
  _ ← execute db_path (SQL.to_sql "substance_types" substance_data);
  let stats := stats ++ [("substance_types", length (rows substance_data))] in
  (* 4. location_codes *)
  location_data ← lift (select location_cols df_final ≫= drop_duplicates);
  location_data ← lift (sort_values "oktmo_code" location_data);
  _ ← execute db_path (SQL.to_sql "location_codes" location_data);
  let stats := stats ++ [("location_codes", length (rows location_data))] in
  (* indexes *)
  _ ← create_indexes db_path;
  mret (total stats, stats).

Definition create_database_tables (df_final : DataFrame) (db_path : string)
  : Task (nat * stats_t) :=
  logged "create_database_tables" (create_database_tables_body df_final db_path).

(* ===================================================================== *)
(** * [validate_database] *)
(* ===================================================================== *)

Record TableInfo : Type := mkInfo {
  row_count : nat;
  info_columns : list string;
  sample : list row
}.

(** [SELECT COUNT( * )], [PRAGMA table_info] and [SELECT * ... LIMIT 2] *)
Definition describe (t : DataFrame) : TableInfo :=
  {| row_count := length (rows t);
     info_columns := columns t;
     sample := take 2 (rows t) |}.

(** One referential check: its name in the log and the query
    [SELECT COUNT(DISTINCT c) FROM air_emissions
       WHERE c NOT IN (SELECT c FROM dim)]. *)
Record check : Type := mkCheck {
  check_name : string;
  key : string;
  dim : string
}.

Definition checks : list check :=
  [ mkCheck "Проверка indicator_codes" "code" "indicator_codes";
    mkCheck "Проверка substance_types" "substance" "substance_types";
    mkCheck "Проверка location_codes" "oktmo_code" "location_codes" ].

Definition run_query (c : check) (db : Database) : result nat :=
  SQL.count_not_in "air_emissions" (key c) (dim c) (key c) db.

Definition report (c : check) (missing : nat) : record :=
  match missing with
  | O => (INFO, ReferencesOk (check_name c))
  | S _ => (WARNING, ReferencesMissing (check_name c) missing)
  end.

Definition run_check (db_path : string) (c : check) : Task unit :=
  try_except
    (missing ← query db_path (run_query c);
     let '(l, m) := report c missing in logger l m)
    (fun e => logger ERROR (CheckFailed (check_name c) e)).

Definition inspect_table (db_path : string) (table_name : string)
  : Task TableInfo :=
  info ← query db_path (fun db => describe <$> SQL.table table_name db);
  _ ← (if Nat.eqb (row_count info) 0
       then logger WARNING (TableEmpty table_name)
       else mret tt);
  mret info.

Fixpoint inspect_tables (db_path : string) (names : list string)
    (validation_results : gmap string TableInfo)
  : Task (gmap string TableInfo) :=
  match names with
  | [] => mret validation_results
  | table_name :: names' =>
      info ← inspect_table db_path table_name;
      inspect_tables db_path names' (<[table_name := info]> validation_results)
  end.

Definition validate_database_body (db_path : string)
  : Task (gmap string TableInfo) :=
  tables ← query db_path (fun db => Ok (SQL.table_names db));
  validation_results ← inspect_tables db_path tables ∅;
  _ ← for_each checks (run_check db_path);
  mret validation_results.

Definition validate_database (db_path : string) : Task (gmap string TableInfo) :=
  logged "validate_database" (validate_database_body db_path).

(* ===================================================================== *)
(** * The flow *)
(* ===================================================================== *)

Record Summary : Type := mkSummary {
  timestamp : string;
  input_file : string;
  database_file : string;
  total_records_processed : nat;
  table_statistics : stats_t;
  validation_results : gmap string TableInfo;
  status : string
}.

(** [now] is the reading of the clock when the summary is built. *)
Definition air_quality_etl_flow (now : string)
    (data_file db_file : string) (run_validation : bool) : Task Summary :=
  raw_data ← extract_data data_file;
  transformed_data ← transform_data raw_data;
  '(total_records, table_stats) ← create_database_tables transformed_data db_file;
  validation_results ←
    (if run_validation then validate_database db_file else mret ∅);
  mret {| timestamp := now;
          input_file := data_file;
          database_file := db_file;
          total_records_processed := total_records;
          table_statistics := table_stats;
          validation_results := validation_results;
          status := "COMPLETED" |}.


(* ===================================================================== *)
(** * The pipeline on the input format *)
(* ===================================================================== *)

(** The input format: fourteen positional columns.  [read_csv] makes the
    labels of a header distinct, and with [dtype=str] every cell is text
    or missing. *)
Definition text_cell (c : cell) : bool :=
  match c with Num _ => false | _ => true end.

Definition text_frame (df : DataFrame) : Prop :=
  Forall (Forall (fun c => text_cell c = true)) (rows df).

Definition canonical (df : DataFrame) : Prop :=
  length (columns df) = 14 /\ NoDup (columns df).

(** Positions of the canonical labels in [new_names]. *)
Definition SECTION : nat := 0.
Definition INDICATOR : nat := 1.
Definition CODE : nat := 3.
Definition SUBSTANCE : nat := 4.
Definition SOURCE_TYPE : nat := 5.
Definition REGION : nat := 8.
Definition MUNICIPAL_DISTRICT : nat := 9.
Definition MUNICIPAL_FORMATION : nat := 10.
Definition OKTMO_CODE : nat := 11.
Definition YEAR : nat := 12.
Definition VALUE : nat := 13.

(** Step 2 on one row: the four required cells are present. *)
Definition complete_row (r : row) : bool :=
  notna (cell_at VALUE r) && notna (cell_at SECTION r)
  && notna (cell_at CODE r) && notna (cell_at SUBSTANCE r).

(** Step 3 on one row: the year, then the value. *)
Definition convert_row (r : row) : result row :=
  y ← to_numeric_coerce (cell_at YEAR r);
  let r := <[YEAR := y]> r in
  v ← astype_float (str_replace "," "." (cell_at VALUE r));
  Ok (<[VALUE := v]> r).

(** Step 5 on one row: neither the sentinel nor an excluded substance. *)
Definition valid_row (r : row) : bool :=
  ne_float sentinel (cell_at VALUE r)
  && negb (isin excluded_substances (cell_at SUBSTANCE r)).

(** The loader on a frame with the canonical labels, by position. *)
Definition project (idx : list nat) (r : row) : row :=
  map (fun i => cell_at i r) idx.

Definition fact_frame (rs : list row) : DataFrame :=
  {| columns := air_emissions_cols;
     rows := map (project [SECTION; CODE; SUBSTANCE; VALUE; OKTMO_CODE; YEAR]) rs |}.

(** A dimension frame: the projected rows, the first row of every key,
    sorted by the first column. *)
Definition dimension (labels : list string) (idx key_idx : list nat)
    (rs : list row) : result DataFrame :=
  let rows0 := keep_first (row_key key_idx) [] (map (project idx) rs) in
  if comparable (map (cell_at 0) rows0)
  then Ok {| columns := labels; rows := merge_sort (key_le 0) rows0 |}
  else Raise TypeError.

(** The four frames that [create_database_tables] writes, in the order in
    which it computes them. *)
Definition loader_frames (df_final : DataFrame)
  : result (DataFrame * DataFrame * DataFrame * DataFrame) :=
  air_emissions_df ← select air_emissions_cols df_final;
  indicator_data ← select ["code"; "indicator"] df_final ≫= drop_duplicates;
  indicator_data ← sort_values "code" indicator_data;
  substance_data ← select ["substance"; "source_type"] df_final
                     ≫= drop_duplicates_on ["substance"];
  substance_data ← sort_values "substance" substance_data;
  location_data ← select location_cols df_final ≫= drop_duplicates;
  location_data ← sort_values "oktmo_code" location_data;
  Ok (air_emissions_df, indicator_data, substance_data, location_data).


(** The store after the four writes, and after the indexes. *)
Definition write_tables (a i s l : DataFrame) (db : Database) : Database :=
  let db := (SQL.to_sql "air_emissions" a db).2 in
  let db := (SQL.to_sql "indicator_codes" i db).2 in
  let db := (SQL.to_sql "substance_types" s db).2 in
  (SQL.to_sql "location_codes" l db).2.

Definition add_index (db : Database) (spec : string * string * string) : Database :=
  let '(table, idx_name, column) := spec in
  (SQL.create_index table idx_name column db).2.

Definition add_indexes (db : Database) : Database :=
  foldl add_index db index_specs.

(** The database after a load. *)
Definition loaded_db (a i s l : DataFrame) (db : Database) : Database :=
  add_indexes (write_tables a i s l db).

Definition stats_of (a i s l : DataFrame) : stats_t :=
  [ ("air_emissions", length (rows a));
    ("indicator_codes", length (rows i));
    ("substance_types", length (rows s));
    ("location_codes", length (rows l)) ].

(** The four relations of the store. *)
Definition relation_names : list string :=
  ["air_emissions"; "indicator_codes"; "substance_types"; "location_codes"].

(** The four relations as they are stored, by name. *)
Definition relations (a i s l : DataFrame) : list (string * DataFrame) :=
  [ ("air_emissions", SQL.stored a);
    ("indicator_codes", SQL.stored i);
    ("substance_types", SQL.stored s);
    ("location_codes", SQL.stored l) ].



(** Every index of the list can be created: its table is there and has
    the column. *)
Definition indexable (db : Database) (specs : list (string * string * string)) : Prop :=
  Forall (fun '(table, _, column) =>
            exists t, tables db !! table = Some t /\ column ∈ columns t) specs.

(* ===================================================================== *)
(** * The log of the validator, and the specification's words *)
(* ===================================================================== *)




(** The values of the column of a table at a position. *)
Definition column_values (j : nat) (t : DataFrame) : list cell :=
  map (cell_at j) (rows t).

(** In the words of the specification: the distinct values present in the
    fact column and absent from the dimension column. *)
Definition absent_values (fact_keys dim_keys : list cell) : list cell :=
  remove_dups
    (List.filter (fun x => notna x && bool_decide (x ∉ dim_keys)) fact_keys).

(** The canonical names as the specification lists them: the twelfth is
    [location_code] there. *)
Definition names_in_spec : list string :=
  [ "section"; "indicator"; "unit"; "code"; "substance";
    "source_type"; "emission_type"; "location_level"; "region";
    "municipal_district"; "municipal_formation"; "location_code";
    "year"; "value" ].

(* ===================================================================== *)
(** * The log of a load, rows that differ in the year, what a task may change *)
(* ===================================================================== *)

(** The records of the log for the eight indexes, all created. *)
Definition index_log (specs : list (string * string * string)) : list record :=
  map (fun '(_, idx_name, _) => (DEBUG, IndexCreated idx_name)) specs.

(** Two rows that differ at most in the year cell. *)
Definition same_but_year (r1 r2 : row) : Prop :=
  <[YEAR := NA]> r1 = <[YEAR := NA]> r2.

(** The world [w'] differs from [w] at most in the database at [p] and in
    records added to the log. *)
Definition writes_only (p : string) (w w' : World) : Prop :=
  files w' = files w
  /\ (forall q, q <> p -> dbs w' !! q = dbs w !! q)
  /\ exists lg, log w' = log w ++ lg.

(** A task that, whatever it returns, changes at most the database at [p]
    and the log. *)
Definition confined (p : string) {A} (t : Task A) : Prop :=
  forall w, writes_only p w (t w).2.

(* ===================================================================== *)
(** * The dashboard: what [dashboard/app.py] reads from the store *)
(* ===================================================================== *)

(** The functions of the dashboard that read the database:
    [load_data], with its local [get_substance_info], and
    [get_all_substances_with_types] and
    [get_all_codes_with_descriptions].  (The page itself is not
    modelled.)  Each of them runs queries and then works on the rows in
    Python.

    - SQL does not fix the order of the rows of a query beyond its
      [ORDER BY]: a query is a relation between the database and the
      lists of rows that it may return, and so is each function.
    - The Python part is a function of the rows.
    - The columns of names hold text or NULL, as the loader writes them;
      pandas then hands NULL over as [None], which is [NA] here.
    - pandas reports an error of SQLite as its own [DatabaseError]; the
      result of a query that fails is [Raise] of the error of SQLite that
      causes it.
    - [st.cache_data] only keeps a result for later calls and is left
      out; so is the closing of the connection. *)

Module Dashboard.

(** ** Conditions of the queries *)

Definition and_ (a b : SQL.tv) : SQL.tv :=
  match a, b with
  | Some false, _ | _, Some false => Some false
  | Some true, Some true => Some true
  | _, _ => None
  end.

Definition is_not_null (c : cell) : SQL.tv := Some (negb (SQL.is_null c)).

(** [c != s] for a text literal [s]; a number is not equal to a text. *)
Definition differs (c : cell) (s : string) : SQL.tv :=
  if SQL.is_null c then None
  else match c with
       | Str t => Some (negb (String.eqb t s))
       | _ => Some true
       end.

(** [c > 0]; every text is greater than every number. *)
Definition positive (c : cell) : SQL.tv :=
  if SQL.is_null c then None
  else match c with
       | Num x => Some (SFltb (S754_zero false) x)
       | _ => Some true
       end.

(** [a = b] *)
Definition eq_ (a b : cell) : SQL.tv :=
  if SQL.is_null a || SQL.is_null b then None else Some (SQL.same a b).

(** [c IS NOT NULL AND c != ''] *)
Definition named (c : cell) : bool :=
  SQL.holds (and_ (is_not_null c) (differs c "")).

(** What the driver hands over for the column at a position: NULL is
    [None]. *)
Definition fetch (i : nat) (r : row) : cell := SQL.value (cell_at i r).

(** [DISTINCT], and the groups of a [GROUP BY] on all the columns
    selected: one row for every distinct row. *)
Definition distinct (rs : list row) : list row := keep_first (map hash_key) [] rs.

(** What [LEFT JOIN t ON x = t.c] joins to a row whose key is [x]: the
    rows of [t] that match or, when none does, one row of NULLs (the empty
    row reads as NULL at every position). *)
Definition left_join (x : cell) (j : nat) (t_rows : list row) : list row :=
  match List.filter (fun r => SQL.holds (eq_ x (cell_at j r))) t_rows with
  | [] => [[]]
  | matches => matches
  end.

(** ** The query of [get_all_codes_with_descriptions] *)

(** [FROM indicator_codes WHERE code IS NOT NULL AND code != ''], the
    columns code and indicator. *)
Definition code_rows (db : Database) : result (list row) :=
  t ← SQL.table "indicator_codes" db;
  i ← SQL.column "code" t;
  j ← SQL.column "indicator" t;
  Ok (map (fun r => [fetch i r; fetch j r])
          (List.filter (fun r => named (cell_at i r)) (rows t))).

(** [SELECT DISTINCT code, indicator, COUNT( * ) ... GROUP BY code,
    indicator ORDER BY code]: one row for every pair, sorted by code, in
    any order among the rows of one code.  The count is not read by the
    function and is left out.  (No code is NULL here, and on values that
    are not NULL the order of [ORDER BY] is the one of [cell_leb].) *)
Definition codes_query (db : Database) (res : result (list row)) : Prop :=
  match code_rows db with
  | Raise e => res = Raise e
  | Ok l =>
      exists out,
        res = Ok out /\ out ≡ₚ distinct l /\ StronglySorted (key_le 0) out
  end.

(** One result of the query: the order of a stable sort. *)
Definition run_codes_query (db : Database) : result (list row) :=
  l ← code_rows db;
  Ok (merge_sort (key_le 0) (distinct l)).

(** ** Python values *)

(** A dict whose values are lists that are not empty (every list is made
    by [d[k] = []] followed by [d[k].append(v)]): the keys in the order of
    insertion, each with the first element of its list and the rest. *)
Definition entries : Type := list (cell * (cell * list cell)).

(** [==] on keys that are [None], text or numbers. *)
Definition py_eq (a b : cell) : bool := bool_decide (hash_key a = hash_key b).

(** [d.get(k)] *)
Fixpoint lookup_key {V} (k : cell) (d : list (cell * V)) : option V :=
  match d with
  | [] => None
  | (k', v) :: d' => if py_eq k' k then Some v else lookup_key k d'
  end.

(** [if k not in d: d[k] = []] and [d[k].append(v)] *)
Fixpoint append_to (k v : cell) (d : entries) : entries :=
  match d with
  | [] => [(k, (v, []))]
  | (k', (v0, vs)) :: d' =>
      if py_eq k' k then (k', (v0, vs ++ [v])) :: d'
      else (k', (v0, vs)) :: append_to k v d'
  end.

(** The loop over [df.iterrows()] that fills the dict from rows of two
    columns. *)
Definition collect (rs : list row) : entries :=
  foldl (fun d r => append_to (cell_at 0 r) (cell_at 1 r) d) [] rs.

(** [sep.join(items)]: every item must be a [str]. *)
Definition join (sep : string) (items : list cell) : result string :=
  texts ← result_mapM (fun c => match c with
                                | Str s => Ok s
                                | _ => Raise TypeError
                                end) items;
  Ok (String.concat sep texts).

Section Formatting.

(** How Python writes a float in an f-string; the functions below write
    numbers only when a column of names holds numbers. *)
Variable float_repr : Float.t -> string.

(** [f"{x}"] *)
Definition py_str (c : cell) : string :=
  match c with
  | NA => "None"
  | Str s => s
  | Num x => float_repr x
  end.

(** ** [get_all_codes_with_descriptions] *)

(** The text shown for a code and its descriptions. *)
Definition display_code (code : cell) (indicators : cell * list cell)
  : result string :=
  let '(first, rest) := indicators in
  match rest with
  | [] => Ok (py_str code +:+ " - " +:+ py_str first)
  | _ :: _ =>
      joined ← join "; " (take 2 (first :: rest));
      Ok (py_str code +:+ " - " +:+ joined
          +:+ (if (2 <? length (first :: rest))%nat then "..." else ""))
  end.

(** The Python part: [codes_dict] and [codes_display_dict]. *)
Definition codes_of_rows (rs : list row)
  : result (entries * list (cell * string)) :=
  let codes_dict := collect rs in
  codes_display_dict ←
    result_mapM (fun '(code, indicators) =>
                   s ← display_code code indicators; Ok (code, s)) codes_dict;
  Ok (codes_dict, codes_display_dict).

Definition get_all_codes_with_descriptions (db : Database)
    (res : result (entries * list (cell * string))) : Prop :=
  exists q, codes_query db q /\ res = q ≫= codes_of_rows.

Definition run_get_all_codes_with_descriptions (db : Database)
  : result (entries * list (cell * string)) :=
  run_codes_query db ≫= codes_of_rows.

(** ** [load_data] *)

(** [FROM substance_types WHERE source_type IS NOT NULL AND source_type != ''],
    the columns substance and source_type. *)
Definition substance_rows (db : Database) : result (list row) :=
  t ← SQL.table "substance_types" db;
  i ← SQL.column "substance" t;
  j ← SQL.column "source_type" t;
  Ok (map (fun r => [fetch i r; fetch j r])
          (List.filter (fun r => named (cell_at j r)) (rows t))).

(** [SELECT DISTINCT substance, source_type ...], in any order. *)
Definition substances_query (db : Database) (res : result (list row)) : Prop :=
  match substance_rows db with
  | Raise e => res = Raise e
  | Ok l => exists out, res = Ok out /\ out ≡ₚ distinct l
  end.

Definition run_substances_query (db : Database) : result (list row) :=
  l ← substance_rows db; Ok (distinct l).

Definition data_columns : list string :=
  [ "section"; "code"; "substance"; "value"; "oktmo_code"; "year";
    "indicator"; "region"; "municipal_district"; "municipal_formation" ].

(** The main query: the facts whose value is positive, each joined to the
    rows of indicator_codes with its code and to the rows of
    location_codes with its location code. *)
Definition joined_rows (db : Database) : result (list row) :=
  ae ← SQL.table "air_emissions" db;
  ic ← SQL.table "indicator_codes" db;
  lc ← SQL.table "location_codes" db;
  section ← SQL.column "section" ae;
  code ← SQL.column "code" ae;
  substance ← SQL.column "substance" ae;
  value ← SQL.column "value" ae;
  oktmo_code ← SQL.column "oktmo_code" ae;
  year ← SQL.column "year" ae;
  ic_code ← SQL.column "code" ic;
  indicator ← SQL.column "indicator" ic;
  lc_oktmo_code ← SQL.column "oktmo_code" lc;
  region ← SQL.column "region" lc;
  municipal_district ← SQL.column "municipal_district" lc;
  municipal_formation ← SQL.column "municipal_formation" lc;
  Ok (flat_map
        (fun f =>
           flat_map
             (fun i_row =>
                map (fun l_row =>
                       [ fetch section f; fetch code f; fetch substance f;
                         fetch value f; fetch oktmo_code f; fetch year f;
                         fetch indicator i_row;
                         fetch region l_row; fetch municipal_district l_row;
                         fetch municipal_formation l_row ])
                    (left_join (cell_at oktmo_code f) lc_oktmo_code (rows lc)))
             (left_join (cell_at code f) ic_code (rows ic)))
        (List.filter (fun f => SQL.holds (positive (cell_at value f))) (rows ae))).

Definition data_query (db : Database) (res : result (list row)) : Prop :=
  match joined_rows db with
  | Raise e => res = Raise e
  | Ok l => exists out, res = Ok out /\ out ≡ₚ l
  end.

(** The local function of [load_data]: the name of a substance and the
    text shown for it. *)
Definition get_substance_info (substance_types_dict : entries) (substance : cell)
  : result (cell * cell) :=
  match lookup_key substance substance_types_dict with
  | Some (first, rest) =>
      match rest with
      | [] => Ok (first, first)
      | _ :: _ =>
          joined ← join ", " (first :: rest);
          Ok (first, Str (py_str substance +:+ " (" +:+ joined +:+ ")"))
      end
  | None => Ok (substance, substance)
  end.

(** The Python part of [load_data], from the rows of the two queries. *)
Definition load_data_frame (substances data : list row) : result DataFrame :=
  let substance_types_dict := collect substances in
  let df := {| columns := data_columns; rows := data |} in
  df ← (if has_column "year" df then assign "year" to_numeric_coerce df else Ok df);
  df ← (if has_column "value" df then assign "value" to_numeric_coerce df else Ok df);
  i ← get_loc "substance" (columns df);
  rs ← result_mapM
         (fun r =>
            '(name, display) ← get_substance_info substance_types_dict (cell_at i r);
            Ok (r ++ [name; display]))
         (rows df);
  Ok {| columns := columns df ++ ["substance_name"; "substance_display"];
        rows := rs |}.

Definition load_data (db : Database) (res : result DataFrame) : Prop :=
  exists qs,
    substances_query db qs
    /\ match qs with
       | Raise e => res = Raise e
       | Ok substances =>
           exists qd, data_query db qd /\ res = qd ≫= load_data_frame substances
       end.

Definition run_load_data (db : Database) : result DataFrame :=
  substances ← run_substances_query db;
  data ← joined_rows db;
  load_data_frame substances data.

(** ** [get_all_substances_with_types] *)

(** The order of [ORDER BY] on one column: NULL first, then numbers, then
    text. *)
Definition sql_leb (a b : cell) : bool :=
  if SQL.is_null a then true
  else if SQL.is_null b then false
  else cell_leb a b.

(** [COUNT( * )] of the group of a row: the rows equal to it. *)
Definition count_of (l : list row) (r : row) : nat :=
  length (List.filter (fun x => bool_decide (map hash_key x = map hash_key r)) l).

(** [ORDER BY st.substance, count DESC] *)
Definition types_leb (l : list row) (r1 r2 : row) : bool :=
  sql_leb (cell_at 0 r1) (cell_at 0 r2)
  && (negb (sql_leb (cell_at 0 r2) (cell_at 0 r1))
      || (count_of l r2 <=? count_of l r1)%nat).

Definition types_order (l : list row) (r1 r2 : row) : Prop :=
  types_leb l r1 r2 = true.

#[global] Instance types_order_dec l r1 r2 : Decision (types_order l r1 r2).
Proof. unfold types_order. apply _. Defined.

(** [SELECT DISTINCT st.substance, st.source_type as substance_type,
    COUNT( * ) as count ... GROUP BY st.substance, st.source_type ORDER BY
    st.substance, count DESC], on the rows of [substance_rows] (the same
    [FROM] and [WHERE] as in [load_data]): one row for every pair, in any
    order that the [ORDER BY] allows.  The count is not read by the
    function and is left out of the rows. *)
Definition types_query (db : Database) (res : result (list row)) : Prop :=
  match substance_rows db with
  | Raise e => res = Raise e
  | Ok l =>
      exists out,
        res = Ok out /\ out ≡ₚ distinct l /\ StronglySorted (types_order l) out
  end.

Definition run_types_query (db : Database) : result (list row) :=
  l ← substance_rows db;
  Ok (merge_sort (types_order l) (distinct l)).

Definition group_le (g1 g2 : cell * (cell * list cell)) : Prop :=
  cell_leb g1.1 g2.1 = true.

#[global] Instance group_le_dec g1 g2 : Decision (group_le g1 g2).
Proof. unfold group_le. apply _. Defined.

(** [df.groupby('substance')] on rows of two columns: the groups in the
    order of their keys, each with the types of its rows in the order of
    the rows; a row without substance is in no group. *)
Definition groupby (rs : list row) : entries :=
  merge_sort group_le (List.filter (fun g => notna g.1) (collect rs)).

(** The text shown for a substance and its types. *)
Definition display_substance (substance : cell) (types : cell * list cell)
  : result cell :=
  let '(first, rest) := types in
  match rest with
  | [] => Ok first
  | _ :: _ =>
      joined ← join ", " (take 2 (first :: rest));
      Ok (Str (py_str substance +:+ " (" +:+ joined
               +:+ (if (2 <? length (first :: rest))%nat then "..." else "")
               +:+ ")"))
  end.

(** The first loop: [substances_dict] from the groups. *)
Definition substances_of_rows (rs : list row) : result (list (cell * cell)) :=
  result_mapM (fun '(substance, types) =>
                 s ← display_substance substance types; Ok (substance, s))
              (groupby rs).

(** [FROM air_emissions WHERE substance IS NOT NULL], the column
    substance. *)
Definition fact_substance_rows (db : Database) : result (list row) :=
  t ← SQL.table "air_emissions" db;
  i ← SQL.column "substance" t;
  Ok (map (fun r => [fetch i r])
          (List.filter (fun r => SQL.holds (is_not_null (cell_at i r))) (rows t))).

(** [SELECT DISTINCT substance ...], in any order. *)
Definition all_substances_query (db : Database) (res : result (list row)) : Prop :=
  match fact_substance_rows db with
  | Raise e => res = Raise e
  | Ok l => exists out, res = Ok out /\ out ≡ₚ distinct l
  end.

Definition run_all_substances_query (db : Database) : result (list row) :=
  l ← fact_substance_rows db; Ok (distinct l).

(** The second loop: a substance of the facts that is not a key yet is
    added, with itself. *)
Definition add_missing (substances : list row) (d : list (cell * cell))
  : list (cell * cell) :=
  foldl (fun d r =>
           let substance := cell_at 0 r in
           match lookup_key substance d with
           | Some _ => d
           | None => d ++ [(substance, substance)]
           end)
        d substances.

Definition get_all_substances_with_types (db : Database)
    (res : result (list (cell * cell))) : Prop :=
  exists q,
    types_query db q
    /\ match q ≫= substances_of_rows with
       | Raise e => res = Raise e
       | Ok d =>
           exists q2,
             all_substances_query db q2
             /\ res = (q2 ≫= fun substances => Ok (add_missing substances d))
       end.

Definition run_get_all_substances_with_types (db : Database)
  : result (list (cell * cell)) :=
  rs ← run_types_query db;
  d ← substances_of_rows rs;
  substances ← run_all_substances_query db;
  Ok (add_missing substances d).

End Formatting.

End Dashboard.

(** ** Auxiliary definitions for the statements *)

(** The list under a key, empty when the key is not there. *)
Definition values_of (d : Dashboard.entries) (k : cell) : list cell :=
  match Dashboard.lookup_key k d with
  | Some (v, vs) => v :: vs
  | None => []
  end.

(** The number of rows of a table that an [ON] clause matches to a key. *)
Definition matches (x : cell) (j : nat) (t_rows : list row) : nat :=
  length (List.filter (fun r => SQL.holds (Dashboard.eq_ x (cell_at j r))) t_rows).

(** The rows of the main query on tables whose columns are in the order in
    which the loader writes them. *)
Definition joined_of (ae ic lc : DataFrame) : list row :=
  flat_map
    (fun f =>
       flat_map
         (fun i_row =>
            map (fun l_row =>
                   [ Dashboard.fetch 0 f; Dashboard.fetch 1 f; Dashboard.fetch 2 f;
                     Dashboard.fetch 3 f; Dashboard.fetch 4 f; Dashboard.fetch 5 f;
                     Dashboard.fetch 1 i_row;
                     Dashboard.fetch 3 l_row; Dashboard.fetch 2 l_row;
                     Dashboard.fetch 1 l_row ])
                (Dashboard.left_join (cell_at 4 f) 0 (rows lc)))
         (Dashboard.left_join (cell_at 1 f) 0 (rows ic)))
    (List.filter (fun f => SQL.holds (Dashboard.positive (cell_at 3 f))) (rows ae)).

(** The name that the dashboard gives to a substance, read off the rows
    of substance_types: the type of the first row with the substance
    whose type is neither NULL nor empty; the substance itself when there
    is none. *)
Definition substance_name (st_rows : list row) (substance : cell) : cell :=
  match List.find (fun t => Dashboard.py_eq (cell_at 0 t) substance
                            && Dashboard.named (cell_at 1 t)) st_rows with
  | Some t => Dashboard.fetch 1 t
  | None => substance
  end.

(** [pd.to_numeric(..., errors='coerce')] on one cell. *)
Definition numeric (c : cell) : cell :=
  match c with
  | Str s => Num (default Float.nan (Py.float_of_string s))
  | NA => Num Float.nan
  | Num x => Num x
  end.

(* ===================================================================== *)
(** * Sample data *)
(* ===================================================================== *)

(** A header of fourteen labels, as a CSV export carries it. *)
Definition sample_header : list string :=
  [ "razdel"; "pokazatel"; "ed_izm"; "kod"; "veshchestvo"; "tip_istochnika";
    "tip_vybrosa"; "uroven"; "region"; "rayon"; "mo"; "oktmo"; "god";
    "znachenie" ].

(** One raw row; the cells that the samples vary are the arguments. *)
Definition sample_row (code indicator substance source_type oktmo year value : cell)
  : row :=
  [ Str "1"; indicator; Str "t"; code; substance; source_type; Str "all";
    Str "mo"; Str "Region"; Str "District"; Str "Town"; oktmo; year; value ].

Definition sample_raw : DataFrame :=
  {| columns := sample_header;
     rows :=
       [ sample_row (Str "B2") (Str "Emitted") (Str "SO2") (Str "stationary")
                    (Str "45000000") (Str "2020") (Str "1234,5");
         sample_row (Str "A1") (Str "Captured") (Str "SO2") (Str "mobile")
                    NA (Str "2020") (Str "1,5");
         sample_row (Str "A1") (Str "Captured, total") (Str "NO") (Str "mobile")
                    (Str "46000000") (Str "2021") (Str "7");
         sample_row (Str "A1") (Str "Captured") (Str "CD") (Str "mobile")
                    (Str "46000000") (Str "2021") (Str "3");
         sample_row (Str "A1") (Str "Captured") (Str "NO") (Str "mobile")
                    (Str "46000000") (Str "2021") (Str "9999999999,0");
         sample_row (Str "A1") (Str "Captured") NA (Str "mobile")
                    (Str "46000000") (Str "2021") (Str "2") ] |}.

Definition world_with (df : DataFrame) : World :=
  {| files := {[ "air_emissions.csv" := df ]}; dbs := ∅; log := [] |}.

Definition sample_world : World := world_with sample_raw.

(** The sample frame after [transform_data]. *)
Definition sample_cleaned : DataFrame :=
  Eval vm_compute in
    match transform_data_body sample_raw with
    | Ok df => df
    | Raise _ => {| columns := []; rows := [] |}
    end.

(** A run of the flow on the sample file, with validation. *)
Definition sample_run : result Summary * World :=
  air_quality_etl_flow "2026-01-01T00:00:00" "air_emissions.csv"
    "air_emissions.db" true sample_world.

(** One valid row whose value is the text [NAN]. *)
Definition nan_raw : DataFrame :=
  {| columns := sample_header;
     rows := [ sample_row (Str "A1") (Str "Captured") (Str "SO2") (Str "mobile")
                          (Str "45000000") (Str "2020") (Str "NAN") ] |}.


(** The float 1234.5, which is 5429388417957888 * 2^-42. *)
Definition float_1234_5 : Float.t := S754_finite false 5429388417957888 (-42).

(** A store with orphans: the fact code [ZZ] and the fact location [99]
    have no row in their dimension, and the location dimension has a row
    whose key is NULL. *)
Definition orphan_facts : DataFrame :=
  {| columns := air_emissions_cols;
     rows := [ [Str "1"; Str "A1"; Str "SO2"; Num (Float.of_Z 7);
                Str "45"; Num (Float.of_Z 2020)];
               [Str "1"; Str "ZZ"; Str "SO2"; Num (Float.of_Z 8);
                Str "99"; Num (Float.of_Z 2021)];
               [Str "1"; Str "A1"; Str "SO2"; Num (Float.of_Z 9);
                NA; Num (Float.of_Z 2021)] ] |}.

Definition orphan_locations : DataFrame :=
  {| columns := location_cols;
     rows := [ [Str "45"; Str "Town"; Str "District"; Str "Region"];
               [NA; Str "Town"; Str "District"; Str "Region"] ] |}.

Definition orphan_db : Database :=
  {| tables :=
       {[ "air_emissions" := orphan_facts;
          "indicator_codes" :=
            {| columns := ["code"; "indicator"];
               rows := [ [Str "A1"; Str "Captured"] ] |};
          "substance_types" :=
            {| columns := ["substance"; "source_type"];
               rows := [ [Str "SO2"; Str "mobile"] ] |};
          "location_codes" := orphan_locations ]};
     indexes := ∅ |}.


Definition location_check : check :=
  mkCheck "Проверка location_codes" "oktmo_code" "location_codes".

(** A frame of thirteen columns: the value column is missing. *)
Definition short_raw : DataFrame :=
  {| columns := take 13 sample_header;
     rows := [ take 13 (sample_row (Str "A1") (Str "Captured") (Str "SO2")
                          (Str "mobile") (Str "45000000") (Str "2020") (Str "1")) ] |}.

(** The sample frame with every year cell unreadable. *)
Definition sample_raw_bad_years : DataFrame :=
  {| columns := columns sample_raw;
     rows := map (fun r => <[YEAR := Str "n/a"]> r) (rows sample_raw) |}.

(** A database that holds a table of its own, an index on it, an index of
    an earlier load and an index that took one of the loader's names. *)
Definition legacy_db : Database :=
  {| tables := {[ "notes" := {| columns := ["text"]; rows := [[Str "keep"]] |};
                  "air_emissions" := orphan_facts ]};
     indexes := {[ "idx_notes" := mkIndex "notes" "text";
                   "idx_old" := mkIndex "air_emissions" "value";
                   "idx_air_year" := mkIndex "notes" "text" ]} |}.

Definition legacy_world : World :=
  {| files := {[ "air_emissions.csv" := sample_raw ]};
     dbs := {[ "air_emissions.db" := legacy_db ]};
     log := [] |}.


(** The store after the sample run. *)
Definition sample_store : Database := database_at "air_emissions.db" sample_run.2.

(** Three of its relations. *)
Definition sample_facts : DataFrame :=
  Eval vm_compute in
    default {| columns := []; rows := [] |} (tables sample_store !! "air_emissions").

Definition sample_codes : DataFrame :=
  Eval vm_compute in
    default {| columns := []; rows := [] |} (tables sample_store !! "indicator_codes").

Definition sample_locations : DataFrame :=
  Eval vm_compute in
    default {| columns := []; rows := [] |} (tables sample_store !! "location_codes").

(** Two rows with one code: the first has no description. *)
Definition undescribed_raw : DataFrame :=
  {| columns := sample_header;
     rows := [ sample_row (Str "A1") NA (Str "SO2") (Str "stationary")
                          (Str "45000000") (Str "2020") (Str "1,5");
               sample_row (Str "A1") (Str "Captured") (Str "SO2") (Str "stationary")
                          (Str "45000000") (Str "2021") (Str "7") ] |}.

(** [undescribed_raw] after [transform_data]. *)
Definition undescribed_cleaned : DataFrame :=
  Eval vm_compute in
    match transform_data_body undescribed_raw with
    | Ok df => df
    | Raise _ => {| columns := []; rows := [] |}
    end.

(** A stand-in for the text of a float; the samples write none. *)
Definition sample_float_repr (x : Float.t) : string := "float".

(* ===================================================================== *)
(** * Properties *)
(* ===================================================================== *)

(** ** The [result] monad *)

Lemma bind_Ok {A B} (m : result A) (f : A -> result B) (b : B) :
  m ≫= f = Ok b <-> exists a, m = Ok a /\ f a = Ok b.
Proof.
  destruct m as [a|e]; simpl; split.
  - intros H. exists a. split; [reflexivity | exact H].
  - intros (a' & Ha & Hf). congruence.
  - intros H. discriminate H.
  - intros (a' & Ha & _). discriminate Ha.
Qed.

Lemma result_mapM_Ok {A B} (f : A -> result B) (l : list A) (ys : list B) :
  result_mapM f l = Ok ys <-> Forall2 (fun x y => f x = Ok y) l ys.
Proof.
  revert ys. induction l as [|x l IH]; intros ys; simpl.
  - split.
    + intros [= <-]. constructor.
    + intros H. inversion H. reflexivity.
  - destruct (f x) as [y|e] eqn:Hx.
    + destruct (result_mapM f l) as [ys'|e'] eqn:Hl.
      * split.
        -- intros [= <-]. constructor; [exact Hx | apply IH; reflexivity].
        -- intros H. inversion H as [|? y' ? ys'' Hy Hrest]; subst.
           apply IH in Hrest. congruence.
      * split; [discriminate|].
        intros H. inversion H as [|? y' ? ys'' Hy Hrest]; subst.
        apply IH in Hrest. discriminate Hrest.
    + split; [discriminate|].
      intros H. inversion H; subst. congruence.
Qed.

Lemma result_mapM_total {A B} (f : A -> B) (l : list A) :
  result_mapM (fun x => Ok (f x)) l = Ok (map f l).
Proof.
  induction l as [|x l IH]; simpl; [reflexivity|]. now rewrite IH.
Qed.

Ltac inv_bind H :=
  let a := fresh "a" in
  let Ha := fresh "Ha" in
  apply bind_Ok in H; destruct H as (a & Ha & H).

(** ** Reading floats *)

Example float_of_comma_decimal :
  Py.float_of_string (Py.replace_char "," "." "1234,5") = Some float_1234_5.
Proof. vm_compute. reflexivity. Qed.

Example float_of_tenth :
  Py.float_of_string "0.1" = Some (S754_finite false 7205759403792794 (-56)).
Proof. vm_compute. reflexivity. Qed.

Example float_of_1e23 :
  Py.float_of_string " 1e23 " = Some (S754_finite false 5960464477539062 24).
Proof. vm_compute. reflexivity. Qed.

Example float_of_sentinel_text :
  Py.float_of_string "9999999999.0" = Some sentinel
  /\ Py.float_of_string "9999999999.0000001" = Some sentinel
  /\ Py.float_of_string "9_999_999_999" = Some sentinel.
Proof. vm_compute. repeat split; reflexivity. Qed.

Example float_of_specials :
  Py.float_of_string "NAN" = Some Float.nan
  /\ Py.float_of_string "-Infinity" = Some (Float.inf true)
  /\ Py.float_of_string "1e999" = Some (Float.inf false)
  /\ Py.float_of_string "1e-999" = Some (S754_zero false).
Proof. vm_compute. repeat split; reflexivity. Qed.

Example float_of_bad_text :
  Py.float_of_string "abc" = None
  /\ Py.float_of_string "" = None
  /\ Py.float_of_string "1.234.5" = None
  /\ Py.float_of_string "1e" = None
  /\ Py.float_of_string "1__0" = None
  /\ Py.float_of_string "1 0" = None.
Proof. vm_compute. repeat split; reflexivity. Qed.

(** NaN differs from every float, the sentinel included. *)
Example nan_is_not_the_sentinel :
  Float.neqb Float.nan sentinel = true /\ Float.neqb sentinel sentinel = false.
Proof. vm_compute. split; reflexivity. Qed.

(** ** Three-valued membership *)

Example in_three_valued :
  SQL.in_ (Str "a") [] = Some false
  /\ SQL.in_ NA [] = Some false
  /\ SQL.in_ NA [Str "a"] = None
  /\ SQL.in_ (Str "a") [Str "b"; Str "a"] = Some true
  /\ SQL.in_ (Str "a") [Str "b"; NA] = None
  /\ SQL.in_ (Str "a") [Str "b"] = Some false.
Proof. vm_compute. repeat split; reflexivity. Qed.

(** ** Renaming *)

Lemma dict_zip_not_key (keys values : list string) (d : gmap string string) k :
  k ∉ keys -> dict_zip keys values d !! k = d !! k.
Proof.
  revert values d. induction keys as [|k' keys IH]; intros values d Hk.
  - reflexivity.
  - destruct values as [|v values]; [reflexivity|]. simpl.
    rewrite IH by set_solver.
    apply lookup_insert_ne. set_solver.
Qed.

Lemma rename_labels (cols values : list string) (d : gmap string string) :
  NoDup cols -> (forall c, c ∈ cols -> d !! c = None) ->
  map (fun c => default c (dict_zip cols values d !! c)) cols
  = take (length cols) values ++ drop (length values) cols.
Proof.
  revert values d. induction cols as [|c cols IH]; intros values d Hnd Hd.
  - simpl. now rewrite drop_nil.
  - apply NoDup_cons in Hnd as [Hc Hnd].
    destruct values as [|v values].
    + simpl. rewrite Hd by set_solver. simpl. f_equal.
      assert (Hd' : forall c', c' ∈ cols -> d !! c' = None) by (intros; apply Hd; set_solver).
      clear - Hd'. induction cols as [|c' cols IH]; [reflexivity|].
      simpl. rewrite Hd' by set_solver. simpl. f_equal.
      apply IH. intros; apply Hd'; set_solver.
    + simpl. rewrite dict_zip_not_key by exact Hc.
      rewrite lookup_insert_eq. simpl. f_equal.
      apply IH; [exact Hnd|].
      intros c' Hc'. rewrite lookup_insert_ne by set_solver.
      apply Hd. set_solver.
Qed.

Lemma rename_canonical (df : DataFrame) :
  length (columns df) = 14 -> NoDup (columns df) ->
  rename (dict_zip (columns df) new_names ∅) df = mkFrame new_names (rows df).
Proof.
  intros Hlen Hnd. unfold rename. f_equal.
  rewrite rename_labels; [|exact Hnd|intros; apply lookup_empty].
  rewrite drop_ge by (rewrite Hlen; reflexivity).
  rewrite Hlen, app_nil_r. reflexivity.
Qed.

(** ** [transform_data] on the input format *)

Lemma filter_filter {A} (p q : A -> bool) (l : list A) :
  List.filter q (List.filter p l) = List.filter (fun x => p x && q x) l.
Proof.
  induction l as [|x l IH]; simpl; [reflexivity|].
  destruct (p x); simpl; [destruct (q x)|]; now rewrite IH.
Qed.

Lemma result_mapM_map {A B C} (g : A -> B) (f : B -> result C) (l : list A) :
  result_mapM f (map g l) = result_mapM (fun x => f (g x)) l.
Proof.
  induction l as [|x l IH]; simpl; [reflexivity|]. now rewrite IH.
Qed.

Lemma result_mapM_ext {A B} (f g : A -> result B) (l : list A) :
  (forall x, f x = g x) -> result_mapM f l = result_mapM g l.
Proof.
  intros H. induction l as [|x l IH]; simpl; [reflexivity|].
  now rewrite H, IH.
Qed.

Lemma transform_canonical (df : DataFrame) :
  canonical df ->
  transform_data_body df
  = (rs ← result_mapM convert_row (List.filter complete_row (rows df));
     Ok (mkFrame new_names (List.filter valid_row rs))).
Proof.
  intros [Hlen Hnd]. unfold transform_data_body.
  rewrite rename_canonical by assumption.
  unfold dropna. simpl columns.
  change (result_mapM (fun l => get_locs l new_names) required)
    with (Ok [[VALUE]; [SECTION]; [CODE]; [SUBSTANCE]]).
  cbn [mbind result_bind rows columns].
  change (has_column "year" ?x) with true.
  cbv iota.
  unfold assign. simpl columns.
  change (get_loc "year" new_names) with (Ok YEAR).
  change (get_loc "value" new_names) with (Ok VALUE).
  cbn [mbind result_bind rows columns].
  rewrite (List.filter_ext _ complete_row)
    by (intros r; unfold complete_row; simpl; now rewrite andb_true_r, !andb_assoc).
  set (l := List.filter complete_row (rows df)).
  rewrite (result_mapM_ext _ (fun r => Ok (<[YEAR := match cell_at YEAR r with
      | Str s => Num (default Float.nan (Py.float_of_string s))
      | NA => Num Float.nan
      | Num x => Num x
      end]> r))) by reflexivity.
  rewrite result_mapM_total.
  cbn [mbind result_bind rows columns].
  change (has_column "value" ?x) with true. cbv iota.
  change (get_loc "value" new_names) with (Ok VALUE).
  cbn [mbind result_bind rows columns].
  rewrite result_mapM_map.
  rewrite (result_mapM_ext _ convert_row) by reflexivity.
  destruct (result_mapM convert_row l) as [rs|e]; [|reflexivity].
  cbn [mbind result_bind rows columns].
  unfold where_. simpl columns.
  change (get_loc "value" new_names) with (Ok VALUE).
  cbn [mbind result_bind rows columns].
  change (get_loc "substance" new_names) with (Ok SUBSTANCE).
  cbn [mbind result_bind rows columns].
  now rewrite filter_filter.
Qed.


(** ** The order of [sort_values] *)

Lemma string_leb_trans (a b c : string) :
  String.leb a b = true -> String.leb b c = true -> String.leb a c = true.
Proof.
  unfold String.leb.
  destruct (String.compare a b) eqn:Hab; [| |discriminate];
    destruct (String.compare b c) eqn:Hbc; try discriminate; intros _ _.
  - apply String.compare_eq_iff in Hab, Hbc. subst.
    destruct (String.compare c c) eqn:Hcc; try reflexivity.
    pose proof (String.compare_antisym c c) as H. rewrite Hcc in H. discriminate H.
  - apply String.compare_eq_iff in Hab. subst. now rewrite Hbc.
  - apply String.compare_eq_iff in Hbc. subst. now rewrite Hab.
  - apply String_as_OT.cmp_lt in Hab, Hbc.
    pose proof (String_as_OT.lt_trans _ _ _ Hab Hbc) as H.
    apply String_as_OT.cmp_lt in H. unfold String_as_OT.cmp in H. now rewrite H.
Qed.

Lemma float_leb_total (x y : Float.t) :
  Float.is_nan x = false -> Float.is_nan y = false ->
  Float.leb x y = true \/ Float.leb y x = true.
Proof.
  unfold Float.leb, SFleb, SFcompare.
  destruct x as [sx|sx| |sx mx ex], y as [sy|sy| |sy my ey]; simpl;
    try discriminate; intros _ _;
    repeat match goal with s : bool |- _ => destruct s end; auto.
  all: change (Pos.compare_cont Eq ?a ?b) with (Pos.compare a b).
  all: destruct (Z.compare_spec ex ey), (Z.compare_spec ey ex); try lia; auto.
  all: destruct (Pos.compare_spec mx my), (Pos.compare_spec my mx); simpl; try lia; auto.
Qed.

Lemma float_leb_trans (x y z : Float.t) :
  Float.leb x y = true -> Float.leb y z = true -> Float.leb x z = true.
Proof.
  unfold Float.leb, SFleb, SFcompare.
  destruct x as [sx|sx| |sx mx ex], y as [sy|sy| |sy my ey], z as [sz|sz| |sz mz ez];
    repeat match goal with s : bool |- _ => destruct s end;
    try (simpl; congruence).
  all: change (Pos.compare_cont Eq ?a ?b) with (Pos.compare a b).
  all: destruct (Z.compare_spec ex ey), (Z.compare_spec ey ez), (Z.compare_spec ex ez);
    try lia; try (simpl; congruence).
  all: destruct (Pos.compare_spec mx my), (Pos.compare_spec my mz), (Pos.compare_spec mx mz);
    simpl; try lia; try congruence.
Qed.

Lemma cell_leb_total (a b : cell) :
  cell_leb a b = true \/ cell_leb b a = true.
Proof.
  unfold cell_leb.
  destruct (isna b) eqn:Hb; [now left|].
  destruct (isna a) eqn:Ha; [now right|].
  destruct a as [|s|x], b as [|t|y]; simpl in *; try discriminate; auto.
  - apply String.leb_total.
  - now apply float_leb_total.
Qed.

Lemma cell_leb_trans (a b c : cell) :
  cell_leb a b = true -> cell_leb b c = true -> cell_leb a c = true.
Proof.
  unfold cell_leb.
  destruct (isna c) eqn:Hc; [reflexivity|].
  destruct (isna b) eqn:Hb; [discriminate|].
  destruct (isna a) eqn:Ha; [discriminate|].
  destruct a as [|s|x], b as [|t|y], c as [|u|z]; simpl in *;
    try discriminate; try reflexivity.
  - apply string_leb_trans.
  - apply float_leb_trans.
Qed.

#[global] Instance key_le_total i : Total (key_le i).
Proof. intros r1 r2. apply cell_leb_total. Qed.

#[global] Instance key_le_trans i : Transitive (key_le i).
Proof. intros r1 r2 r3. apply cell_leb_trans. Qed.

#[global] Instance string_le_total : Total string_le.
Proof. intros a b. apply String.leb_total. Qed.

(** ** Lists: filtering and keeping the first of every key *)

Lemma elem_of_List_filter {A} (p : A -> bool) (l : list A) (x : A) :
  x ∈ List.filter p l <-> x ∈ l /\ p x = true.
Proof. rewrite !list_elem_of_In. apply filter_In. Qed.

Section keep_first.
Context {K : Type} `{EqDecision K} (key : row -> K).

Lemma keep_first_elem seen l x :
  x ∈ keep_first key seen l -> x ∈ l /\ key x ∉ seen.
Proof.
  revert seen. induction l as [|r l IH]; intros seen; simpl.
  - intros H. inversion H.
  - destruct (decide (key r ∈ seen)) as [Hin|Hnin].
    + intros H. apply IH in H as [H1 H2]. split; [now right | exact H2].
    + intros H. apply elem_of_cons in H as [->|H].
      * split; [now left | exact Hnin].
      * apply IH in H as [H1 H2]. split; [now right|].
        intros Hs. apply H2. now right.
Qed.

Lemma keep_first_NoDup seen l :
  NoDup (map key (keep_first key seen l)).
Proof.
  revert seen. induction l as [|r l IH]; intros seen; simpl.
  - constructor.
  - destruct (decide (key r ∈ seen)) as [Hin|Hnin]; [apply IH|].
    simpl. constructor; [|apply IH].
    intros H. apply list_elem_of_fmap in H as (y & Hy & Hin).
    apply keep_first_elem in Hin as [_ Hin]. apply Hin. rewrite <- Hy. now left.
Qed.

Lemma keep_first_covers seen l x :
  x ∈ l -> key x ∉ seen -> key x ∈ map key (keep_first key seen l).
Proof.
  revert seen. induction l as [|r l IH]; intros seen Hx Hs.
  - inversion Hx.
  - simpl. destruct (decide (key r ∈ seen)) as [Hin|Hnin].
    + apply elem_of_cons in Hx as [->|Hx]; [contradiction|]. now apply IH.
    + simpl. destruct (decide (key x = key r)) as [Heq|Hne].
      * rewrite Heq. now left.
      * right. apply elem_of_cons in Hx as [->|Hx]; [contradiction|].
        apply IH; [exact Hx|]. intros H. apply elem_of_cons in H as [H|H]; auto.
Qed.

(** A kept row is the first row of the list with its key. *)
Lemma keep_first_is_first seen l x :
  x ∈ keep_first key seen l ->
  List.find (fun r => bool_decide (key r = key x)) l = Some x.
Proof.
  revert seen. induction l as [|r l IH]; intros seen; simpl.
  - intros H. inversion H.
  - destruct (decide (key r ∈ seen)) as [Hin|Hnin].
    + intros H. pose proof (keep_first_elem _ _ _ H) as [_ Hx].
      rewrite bool_decide_eq_false_2 by (intros Heq; apply Hx; now rewrite <- Heq).
      now apply IH in H.
    + intros H. apply elem_of_cons in H as [->|H].
      * now rewrite bool_decide_eq_true_2.
      * pose proof (keep_first_elem _ _ _ H) as [_ Hx].
        rewrite bool_decide_eq_false_2
          by (intros Heq; apply Hx; rewrite <- Heq; now left).
        now apply IH in H.
Qed.

End keep_first.

(** ** Worlds and tasks *)

Lemma database_at_put_db p db w : database_at p (put_db p db w) = db.
Proof. unfold database_at, put_db. simpl. now rewrite lookup_insert_eq. Qed.

Lemma database_at_add_log p rs w : database_at p (add_log rs w) = database_at p w.
Proof. reflexivity. Qed.

Lemma put_db_put_db p d1 d2 w : put_db p d2 (put_db p d1 w) = put_db p d2 w.
Proof. unfold put_db. simpl. now rewrite insert_insert_eq. Qed.

Lemma put_db_add_log p d rs w : put_db p d (add_log rs w) = add_log rs (put_db p d w).
Proof. reflexivity. Qed.

Lemma add_log_add_log r1 r2 w : add_log r2 (add_log r1 w) = add_log (r1 ++ r2) w.
Proof. unfold add_log. simpl. now rewrite app_assoc. Qed.


Lemma Ok_pair_inj {A W} (a b : A) (w w' : W) :
  (Ok a, w) = (Ok b, w') -> a = b /\ w = w'.
Proof. intros H. injection H as -> ->. auto. Qed.

Lemma bind_Ok_task {A B} (m : Task A) (f : A -> Task B) w a w' :
  m w = (Ok a, w') -> (m ≫= f) w = f a w'.
Proof. intros H. unfold mbind, task_bind. now rewrite H. Qed.

Lemma bind_Raise_task {A B} (m : Task A) (f : A -> Task B) w e w' :
  m w = (Raise e, w') -> (m ≫= f) w = (Raise e, w').
Proof. intros H. unfold mbind, task_bind. now rewrite H. Qed.

Lemma bind_lift {A B} (r : result A) (f : A -> Task B) w :
  (lift r ≫= f) w = match r with Ok a => f a w | Raise e => (Raise e, w) end.
Proof. unfold mbind, task_bind, lift. now destruct r. Qed.

Lemma bind_execute {A B} p (stmt : Database -> result A * Database) (f : A -> Task B) w :
  (execute p stmt ≫= f) w
  = let w' := put_db p (stmt (database_at p w)).2 w in
    match (stmt (database_at p w)).1 with
    | Ok a => f a w'
    | Raise e => (Raise e, w')
    end.
Proof.
  unfold mbind, task_bind, execute.
  destruct (stmt (database_at p w)) as [[a|e] db']; reflexivity.
Qed.


Lemma bind_logger {B} l m (f : unit -> Task B) w :
  (logger l m ≫= f) w = f tt (add_log [(l, m)] w).
Proof. reflexivity. Qed.

Lemma to_sql_ok name df db :
  NoDup (columns df) -> (SQL.to_sql name df db).1 = Ok tt.
Proof. intros H. unfold SQL.to_sql. now rewrite bool_decide_eq_true_2. Qed.

(** ** Frame operations keep the labels *)

Lemma select_columns labels df out : select labels df = Ok out -> columns out = labels.
Proof. unfold select. intros H. inv_bind H. now injection H as <-. Qed.

Lemma drop_duplicates_on_columns subset df out :
  drop_duplicates_on subset df = Ok out -> columns out = columns df.
Proof. unfold drop_duplicates_on. intros H. inv_bind H. now injection H as <-. Qed.

Lemma sort_values_columns label df out :
  sort_values label df = Ok out -> columns out = columns df.
Proof.
  unfold sort_values. intros H. inv_bind H.
  destruct (comparable _); [|discriminate]. now injection H as <-.
Qed.

(** ** The loader *)

Lemma create_index_logged_spec p spec w :
  exists lg, create_index_logged p spec w
             = (Ok tt, add_log lg (put_db p (add_index (database_at p w) spec) w)).
Proof.
  destruct spec as [[table idx] column]. unfold create_index_logged, try_except.
  rewrite bind_execute. simpl.
  destruct (SQL.create_index table idx column (database_at p w)) as [[[]|e] db'] eqn:E;
    simpl; eexists; reflexivity.
Qed.

Lemma for_each_create_index p specs w :
  specs <> [] ->
  exists lg, for_each specs (create_index_logged p) w
             = (Ok tt, add_log lg (put_db p (foldl add_index (database_at p w) specs) w)).
Proof.
  revert w. induction specs as [|spec specs IH]; intros w Hne; [congruence|].
  simpl. unfold mbind, task_bind.
  destruct (create_index_logged_spec p spec w) as [lg1 ->].
  destruct specs as [|spec' specs].
  - simpl. exists lg1. reflexivity.
  - destruct (IH (add_log lg1 (put_db p (add_index (database_at p w) spec) w))) as [lg2 ->];
      [congruence|].
    rewrite database_at_add_log, database_at_put_db.
    rewrite put_db_add_log, put_db_put_db, add_log_add_log.
    eexists. reflexivity.
Qed.

Lemma create_indexes_spec p w :
  exists lg, create_indexes p w
             = (Ok tt, add_log lg (put_db p (add_indexes (database_at p w)) w)).
Proof.
  unfold create_indexes, add_indexes.
  apply for_each_create_index. unfold index_specs. discriminate.
Qed.

Lemma air_emissions_cols_NoDup : NoDup air_emissions_cols.
Proof. compute_done. Qed.

Lemma location_cols_NoDup : NoDup location_cols.
Proof. compute_done. Qed.

Lemma dimension_columns labels subset df d0 key d :
  select labels df ≫= drop_duplicates_on subset = Ok d0 ->
  sort_values key d0 = Ok d ->
  columns d = labels.
Proof.
  intros H0 H. inv_bind H0.
  rewrite (sort_values_columns _ _ _ H), (drop_duplicates_on_columns _ _ _ H0).
  now apply select_columns in Ha.
Qed.

Lemma dimension_columns_all labels df d0 key d :
  select labels df ≫= drop_duplicates = Ok d0 ->
  sort_values key d0 = Ok d ->
  columns d = labels.
Proof.
  intros H0 H. inv_bind H0.
  rewrite (sort_values_columns _ _ _ H).
  unfold drop_duplicates in H0.
  rewrite (drop_duplicates_on_columns _ _ _ H0).
  now apply select_columns in Ha.
Qed.

Lemma create_database_tables_body_spec df p w :
  match loader_frames df with
  | Ok (a, i, s, l) =>
      exists lg,
        create_database_tables_body df p w
        = (Ok (total (stats_of a i s l), stats_of a i s l),
           add_log lg (put_db p (loaded_db a i s l (database_at p w)) w))
  | Raise e => exists w', create_database_tables_body df p w = (Raise e, w')
  end.
Proof.
  unfold loaded_db, loader_frames, create_database_tables_body.
  rewrite bind_lift.
  destruct (select air_emissions_cols df) as [a|e] eqn:Ha; [|simpl; eauto].
  cbn [mbind result_bind].
  rewrite bind_execute. cbv zeta.
  rewrite to_sql_ok
    by (rewrite (select_columns _ _ _ Ha); apply air_emissions_cols_NoDup).
  rewrite bind_lift.
  destruct (select ["code"; "indicator"] df ≫= drop_duplicates) as [i0|e] eqn:Hi0;
    [|simpl; eauto].
  cbn [mbind result_bind].
  rewrite bind_lift.
  destruct (sort_values "code" i0) as [i|e] eqn:Hi; [|simpl; eauto].
  cbn [mbind result_bind].
  rewrite bind_execute. cbv zeta.
  rewrite to_sql_ok
    by (rewrite (dimension_columns_all _ _ _ _ _ Hi0 Hi); compute_done).
  rewrite bind_lift.
  destruct (select ["substance"; "source_type"] df ≫= drop_duplicates_on ["substance"])
    as [s0|e] eqn:Hs0; [|simpl; eauto].
  cbn [mbind result_bind].
  rewrite bind_lift.
  destruct (sort_values "substance" s0) as [s|e] eqn:Hs; [|simpl; eauto].
  cbn [mbind result_bind].
  rewrite bind_execute. cbv zeta.
  rewrite to_sql_ok
    by (rewrite (dimension_columns _ _ _ _ _ _ Hs0 Hs); compute_done).
  rewrite bind_lift.
  destruct (select location_cols df ≫= drop_duplicates) as [l0|e] eqn:Hl0;
    [|simpl; eauto].
  cbn [mbind result_bind].
  rewrite bind_lift.
  destruct (sort_values "oktmo_code" l0) as [l|e] eqn:Hl; [|simpl; eauto].
  cbn [mbind result_bind].
  rewrite bind_execute. cbv zeta.
  rewrite to_sql_ok
    by (rewrite (dimension_columns_all _ _ _ _ _ Hl0 Hl); apply location_cols_NoDup).
  rewrite !database_at_put_db, !put_db_put_db.
  unfold mbind at 1. unfold task_bind.
  match goal with |- context [create_indexes p ?w0] =>
    destruct (create_indexes_spec p w0) as [lg Hlg]
  end.
  rewrite Hlg, database_at_put_db, put_db_put_db.
  exists lg. reflexivity.
Qed.


Lemma create_database_tables_spec df p w :
  match loader_frames df with
  | Ok (a, i, s, l) =>
      exists lg,
        create_database_tables df p w
        = (Ok (total (stats_of a i s l), stats_of a i s l),
           add_log lg (put_db p (loaded_db a i s l (database_at p w)) w))
  | Raise e => exists w', create_database_tables df p w = (Raise e, w')
  end.
Proof.
  unfold create_database_tables, logged, try_except.
  pose proof (create_database_tables_body_spec df p w) as H.
  destruct (loader_frames df) as [[[[a i] s] l]|e].
  - destruct H as [lg ->]. eauto.
  - destruct H as [w' ->]. simpl. eauto.
Qed.

(** ** The validator *)







(** ** The flow *)

Lemma extract_data_found file df w :
  files w !! file = Some df -> extract_data file w = (Ok df, w).
Proof.
  intros H. unfold extract_data, with_retries, logged, try_except, read_csv.
  now rewrite H.
Qed.

Lemma read_csv_missing file w :
  files w !! file = None ->
  logged "extract_data" (read_csv file) w
  = (Raise (FileNotFoundError file),
     add_log [(ERROR, TaskFailed "extract_data" (FileNotFoundError file))] w).
Proof.
  intros H. unfold logged, try_except, read_csv. now rewrite H.
Qed.


Lemma transform_data_spec df w :
  transform_data df w
  = match transform_data_body df with
    | Ok out => (Ok out, w)
    | Raise e => (Raise e, add_log [(ERROR, TaskFailed "transform_data" e)] w)
    end.
Proof.
  unfold transform_data, logged, try_except, lift.
  now destruct (transform_data_body df).
Qed.


(** ** The store after a load *)

Lemma tables_to_sql name df db :
  NoDup (columns df) ->
  tables (SQL.to_sql name df db).2 = <[name := SQL.stored df]> (tables db).
Proof.
  intros H. unfold SQL.to_sql. rewrite bool_decide_eq_true_2 by exact H.
  simpl. apply insert_delete_eq.
Qed.

Lemma indexes_to_sql name df db :
  indexes (SQL.to_sql name df db).2
  = filter (fun kv => index_table kv.2 <> name) (indexes db).
Proof. unfold SQL.to_sql. now destruct (bool_decide _). Qed.

Lemma tables_add_index db spec : tables (add_index db spec) = tables db.
Proof.
  destruct spec as [[table idx] column]. unfold add_index, SQL.create_index.
  destruct (tables db !! table); [|reflexivity].
  destruct (indexes db !! idx); [reflexivity|].
  now destruct (bool_decide _).
Qed.

Lemma tables_foldl_add_index specs db :
  tables (foldl add_index db specs) = tables db.
Proof.
  revert db. induction specs as [|spec specs IH]; intros db; [reflexivity|].
  simpl. now rewrite IH, tables_add_index.
Qed.

Lemma loader_frames_columns df a i s l :
  loader_frames df = Ok (a, i, s, l) ->
  columns a = air_emissions_cols /\ columns i = ["code"; "indicator"]
  /\ columns s = ["substance"; "source_type"] /\ columns l = location_cols.
Proof.
  unfold loader_frames. intros H.
  inv_bind H. rename a0 into a', Ha into Ha'.
  inv_bind H. rename a0 into i0, Ha into Hi0.
  inv_bind H. rename a0 into i', Ha into Hi'.
  inv_bind H. rename a0 into s0, Ha into Hs0.
  inv_bind H. rename a0 into s', Ha into Hs'.
  inv_bind H. rename a0 into l0, Ha into Hl0.
  inv_bind H. rename a0 into l', Ha into Hl'.
  injection H as <- <- <- <-.
  repeat split.
  - eapply select_columns; eauto.
  - eapply dimension_columns_all; eauto.
  - eapply dimension_columns; eauto.
  - eapply dimension_columns_all; eauto.
Qed.

Lemma tables_loaded_db a i s l db :
  columns a = air_emissions_cols -> columns i = ["code"; "indicator"] ->
  columns s = ["substance"; "source_type"] -> columns l = location_cols ->
  tables (loaded_db a i s l db)
  = <["location_codes" := SQL.stored l]>
      (<["substance_types" := SQL.stored s]>
         (<["indicator_codes" := SQL.stored i]>
            (<["air_emissions" := SQL.stored a]> (tables db)))).
Proof.
  intros Ha Hi Hs Hl. unfold loaded_db, add_indexes, write_tables.
  rewrite tables_foldl_add_index. cbv zeta.
  rewrite !tables_to_sql; [reflexivity|..].
  - rewrite Ha. apply air_emissions_cols_NoDup.
  - rewrite Hi. compute_done.
  - rewrite Hs. compute_done.
  - rewrite Hl. apply location_cols_NoDup.
Qed.


Lemma lookup_filter_table name (I : gmap string Index) k :
  filter (fun kv => index_table kv.2 <> name) I !! k
  = match I !! k with
    | Some v => if decide (index_table v = name) then None else Some v
    | None => None
    end.
Proof.
  rewrite map_lookup_filter. destruct (I !! k) as [v|]; [|reflexivity].
  simpl. destruct (decide (index_table v = name)) as [H|H].
  - rewrite option_guard_False by (simpl; congruence). reflexivity.
  - rewrite option_guard_True by (simpl; congruence). reflexivity.
Qed.


Lemma indexable_tables db db' specs :
  tables db' = tables db -> indexable db specs -> indexable db' specs.
Proof. unfold indexable. now intros ->. Qed.





Lemma tables_write_tables a i s l db :
  columns a = air_emissions_cols -> columns i = ["code"; "indicator"] ->
  columns s = ["substance"; "source_type"] -> columns l = location_cols ->
  tables (write_tables a i s l db)
  = <["location_codes" := SQL.stored l]>
      (<["substance_types" := SQL.stored s]>
         (<["indicator_codes" := SQL.stored i]>
            (<["air_emissions" := SQL.stored a]> (tables db)))).
Proof.
  intros Ha Hi Hs Hl. unfold write_tables. cbv zeta.
  rewrite !tables_to_sql; [reflexivity|..].
  - rewrite Ha. apply air_emissions_cols_NoDup.
  - rewrite Hi. compute_done.
  - rewrite Hs. compute_done.
  - rewrite Hl. apply location_cols_NoDup.
Qed.

Lemma indexable_write_tables a i s l db :
  columns a = air_emissions_cols -> columns i = ["code"; "indicator"] ->
  columns s = ["substance"; "source_type"] -> columns l = location_cols ->
  indexable (write_tables a i s l db) index_specs.
Proof.
  intros Ha Hi Hs Hl. unfold indexable, index_specs.
  rewrite (tables_write_tables _ _ _ _ _ Ha Hi Hs Hl).
  repeat apply Forall_cons_2; try apply Forall_nil_2.
  1-5: exists (SQL.stored a); split;
    [now rewrite !lookup_insert_ne, lookup_insert_eq by discriminate
    |simpl; rewrite Ha; compute_done].
  - exists (SQL.stored i); split;
      [now rewrite !lookup_insert_ne, lookup_insert_eq by discriminate
      |simpl; rewrite Hi; compute_done].
  - exists (SQL.stored s); split;
      [now rewrite !lookup_insert_ne, lookup_insert_eq by discriminate
      |simpl; rewrite Hs; compute_done].
  - exists (SQL.stored l); split;
      [now rewrite lookup_insert_eq
      |simpl; rewrite Hl; compute_done].
Qed.






(** ** The status of a run *)



(** ** Replace semantics and idempotence *)

Lemma relations_loaded a i s l db :
  columns a = air_emissions_cols -> columns i = ["code"; "indicator"] ->
  columns s = ["substance"; "source_type"] -> columns l = location_cols ->
  Forall (fun '(name, t) => tables (loaded_db a i s l db) !! name = Some t)
         (relations a i s l).
Proof.
  intros Ha Hi Hs Hl. unfold relations.
  rewrite (tables_loaded_db _ _ _ _ _ Ha Hi Hs Hl).
  repeat apply Forall_cons_2; try apply Forall_nil_2.
  - now rewrite !lookup_insert_ne, lookup_insert_eq by discriminate.
  - now rewrite !lookup_insert_ne, lookup_insert_eq by discriminate.
  - now rewrite !lookup_insert_ne, lookup_insert_eq by discriminate.
  - now rewrite lookup_insert_eq.
Qed.




(** ** Renaming the columns *)

Lemma sample_raw_canonical : canonical sample_raw.
Proof. split; [reflexivity | compute_done]. Qed.

(** C7, as the code has it.  On a frame of fourteen columns with distinct
    labels the Transformer renames the columns, by position, to section,
    indicator, unit, code, substance, source_type, emission_type,
    location_level, region, municipal_district, municipal_formation,
    oktmo_code, year, value; no cell moves, and the frame that the
    Transformer returns carries these labels, the twelfth being
    oktmo_code. *)
Theorem rename_positional (df : DataFrame) :
  canonical df ->
  rename (dict_zip (columns df) new_names ∅) df
  = {| columns :=
         [ "section"; "indicator"; "unit"; "code"; "substance";
           "source_type"; "emission_type"; "location_level"; "region";
           "municipal_district"; "municipal_formation"; "oktmo_code";
           "year"; "value" ];
       rows := rows df |}
  /\ forall out, transform_data_body df = Ok out ->
       columns out = new_names /\ columns out !! 11 = Some "oktmo_code".
Proof.
  intros Hc. split.
  - destruct Hc as [Hlen Hnd]. now apply rename_canonical.
  - intros out H. rewrite (transform_canonical _ Hc) in H.
    inv_bind H. injection H as <-. split; reflexivity.
Qed.

Lemma rename_positional_witness :
  columns (rename (dict_zip (columns sample_raw) new_names ∅) sample_raw)
  = new_names
  /\ rows (rename (dict_zip (columns sample_raw) new_names ∅) sample_raw)
     = rows sample_raw.
Proof.
  destruct (rename_positional sample_raw sample_raw_canonical) as [H _].
  rewrite H. split; reflexivity.
Defined.

(** C7 as the specification words it fails: the twelfth label is
    [oktmo_code], not [location_code]. *)
Lemma rename_twelfth_label :
  columns (rename (dict_zip (columns sample_raw) new_names ∅) sample_raw) !! 11
  = Some "oktmo_code"
  /\ names_in_spec !! 11 = Some "location_code"
  /\ bool_decide
       (columns (rename (dict_zip (columns sample_raw) new_names ∅) sample_raw)
        = names_in_spec) = false.
Proof. vm_compute. repeat split; reflexivity. Qed.

(** ** Rows of the cleaned frame *)

Lemma cell_at_insert_eq i c (r : row) :
  i < length r -> cell_at i (<[i := c]> r) = c.
Proof. intros H. unfold cell_at. now rewrite list_lookup_insert_eq. Qed.

Lemma cell_at_insert_ne i j c (r : row) :
  i <> j -> cell_at j (<[i := c]> r) = cell_at j r.
Proof. intros H. unfold cell_at. now rewrite list_lookup_insert_ne. Qed.

Lemma notna_cell_at_lt i (r : row) :
  notna (cell_at i r) = true -> i < length r.
Proof.
  unfold cell_at. intros H.
  destruct (r !! i) as [c|] eqn:E; [|discriminate H].
  eapply lookup_lt_Some; eauto.
Qed.

Lemma complete_row_true r :
  complete_row r = true <->
  notna (cell_at VALUE r) = true /\ notna (cell_at SECTION r) = true
  /\ notna (cell_at CODE r) = true /\ notna (cell_at SUBSTANCE r) = true.
Proof. unfold complete_row. rewrite !andb_true_iff. tauto. Qed.

Lemma astype_float_Ok c v : astype_float c = Ok v -> exists x, v = Num x.
Proof.
  destruct c as [|s|x]; simpl.
  - intros [= <-]. eauto.
  - destruct (Py.float_of_string s); [intros [= <-]; eauto | discriminate].
  - intros [= <-]. eauto.
Qed.

Lemma convert_row_Ok r r' :
  convert_row r = Ok r' ->
  exists y v,
    to_numeric_coerce (cell_at YEAR r) = Ok y
    /\ astype_float (str_replace "," "." (cell_at VALUE r)) = Ok v
    /\ r' = <[VALUE := v]> (<[YEAR := y]> r).
Proof.
  unfold convert_row. intros H. inv_bind H. cbv zeta in H. inv_bind H.
  rewrite cell_at_insert_ne in Ha0 by discriminate.
  injection H as <-. eauto.
Qed.

Lemma convert_row_other r r' j :
  convert_row r = Ok r' -> j <> YEAR -> j <> VALUE -> cell_at j r' = cell_at j r.
Proof.
  intros H Hy Hv. apply convert_row_Ok in H as (y & v & _ & _ & ->).
  now rewrite !cell_at_insert_ne by congruence.
Qed.

Lemma convert_row_value r r' :
  convert_row r = Ok r' -> notna (cell_at VALUE r) = true ->
  astype_float (str_replace "," "." (cell_at VALUE r)) = Ok (cell_at VALUE r').
Proof.
  intros H Hn. apply convert_row_Ok in H as (y & v & _ & Hv & ->).
  rewrite cell_at_insert_eq; [exact Hv|].
  rewrite length_insert. now apply notna_cell_at_lt.
Qed.

Lemma Forall2_elem_of_r {A B} (P : A -> B -> Prop) l k y :
  Forall2 P l k -> y ∈ k -> exists x, x ∈ l /\ P x y.
Proof.
  induction 1 as [|x y' l k Hxy HF IH]; intros Hy.
  - inversion Hy.
  - apply elem_of_cons in Hy as [->|Hy].
    + exists x. split; [now left | exact Hxy].
    + destruct (IH Hy) as (x' & Hx' & HP). exists x'. split; [now right | exact HP].
Qed.

Lemma Forall2_elem_of_l {A B} (P : A -> B -> Prop) l k x :
  Forall2 P l k -> x ∈ l -> exists y, y ∈ k /\ P x y.
Proof.
  induction 1 as [|x' y l k Hxy HF IH]; intros Hx.
  - inversion Hx.
  - apply elem_of_cons in Hx as [->|Hx].
    + exists y. split; [now left | exact Hxy].
    + destruct (IH Hx) as (y' & Hy' & HP). exists y'. split; [now right | exact HP].
Qed.

(** The rows of the cleaned frame are the converted complete rows that
    pass the two filters. *)
Lemma transform_rows df out :
  canonical df -> transform_data_body df = Ok out ->
  columns out = new_names
  /\ forall r', r' ∈ rows out <->
       exists r, r ∈ rows df /\ complete_row r = true
                 /\ convert_row r = Ok r' /\ valid_row r' = true.
Proof.
  intros Hc H. rewrite (transform_canonical _ Hc) in H.
  inv_bind H. rename a into rs. injection H as <-.
  apply result_mapM_Ok in Ha.
  split; [reflexivity|]. intros r'. cbn [rows].
  rewrite elem_of_List_filter. split.
  - intros [Hin Hv].
    destruct (Forall2_elem_of_r _ _ _ _ Ha Hin) as (r & Hr & Hconv).
    apply elem_of_List_filter in Hr as [Hr Hcomp]. eauto.
  - intros (r & Hr & Hcomp & Hconv & Hv). split; [|exact Hv].
    assert (Hin : r ∈ List.filter complete_row (rows df))
      by (apply elem_of_List_filter; auto).
    destruct (Forall2_elem_of_l _ _ _ _ Ha Hin) as (y & Hy & Hconv').
    congruence.
Qed.

(** What holds of every row of the cleaned frame: the section, the code
    and the substance are present, the value is a float other than the
    sentinel, and the substance is not an excluded one. *)
Lemma transform_invariant df out r' :
  canonical df -> transform_data_body df = Ok out -> r' ∈ rows out ->
  notna (cell_at SECTION r') = true
  /\ notna (cell_at CODE r') = true
  /\ notna (cell_at SUBSTANCE r') = true
  /\ (exists x, cell_at VALUE r' = Num x /\ Float.neqb x sentinel = true)
  /\ isin excluded_substances (cell_at SUBSTANCE r') = false.
Proof.
  intros Hc H Hin. destruct (transform_rows _ _ Hc H) as [_ Hrows].
  apply Hrows in Hin as (r & Hr & Hcomp & Hconv & Hv).
  apply complete_row_true in Hcomp as (Hval & Hsec & Hcode & Hsub).
  rewrite !(convert_row_other _ _ _ Hconv) by discriminate.
  repeat split; try assumption.
  - pose proof (convert_row_value _ _ Hconv Hval) as Hf.
    destruct (astype_float_Ok _ _ Hf) as [x Hx]. exists x. split; [exact Hx|].
    unfold valid_row in Hv. apply andb_true_iff in Hv as [Hv _].
    now rewrite Hx in Hv.
  - unfold valid_row in Hv. apply andb_true_iff in Hv as [_ Hv].
    rewrite (convert_row_other _ _ _ Hconv) in Hv by discriminate.
    now apply negb_true_iff in Hv.
Qed.

(** ** The loader on a cleaned frame *)

Lemma select_new_names labels idx rs :
  result_mapM (fun l => get_loc l new_names) labels = Ok idx ->
  select labels (mkFrame new_names rs)
  = Ok {| columns := labels; rows := map (project idx) rs |}.
Proof. intros H. unfold select. cbn [columns rows]. now rewrite H. Qed.

Lemma drop_duplicates_on_labels labels subset idx rs :
  result_mapM (fun l => get_loc l labels) subset = Ok idx ->
  drop_duplicates_on subset (mkFrame labels rs)
  = Ok {| columns := labels; rows := keep_first (row_key idx) [] rs |}.
Proof. intros H. unfold drop_duplicates_on. cbn [columns rows]. now rewrite H. Qed.

Lemma sort_values_first label labels rs :
  get_loc label labels = Ok 0 ->
  sort_values label (mkFrame labels rs)
  = if comparable (map (cell_at 0) rs)
    then Ok {| columns := labels; rows := merge_sort (key_le 0) rs |}
    else Raise TypeError.
Proof. intros H. unfold sort_values. cbn [columns rows]. now rewrite H. Qed.

Lemma loader_frames_canonical rs :
  loader_frames (mkFrame new_names rs)
  = (i ← dimension ["code"; "indicator"] [CODE; INDICATOR] [0; 1] rs;
     s ← dimension ["substance"; "source_type"] [SUBSTANCE; SOURCE_TYPE] [0] rs;
     l ← dimension location_cols
           [OKTMO_CODE; MUNICIPAL_FORMATION; MUNICIPAL_DISTRICT; REGION]
           [0; 1; 2; 3] rs;
     Ok (fact_frame rs, i, s, l)).
Proof.
  unfold loader_frames, drop_duplicates, dimension, fact_frame.
  rewrite (select_new_names air_emissions_cols
             [SECTION; CODE; SUBSTANCE; VALUE; OKTMO_CODE; YEAR]) by reflexivity.
  rewrite (select_new_names ["code"; "indicator"] [CODE; INDICATOR]) by reflexivity.
  rewrite (select_new_names ["substance"; "source_type"] [SUBSTANCE; SOURCE_TYPE])
    by reflexivity.
  rewrite (select_new_names location_cols
             [OKTMO_CODE; MUNICIPAL_FORMATION; MUNICIPAL_DISTRICT; REGION])
    by reflexivity.
  cbn [mbind result_bind columns].
  rewrite (drop_duplicates_on_labels ["code"; "indicator"] _ [0; 1]) by reflexivity.
  cbn [mbind result_bind columns].
  rewrite (sort_values_first "code") by reflexivity.
  destruct (comparable _); [|reflexivity].
  cbn [mbind result_bind columns].
  rewrite (drop_duplicates_on_labels ["substance"; "source_type"] _ [0]) by reflexivity.
  cbn [mbind result_bind columns].
  rewrite (sort_values_first "substance") by reflexivity.
  destruct (comparable _); [|reflexivity].
  cbn [mbind result_bind columns].
  rewrite (drop_duplicates_on_labels location_cols _ [0; 1; 2; 3]) by reflexivity.
  cbn [mbind result_bind columns].
  rewrite (sort_values_first "oktmo_code") by reflexivity.
  destruct (comparable _); reflexivity.
Qed.

(** ** Text cells *)

Lemma hash_key_text c : text_cell c = true -> hash_key c = c.
Proof. now destruct c. Qed.

Lemma value_text c : text_cell c = true -> SQL.value c = c.
Proof. now destruct c. Qed.

Lemma text_cell_at (r : row) j :
  Forall (fun c => text_cell c = true) r -> text_cell (cell_at j r) = true.
Proof.
  intros H. unfold cell_at. destruct (r !! j) as [c|] eqn:E; [|reflexivity].
  simpl. eapply Forall_lookup_1 in H; eauto.
Qed.

Lemma text_notna_is_text c :
  text_cell c = true -> notna c = true -> is_text c = true.
Proof. now destruct c. Qed.

Lemma comparable_text keys :
  Forall (fun c => text_cell c = true) keys -> comparable keys = true.
Proof.
  intros H. unfold comparable.
  replace (existsb is_number keys) with false; [now rewrite andb_false_r|].
  symmetry. induction H as [|c keys Hc _ IH]; [reflexivity|].
  simpl. rewrite <- IH. now destruct c.
Qed.

Lemma stored_text_rows (rs : list row) :
  Forall (Forall (fun c => text_cell c = true)) rs ->
  map (map SQL.value) rs = rs.
Proof.
  induction 1 as [|r rs Hr _ IH]; [reflexivity|].
  simpl. rewrite IH. f_equal.
  induction Hr as [|c r Hc _ IHr]; [reflexivity|].
  simpl. now rewrite IHr, value_text.
Qed.

(** Every cell of a cleaned row, the year and the value apart, is text
    when the input is. *)
Lemma transform_text df out r' j :
  canonical df -> text_frame df -> transform_data_body df = Ok out ->
  r' ∈ rows out -> j <> YEAR -> j <> VALUE ->
  text_cell (cell_at j r') = true.
Proof.
  intros Hc Ht H Hin Hy Hv. destruct (transform_rows _ _ Hc H) as [_ Hrows].
  apply Hrows in Hin as (r & Hr & _ & Hconv & _).
  rewrite (convert_row_other _ _ _ Hconv Hy Hv).
  apply text_cell_at. unfold text_frame in Ht.
  rewrite Forall_forall in Ht. now apply Ht.
Qed.

(** ** Dimension frames *)

Lemma project_text idx (r : row) :
  Forall (fun j => text_cell (cell_at j r) = true) idx ->
  Forall (fun c => text_cell c = true) (project idx r).
Proof. unfold project. intros H. now apply Forall_fmap. Qed.

Lemma keep_first_Forall {K} `{EqDecision K} (key : row -> K) (P : row -> Prop) seen l :
  Forall P l -> Forall P (keep_first key seen l).
Proof.
  intros H. apply Forall_forall. intros x Hx.
  apply keep_first_elem in Hx as [Hx _].
  rewrite Forall_forall in H. now apply H.
Qed.

Lemma dimension_text labels idx key_idx rs :
  idx <> [] ->
  Forall (fun r => Forall (fun j => text_cell (cell_at j r) = true) idx) rs ->
  dimension labels idx key_idx rs
  = Ok {| columns := labels;
          rows := merge_sort (key_le 0)
                    (keep_first (row_key key_idx) [] (map (project idx) rs)) |}.
Proof.
  intros Hne Ht. unfold dimension. cbv zeta.
  rewrite comparable_text; [reflexivity|].
  apply Forall_fmap. apply keep_first_Forall. apply Forall_fmap.
  rewrite Forall_forall in Ht |- *. intros r Hr. simpl.
  specialize (Ht r Hr). destruct idx as [|j idx]; [congruence|].
  apply Forall_cons in Ht as [Hj _]. exact Hj.
Qed.


(** The frames that the loader writes for a cleaned frame. *)
Lemma load_cleaned raw df_final :
  canonical raw -> text_frame raw -> transform_data_body raw = Ok df_final ->
  loader_frames df_final
  = Ok (fact_frame (rows df_final),
        {| columns := ["code"; "indicator"];
           rows := merge_sort (key_le 0)
                     (keep_first (row_key [0; 1]) []
                        (map (project [CODE; INDICATOR]) (rows df_final))) |},
        {| columns := ["substance"; "source_type"];
           rows := merge_sort (key_le 0)
                     (keep_first (row_key [0]) []
                        (map (project [SUBSTANCE; SOURCE_TYPE]) (rows df_final))) |},
        {| columns := location_cols;
           rows := merge_sort (key_le 0)
                     (keep_first (row_key [0; 1; 2; 3]) []
                        (map (project [OKTMO_CODE; MUNICIPAL_FORMATION;
                                       MUNICIPAL_DISTRICT; REGION])
                             (rows df_final))) |}).
Proof.
  intros Hc Ht H.
  assert (Htext : forall r idx, r ∈ rows df_final ->
            Forall (fun j => j <> YEAR /\ j <> VALUE) idx ->
            Forall (fun j => text_cell (cell_at j r) = true) idx).
  { intros r idx Hr Hidx. eapply Forall_impl; [exact Hidx|].
    intros j [Hy Hv]. eapply transform_text; eauto. }
  destruct (transform_rows _ _ Hc H) as [Hcols _].
  destruct df_final as [cols rs]. cbn [columns rows] in *. subst cols.
  rewrite loader_frames_canonical.
  rewrite !dimension_text; try discriminate; [reflexivity|..].
  all: apply Forall_forall; intros r Hr; apply Htext; [exact Hr|].
  all: repeat (apply Forall_cons_2; [split; discriminate|]); apply Forall_nil_2.
Qed.

Lemma elem_of_merge_sort (R : relation row) `{forall x y, Decision (R x y)} l x :
  x ∈ merge_sort R l <-> x ∈ l.
Proof. now rewrite merge_sort_Permutation. Qed.

(** When the key of a row is the row itself, keeping the first row of
    every key removes the repeated rows and nothing else. *)
Lemma keep_first_id (key : row -> row) l :
  (forall t, t ∈ l -> key t = t) ->
  NoDup (keep_first key [] l) /\ forall t, t ∈ keep_first key [] l <-> t ∈ l.
Proof.
  intros Hid.
  assert (Hkept : forall t, t ∈ keep_first key [] l -> key t = t).
  { intros t Ht. apply Hid. now apply keep_first_elem in Ht as [Ht _]. }
  split.
  - pose proof (keep_first_NoDup key [] l) as Hnd.
    replace (map key (keep_first key [] l)) with (keep_first key [] l) in Hnd;
      [exact Hnd|].
    rewrite <- (map_id (keep_first key [] l)) at 1.
    apply map_ext_in. intros t Ht. symmetry. apply Hkept.
    now apply list_elem_of_In.
  - intros t. split.
    + intros Ht. now apply keep_first_elem in Ht as [Ht _].
    + intros Ht.
      assert (Hk : key t ∈ map key (keep_first key [] l)).
      { apply keep_first_covers; [exact Ht|]. intros Hin. inversion Hin. }
      apply list_elem_of_fmap in Hk as (t' & Heq & Ht').
      rewrite (Hkept _ Ht'), (Hid _ Ht) in Heq. now subst.
Qed.

Lemma relations_indicator a i s l db :
  Forall (fun '(name, t) => tables db !! name = Some t) (relations a i s l) ->
  tables db !! "air_emissions" = Some (SQL.stored a)
  /\ tables db !! "indicator_codes" = Some (SQL.stored i)
  /\ tables db !! "substance_types" = Some (SQL.stored s)
  /\ tables db !! "location_codes" = Some (SQL.stored l).
Proof.
  unfold relations. intros H.
  apply Forall_cons in H as [H1 H]. apply Forall_cons in H as [H2 H].
  apply Forall_cons in H as [H3 H]. apply Forall_cons in H as [H4 _].
  auto.
Qed.

(** ** The Indicator relation *)


Lemma sample_raw_text : text_frame sample_raw.
Proof. unfold text_frame. repeat constructor. Qed.

Lemma sample_cleaned_Ok : transform_data_body sample_raw = Ok sample_cleaned.
Proof. vm_compute. reflexivity. Qed.


(** ** The SubstanceType relation *)

Lemma find_map {A B} (f : A -> B) (p : B -> bool) (l : list A) :
  List.find p (map f l) = option_map f (List.find (fun x => p (f x)) l).
Proof.
  induction l as [|x l IH]; [reflexivity|]. simpl.
  destruct (p (f x)); [reflexivity | exact IH].
Qed.

Lemma find_ext_elem {A} (p q : A -> bool) (l : list A) :
  (forall x, x ∈ l -> p x = q x) -> List.find p l = List.find q l.
Proof.
  induction l as [|x l IH]; intros H; [reflexivity|]. simpl.
  rewrite (H x) by now left.
  destruct (q x); [reflexivity|]. apply IH. intros y Hy. apply H. now right.
Qed.



(** ** The referential checks *)

Lemma filter_map_comm {A B} (f : A -> B) (p : B -> bool) (l : list A) :
  map f (List.filter (fun x => p (f x)) l) = List.filter p (map f l).
Proof.
  induction l as [|x l IH]; [reflexivity|]. simpl.
  destruct (p (f x)); simpl; now rewrite IH.
Qed.








Lemma filter_none {A} (p : A -> bool) (l : list A) :
  (forall x, x ∈ l -> p x = false) -> List.filter p l = [].
Proof.
  induction l as [|x l IH]; intros H; [reflexivity|]. simpl.
  rewrite (H x) by now left. apply IH. intros y Hy. apply H. now right.
Qed.

(** A fact row whose key is NULL is never counted. *)
Lemma count_where_not_in_drop_null i fact_rows sub :
  SQL.count_where_not_in i (List.filter (fun r => notna (cell_at i r)) fact_rows) sub
  = SQL.count_where_not_in i fact_rows sub.
Proof.
  unfold SQL.count_where_not_in, SQL.count_distinct. cbv zeta. do 3 f_equal.
  rewrite <- !(filter_map_comm (cell_at i) (fun v => negb (SQL.is_null v))).
  f_equal. rewrite !filter_filter.
  apply List.filter_ext. intros r. unfold SQL.is_null, notna.
  destruct (isna (cell_at i r)); simpl; [now rewrite andb_false_r | now rewrite andb_true_r].
Qed.

(** A NULL in the dimension column makes the condition of the query true
    on no row: the count is zero. *)
Lemma count_where_not_in_null_dim i fact_rows sub :
  existsb SQL.is_null sub = true ->
  SQL.count_where_not_in i fact_rows sub = 0.
Proof.
  intros Hnull. unfold SQL.count_where_not_in. cbv zeta.
  rewrite filter_none; [reflexivity|].
  intros r _. unfold SQL.in_.
  destruct sub as [|v sub]; [discriminate Hnull|].
  rewrite Hnull.
  destruct (SQL.is_null (cell_at i r)); [reflexivity|].
  destruct (existsb (fun v0 => negb (SQL.is_null v0) && SQL.same (cell_at i r) v0)
              (v :: sub)); reflexivity.
Qed.

Lemma run_query_count c db fact dimt i j :
  tables db !! "air_emissions" = Some fact -> tables db !! dim c = Some dimt ->
  SQL.column (key c) fact = Ok i -> SQL.column (key c) dimt = Ok j ->
  run_query c db = Ok (SQL.count_where_not_in i (rows fact) (column_values j dimt)).
Proof.
  intros Hf Hd Hi Hj. unfold run_query, SQL.count_not_in, SQL.table.
  rewrite Hf, Hd. cbn [mbind result_bind]. rewrite Hi, Hj. reflexivity.
Qed.

Lemma existsb_is_null_elem sub v :
  v ∈ sub -> SQL.is_null v = true -> existsb SQL.is_null sub = true.
Proof.
  intros Hin Hv. apply existsb_exists. exists v. split; [|exact Hv].
  now apply list_elem_of_In.
Qed.


(** C10.  The count of a referential check is the number of distinct keys
    of the fact rows on which [key NOT IN (keys of the dimension)] is true.
    A fact row whose key is NULL is never counted: dropping these rows
    leaves the count as it is.  When the key column of the dimension holds
    a NULL the count is zero, whatever the fact table holds.  Such a
    dimension arises: a missing location code passes the cleaning, and the
    run on the sample file leaves a NULL key in location_codes. *)
Theorem not_in_ignores_null (c : check) (db : Database) fact dimt i j :
  tables db !! "air_emissions" = Some fact -> tables db !! dim c = Some dimt ->
  SQL.column (key c) fact = Ok i -> SQL.column (key c) dimt = Ok j ->
  run_query c db
  = Ok (SQL.count_where_not_in i (rows fact) (column_values j dimt))
  /\ SQL.count_where_not_in i
       (List.filter (fun r => notna (cell_at i r)) (rows fact)) (column_values j dimt)
     = SQL.count_where_not_in i (rows fact) (column_values j dimt)
  /\ ((exists v, v ∈ column_values j dimt /\ isna v = true) ->
      run_query c db = Ok 0)
  /\ match sample_run with
     | (Ok _, w') =>
         exists t, tables (database_at "air_emissions.db" w') !! "location_codes" = Some t
                   /\ SQL.column "oktmo_code" t = Ok 0
                   /\ NA ∈ column_values 0 t
     | (Raise _, _) => False
     end.
Proof.
  intros Hf Hd Hi Hj.
  pose proof (run_query_count _ _ _ _ _ _ Hf Hd Hi Hj) as Hq.
  split; [exact Hq|]. split; [apply count_where_not_in_drop_null|]. split.
  - intros (v & Hin & Hv). rewrite Hq. f_equal.
    apply count_where_not_in_null_dim. eapply existsb_is_null_elem; eauto.
  - vm_compute. eexists. split; [reflexivity|]. split; [reflexivity|].
    do 2 apply list_elem_of_further. apply list_elem_of_here.
Qed.

Lemma not_in_ignores_null_witness :
  run_query location_check orphan_db = Ok 0
  /\ Str "99" ∈ absent_values (column_values 4 orphan_facts)
                              (column_values 0 orphan_locations).
Proof.
  assert (Hf : tables orphan_db !! "air_emissions" = Some orphan_facts)
    by (vm_compute; reflexivity).
  assert (Hd : tables orphan_db !! dim location_check = Some orphan_locations)
    by (vm_compute; reflexivity).
  assert (Hi : SQL.column (key location_check) orphan_facts = Ok 4)
    by (vm_compute; reflexivity).
  assert (Hj : SQL.column (key location_check) orphan_locations = Ok 0)
    by (vm_compute; reflexivity).
  destruct (not_in_ignores_null location_check orphan_db orphan_facts
              orphan_locations 4 0 Hf Hd Hi Hj) as (_ & _ & H & _).
  split.
  - apply H. exists NA. split; [|reflexivity].
    apply list_elem_of_further. apply list_elem_of_here.
  - vm_compute. apply list_elem_of_here.
Defined.



(** ** The fact relation *)








(** ** Parsing the value *)

Lemma result_mapM_Raise_elem {A B} (f : A -> result B) (l : list A) x e :
  x ∈ l -> f x = Raise e ->
  exists y e', y ∈ l /\ f y = Raise e' /\ result_mapM f l = Raise e'.
Proof.
  induction l as [|z l IH]; intros Hx Hf; [inversion Hx|].
  simpl. destruct (f z) as [b|e0] eqn:Hz.
  - apply elem_of_cons in Hx as [->|Hx]; [congruence|].
    destruct (IH Hx Hf) as (y & e' & Hy & Hfy & Hm).
    exists y, e'. rewrite Hm. split; [now right | auto].
  - exists z, e0. split; [now left | auto].
Qed.



(** When the Transformer raises, the flow raises the same exception and
    no database is touched. *)
Lemma flow_transform_raises now data p rv w raw e :
  files w !! data = Some raw -> transform_data_body raw = Raise e ->
  air_quality_etl_flow now data p rv w
  = (Raise e, add_log [(ERROR, TaskFailed "transform_data" e)] w).
Proof.
  intros Hfile Ht. unfold air_quality_etl_flow.
  rewrite (bind_Ok_task _ _ _ _ _ (extract_data_found _ _ _ Hfile)).
  apply bind_Raise_task. rewrite transform_data_spec. now rewrite Ht.
Qed.





(** ** A value that parses to NaN *)

(** C1 at the failing input.  The text NAN is present, so the row passes
    [dropna]; [float] reads it as NaN, which differs from the sentinel, so
    the row passes the filters: the cleaned frame has a row whose value is
    null, and the run stores NULL as the value of a fact record. *)
Theorem transform_keeps_nan_value :
  (exists r,
      transform_data_body nan_raw = Ok {| columns := new_names; rows := [r] |}
      /\ new_names !! VALUE = Some "value"
      /\ cell_at VALUE r = Num Float.nan
      /\ isna (cell_at VALUE r) = true)
  /\ match air_quality_etl_flow "2026-01-01T00:00:00" "air_emissions.csv"
           "air_emissions.db" true (world_with nan_raw) with
     | (Ok sm, w') =>
         status sm = "COMPLETED"
         /\ exists T f,
             tables (database_at "air_emissions.db" w') !! "air_emissions" = Some T
             /\ columns T !! 3 = Some "value"
             /\ rows T = [f]
             /\ cell_at 3 f = NA
     | (Raise _, _) => False
     end.
Proof.
  split.
  - eexists. vm_compute. repeat split; reflexivity.
  - vm_compute. split; [reflexivity|]. eexists _, _. repeat split; reflexivity.
Qed.

(* ===================================================================== *)
(** * Further properties of the tasks and of the flow *)
(* ===================================================================== *)

(** ** [extract_data]: three attempts *)

Lemma extract_data_missing_exact file w :
  files w !! file = None ->
  extract_data file w
  = (Raise (FileNotFoundError file),
     add_log (replicate 3 (ERROR, TaskFailed "extract_data" (FileNotFoundError file))) w).
Proof.
  intros E. unfold extract_data. simpl.
  rewrite read_csv_missing by exact E.
  rewrite read_csv_missing by exact E.
  rewrite read_csv_missing by exact E.
  now rewrite !add_log_add_log.
Qed.

(** X1.  [extract_data] returns the frame of the file as it was read and
    logs nothing.  When the file is missing it raises [FileNotFoundError]
    after three attempts (the call and its two retries); each attempt logs
    one error, and nothing else changes. *)
Theorem extract_data_attempts (file_path : string) (w : World) :
  extract_data file_path w
  = match files w !! file_path with
    | Some df => (Ok df, w)
    | None =>
        (Raise (FileNotFoundError file_path),
         add_log (replicate 3 (ERROR, TaskFailed "extract_data"
                                        (FileNotFoundError file_path))) w)
    end.
Proof.
  destruct (files w !! file_path) as [df|] eqn:E.
  - now apply extract_data_found.
  - now apply extract_data_missing_exact.
Qed.

(** ** [transform_data] on a frame that is too short *)

Lemma dict_zip_elem (keys values : list string) (d : gmap string string) k :
  length keys <= length values -> k ∈ keys ->
  exists v, dict_zip keys values d !! k = Some v /\ v ∈ take (length keys) values.
Proof.
  revert values d. induction keys as [|k' keys IH]; intros values d Hlen Hk.
  - inversion Hk.
  - destruct values as [|v' values]; [simpl in Hlen; lia|].
    simpl in Hlen. simpl.
    destruct (decide (k ∈ keys)) as [Hin|Hnin].
    + destruct (IH values (<[k' := v']> d)) as (v & Hv & Hel); [lia|exact Hin|].
      exists v. split; [exact Hv|]. now right.
    + apply elem_of_cons in Hk as [->|Hk]; [|contradiction].
      exists v'. rewrite dict_zip_not_key by exact Hnin.
      rewrite lookup_insert_eq. split; [reflexivity|]. now left.
Qed.

Lemma positions_from_nil start label cols :
  label ∉ cols -> positions_from start label cols = [].
Proof.
  revert start. induction cols as [|c cols IH]; intros start H; [reflexivity|].
  simpl. destruct (String.eqb_spec c label) as [->|Hne].
  - exfalso. apply H. now left.
  - apply IH. intros Hin. apply H. now right.
Qed.

Lemma short_frame_no_value (df : DataFrame) :
  length (columns df) < 14 ->
  "value" ∉ columns (rename (dict_zip (columns df) new_names ∅) df).
Proof.
  intros Hlen Hin. unfold rename in Hin. cbn [columns] in Hin.
  apply list_elem_of_fmap in Hin as (c & Hc & Hcin).
  destruct (dict_zip_elem (columns df) new_names ∅ c) as (v & Hv & Hel);
    [change (length new_names) with 14; lia | exact Hcin |].
  rewrite Hv in Hc. simpl in Hc. subst v.
  apply elem_of_take in Hel as (i & Hi & Hlt).
  do 13 (destruct i as [|i]; [discriminate Hi|]).
  lia.
Qed.

Lemma transform_short (df : DataFrame) :
  length (columns df) < 14 -> transform_data_body df = Raise (KeyError "value").
Proof.
  intros Hlen. unfold transform_data_body, dropna.
  unfold required. cbn [result_mapM]. unfold get_locs at 1, positions.
  now rewrite positions_from_nil by now apply short_frame_no_value.
Qed.

(** X2.  A frame of fewer than fourteen columns gets no column named
    [value], whatever its labels and rows: [transform_data] raises
    [KeyError] at the [dropna].  The flow logs that error once, raises it
    and leaves the store as it was. *)
Theorem transform_short_frame_raises (df : DataFrame) :
  length (columns df) < 14 ->
  (exists label, transform_data_body df = Raise (KeyError label))
  /\ forall now data p rv w,
       files w !! data = Some df ->
       exists label,
         air_quality_etl_flow now data p rv w
         = (Raise (KeyError label),
            add_log [(ERROR, TaskFailed "transform_data" (KeyError label))] w).
Proof.
  intros Hlen. pose proof (transform_short df Hlen) as H. split.
  - eauto.
  - intros now data p rv w Hf. exists "value".
    now apply (flow_transform_raises now data p rv w df).
Qed.

Lemma transform_short_frame_raises_witness :
  (exists label, transform_data_body short_raw = Raise (KeyError label))
  /\ exists label,
       air_quality_etl_flow "2026-01-01T00:00:00" "air_emissions.csv"
         "air_emissions.db" true (world_with short_raw)
       = (Raise (KeyError label),
          add_log [(ERROR, TaskFailed "transform_data" (KeyError label))]
                  (world_with short_raw)).
Proof.
  assert (Hlen : length (columns short_raw) < 14) by (vm_compute; lia).
  destruct (transform_short_frame_raises short_raw Hlen) as [H1 H2].
  split; [exact H1|].
  apply H2. reflexivity.
Defined.

(** ** When [transform_data] succeeds *)

Lemma is_ok_result_mapM {A B} (f : A -> result B) (l : list A) :
  is_ok (result_mapM f l) = true <-> Forall (fun x => is_ok (f x) = true) l.
Proof.
  induction l as [|x l IH]; simpl.
  - split; [constructor | reflexivity].
  - rewrite Forall_cons. destruct (f x) as [y|e]; simpl.
    + destruct (result_mapM f l) as [ys|e]; simpl in *.
      * split; [intros _; split; [reflexivity | now apply IH] | reflexivity].
      * split; [discriminate | intros [_ H]; now apply IH in H].
    + split; [discriminate | now intros [H _]].
Qed.

Lemma year_not_value : YEAR <> VALUE.
Proof. discriminate. Qed.


Lemma is_ok_bind_Ok {A B} (m : result A) (f : A -> B) :
  is_ok (x ← m; Ok (f x)) = is_ok m.
Proof. now destruct m. Qed.



(** ** [transform_data] keeps the order of the rows *)

Lemma List_filter_sublist {A} (p : A -> bool) (l : list A) :
  List.filter p l `sublist_of` l.
Proof.
  induction l as [|x l IH]; simpl; [constructor|].
  destruct (p x); now constructor.
Qed.

Lemma mapM_filter_sublist {A B} (f : A -> result B) (q : B -> bool) l rs :
  result_mapM f l = Ok rs ->
  exists kept,
    kept `sublist_of` l /\ Forall2 (fun x y => f x = Ok y) kept (List.filter q rs).
Proof.
  rewrite result_mapM_Ok. induction 1 as [|x y l rs Hxy _ (kept & Hs & Hk)]; simpl.
  - exists []. split; constructor.
  - destruct (q y).
    + exists (x :: kept). split; now constructor.
    + exists kept. split; [now constructor | exact Hk].
Qed.

Lemma convert_row_length r r' : convert_row r = Ok r' -> length r' = length r.
Proof.
  intros H. apply convert_row_Ok in H as (y & v & _ & _ & ->).
  now rewrite !length_insert.
Qed.

(** X4.  [transform_data] neither adds nor reorders rows: the rows of its
    result are, in order, the images of a sub-list of the rows of the
    input; an image has as many cells as its source and the same cell
    everywhere but under [year] and [value]. *)
Theorem transform_keeps_order (df out : DataFrame) :
  canonical df -> transform_data_body df = Ok out ->
  length (rows out) <= length (rows df)
  /\ exists kept,
       kept `sublist_of` rows df
       /\ Forall2 (fun r r' =>
                     length r' = length r
                     /\ forall j, j <> YEAR -> j <> VALUE -> cell_at j r' = cell_at j r)
                  kept (rows out).
Proof.
  intros Hc H. rewrite (transform_canonical df Hc) in H.
  inv_bind H. injection H as <-. cbn [rows].
  destruct (mapM_filter_sublist convert_row valid_row _ _ Ha) as (kept & Hs & Hk).
  assert (Hsub : kept `sublist_of` rows df).
  { etransitivity; [exact Hs | apply List_filter_sublist]. }
  split.
  - rewrite <- (Forall2_length _ _ _ Hk). now apply sublist_length.
  - exists kept. split; [exact Hsub|].
    eapply Forall2_impl; [exact Hk|].
    intros r r' Hr. split; [now apply convert_row_length|].
    intros j Hy Hv. now apply (convert_row_other r r' j).
Qed.

Lemma transform_keeps_order_witness :
  length (rows sample_cleaned) <= length (rows sample_raw)
  /\ exists kept,
       kept `sublist_of` rows sample_raw
       /\ Forall2 (fun r r' =>
                     length r' = length r
                     /\ forall j, j <> YEAR -> j <> VALUE -> cell_at j r' = cell_at j r)
                  kept (rows sample_cleaned).
Proof.
  exact (transform_keeps_order sample_raw sample_cleaned
           sample_raw_canonical sample_cleaned_Ok).
Defined.

(** ** The year column influences nothing but itself *)

Lemma same_but_year_cell r1 r2 j :
  same_but_year r1 r2 -> j <> YEAR -> cell_at j r1 = cell_at j r2.
Proof.
  intros H Hj.
  rewrite <- (cell_at_insert_ne YEAR j NA r1), <- (cell_at_insert_ne YEAR j NA r2)
    by (intros E; now apply Hj).
  unfold same_but_year in H. now rewrite H.
Qed.

Lemma same_but_year_complete r1 r2 :
  same_but_year r1 r2 -> complete_row r1 = complete_row r2.
Proof.
  intros H. unfold complete_row.
  now rewrite !(same_but_year_cell r1 r2 _ H) by discriminate.
Qed.

Lemma same_but_year_valid r1 r2 :
  same_but_year r1 r2 -> valid_row r1 = valid_row r2.
Proof.
  intros H. unfold valid_row.
  now rewrite !(same_but_year_cell r1 r2 _ H) by discriminate.
Qed.

Lemma same_but_year_convert r1 r2 :
  same_but_year r1 r2 ->
  match convert_row r1, convert_row r2 with
  | Ok r1', Ok r2' => same_but_year r1' r2'
  | Raise e1, Raise e2 => e1 = e2
  | _, _ => False
  end.
Proof.
  intros H. unfold convert_row, to_numeric_coerce. cbn [mbind result_bind].
  rewrite !cell_at_insert_ne by exact year_not_value.
  rewrite (same_but_year_cell r1 r2 VALUE H) by discriminate.
  destruct (astype_float _) as [v|e]; [|reflexivity].
  cbn [mbind result_bind]. unfold same_but_year in *.
  rewrite !(list_insert_insert_ne _ YEAR VALUE) by exact year_not_value.
  rewrite !list_insert_insert_eq. now rewrite H.
Qed.

Lemma Forall2_List_filter {A} (R : A -> A -> Prop) (p : A -> bool) l1 l2 :
  (forall x y, R x y -> p x = p y) ->
  Forall2 R l1 l2 -> Forall2 R (List.filter p l1) (List.filter p l2).
Proof.
  intros Hp. induction 1 as [|x y l1 l2 Hxy _ IH]; simpl; [constructor|].
  rewrite <- (Hp x y Hxy). destruct (p x); [now constructor | exact IH].
Qed.

Lemma same_but_year_mapM l1 l2 :
  Forall2 same_but_year l1 l2 ->
  match result_mapM convert_row l1, result_mapM convert_row l2 with
  | Ok rs1, Ok rs2 => Forall2 same_but_year rs1 rs2
  | Raise e1, Raise e2 => e1 = e2
  | _, _ => False
  end.
Proof.
  induction 1 as [|r1 r2 l1 l2 Hr _ IH]; simpl; [constructor|].
  pose proof (same_but_year_convert r1 r2 Hr) as Hc.
  destruct (convert_row r1) as [r1'|e1], (convert_row r2) as [r2'|e2];
    try contradiction; [|exact Hc].
  destruct (result_mapM convert_row l1) as [rs1|e1],
           (result_mapM convert_row l2) as [rs2|e2];
    try contradiction; [|exact IH].
  now constructor.
Qed.

(** X5.  Two inputs that differ in their year cells only are treated
    alike: [transform_data] raises the same exception on both, or succeeds
    on both with results that again differ in the year cells only.  So a
    year that cannot be read never drops a row and never fails the run. *)
Theorem year_influences_only_itself (df1 df2 : DataFrame) :
  canonical df1 -> canonical df2 ->
  Forall2 same_but_year (rows df1) (rows df2) ->
  match transform_data_body df1, transform_data_body df2 with
  | Ok out1, Ok out2 => Forall2 same_but_year (rows out1) (rows out2)
  | Raise e1, Raise e2 => e1 = e2
  | _, _ => False
  end.
Proof.
  intros Hc1 Hc2 H.
  rewrite (transform_canonical df1 Hc1), (transform_canonical df2 Hc2).
  pose proof (same_but_year_mapM _ _
                (Forall2_List_filter _ complete_row _ _ same_but_year_complete H)) as Hm.
  destruct (result_mapM convert_row (List.filter complete_row (rows df1))) as [rs1|e1],
           (result_mapM convert_row (List.filter complete_row (rows df2))) as [rs2|e2];
    try contradiction; [|exact Hm].
  cbn [mbind result_bind rows].
  now apply Forall2_List_filter; [exact same_but_year_valid|].
Qed.

Lemma year_influences_only_itself_witness :
  match transform_data_body sample_raw, transform_data_body sample_raw_bad_years with
  | Ok out1, Ok out2 => Forall2 same_but_year (rows out1) (rows out2)
  | Raise e1, Raise e2 => e1 = e2
  | _, _ => False
  end.
Proof.
  apply (year_influences_only_itself sample_raw sample_raw_bad_years).
  - exact sample_raw_canonical.
  - exact sample_raw_canonical.
  - unfold sample_raw_bad_years. cbn [rows].
    apply Forall2_fmap_r, Forall_Forall2_diag, Forall_forall.
    intros r _. unfold compose, same_but_year. cbv beta.
    now rewrite list_insert_insert_eq.
Defined.

(** ** The loader, with its log *)

Lemma create_index_is_ok table idx column db :
  (exists t, tables db !! table = Some t /\ column ∈ columns t) ->
  (SQL.create_index table idx column db).1 = Ok tt.
Proof.
  intros (t & Ht & Hc). unfold SQL.create_index. rewrite Ht.
  destruct (indexes db !! idx); [reflexivity|].
  now rewrite bool_decide_eq_true_2.
Qed.

Lemma create_index_logged_exact p table idx column w :
  (exists t, tables (database_at p w) !! table = Some t /\ column ∈ columns t) ->
  create_index_logged p (table, idx, column) w
  = (Ok tt, add_log [(DEBUG, IndexCreated idx)]
              (put_db p (add_index (database_at p w) (table, idx, column)) w)).
Proof.
  intros H. unfold create_index_logged, try_except. rewrite bind_execute. cbv zeta.
  now rewrite (create_index_is_ok _ _ _ _ H).
Qed.

Lemma for_each_create_index_exact p specs w :
  specs <> [] -> indexable (database_at p w) specs ->
  for_each specs (create_index_logged p) w
  = (Ok tt, add_log (index_log specs)
              (put_db p (foldl add_index (database_at p w) specs) w)).
Proof.
  revert w. induction specs as [|[[table idx] column] specs IH]; intros w Hne Hix;
    [congruence|].
  apply Forall_cons in Hix as [H1 Hix].
  cbn [for_each]. unfold mbind, task_bind.
  rewrite (create_index_logged_exact _ _ _ _ _ H1).
  destruct specs as [|spec' specs]; [reflexivity|].
  rewrite IH; [|congruence|].
  - rewrite database_at_add_log, database_at_put_db, put_db_add_log, put_db_put_db,
      add_log_add_log. reflexivity.
  - rewrite database_at_add_log, database_at_put_db.
    eapply indexable_tables; [apply tables_add_index | exact Hix].
Qed.

Lemma create_indexes_exact p w :
  indexable (database_at p w) index_specs ->
  create_indexes p w
  = (Ok tt, add_log (index_log index_specs)
              (put_db p (add_indexes (database_at p w)) w)).
Proof.
  intros H. unfold create_indexes, add_indexes.
  apply for_each_create_index_exact; [discriminate | exact H].
Qed.

Lemma loader_frames_Ok_inv df a i s l :
  loader_frames df = Ok (a, i, s, l) ->
  select air_emissions_cols df = Ok a
  /\ exists i0 s0 l0,
       select ["code"; "indicator"] df ≫= drop_duplicates = Ok i0
       /\ sort_values "code" i0 = Ok i
       /\ select ["substance"; "source_type"] df ≫= drop_duplicates_on ["substance"]
          = Ok s0
       /\ sort_values "substance" s0 = Ok s
       /\ select location_cols df ≫= drop_duplicates = Ok l0
       /\ sort_values "oktmo_code" l0 = Ok l.
Proof.
  intros H. unfold loader_frames in H.
  destruct (select air_emissions_cols df) as [a'|e]; [|discriminate H].
  cbn [mbind result_bind] in H.
  destruct (select ["code"; "indicator"] df ≫= drop_duplicates) as [i0|e];
    [|discriminate H].
  cbn [mbind result_bind] in H.
  destruct (sort_values "code" i0) as [i'|e] eqn:Hi; [|discriminate H].
  cbn [mbind result_bind] in H.
  destruct (select ["substance"; "source_type"] df ≫= drop_duplicates_on ["substance"])
    as [s0|e]; [|discriminate H].
  cbn [mbind result_bind] in H.
  destruct (sort_values "substance" s0) as [s'|e] eqn:Hs; [|discriminate H].
  cbn [mbind result_bind] in H.
  destruct (select location_cols df ≫= drop_duplicates) as [l0|e]; [|discriminate H].
  cbn [mbind result_bind] in H.
  destruct (sort_values "oktmo_code" l0) as [l'|e] eqn:Hl; [|discriminate H].
  cbn [mbind result_bind] in H.
  assert (a' = a /\ i' = i /\ s' = s /\ l' = l) as (-> & -> & -> & ->)
    by (injection H; auto).
  split; [reflexivity|]. exists i0, s0, l0.
  repeat split; first [reflexivity | assumption].
Qed.

Lemma create_database_tables_body_exact df p w a i s l :
  loader_frames df = Ok (a, i, s, l) ->
  create_database_tables_body df p w
  = (Ok (total (stats_of a i s l), stats_of a i s l),
     add_log (index_log index_specs)
             (put_db p (loaded_db a i s l (database_at p w)) w)).
Proof.
  intros H. pose proof (loader_frames_columns _ _ _ _ _ H) as (Ca & Ci & Cs & Cl).
  apply loader_frames_Ok_inv in H
    as (Ha & i0 & s0 & l0 & Hi0 & Hi & Hs0 & Hs & Hl0 & Hl).
  unfold create_database_tables_body.
  rewrite Ha, bind_lift. cbv beta iota.
  rewrite bind_execute. cbv zeta.
  rewrite to_sql_ok by (rewrite Ca; apply air_emissions_cols_NoDup).
  cbv beta iota.
  rewrite Hi0, bind_lift. cbv beta iota. rewrite Hi, bind_lift. cbv beta iota.
  rewrite bind_execute. cbv zeta.
  rewrite to_sql_ok by (rewrite Ci; compute_done).
  cbv beta iota.
  rewrite Hs0, bind_lift. cbv beta iota. rewrite Hs, bind_lift. cbv beta iota.
  rewrite bind_execute. cbv zeta.
  rewrite to_sql_ok by (rewrite Cs; compute_done).
  cbv beta iota.
  rewrite Hl0, bind_lift. cbv beta iota. rewrite Hl, bind_lift. cbv beta iota.
  rewrite bind_execute. cbv zeta.
  rewrite to_sql_ok by (rewrite Cl; apply location_cols_NoDup).
  cbv beta iota.
  rewrite !database_at_put_db, !put_db_put_db.
  unfold mbind at 1. unfold task_bind.
  match goal with |- context [create_indexes p ?w0] =>
    rewrite (create_indexes_exact p w0)
  end.
  - rewrite database_at_put_db, put_db_put_db.
    unfold loaded_db, write_tables, stats_of. cbn [app]. reflexivity.
  - rewrite database_at_put_db.
    exact (indexable_write_tables a i s l (database_at p w) Ca Ci Cs Cl).
Qed.

Lemma create_database_tables_exact df p w a i s l :
  loader_frames df = Ok (a, i, s, l) ->
  create_database_tables df p w
  = (Ok (total (stats_of a i s l), stats_of a i s l),
     add_log (index_log index_specs)
             (put_db p (loaded_db a i s l (database_at p w)) w)).
Proof.
  intros H. unfold create_database_tables, logged, try_except.
  now rewrite (create_database_tables_body_exact _ _ _ _ _ _ _ H).
Qed.

Lemma create_database_tables_Ok_inv df p w res w' :
  create_database_tables df p w = (Ok res, w') ->
  exists a i s l,
    loader_frames df = Ok (a, i, s, l)
    /\ res = (total (stats_of a i s l), stats_of a i s l)
    /\ w' = add_log (index_log index_specs)
                    (put_db p (loaded_db a i s l (database_at p w)) w).
Proof.
  intros H. pose proof (create_database_tables_spec df p w) as Hs.
  destruct (loader_frames df) as [[[[a i] s] l]|e] eqn:E.
  - rewrite (create_database_tables_exact _ p w _ _ _ _ E) in H.
    apply Ok_pair_inj in H as [<- <-]. exists a, i, s, l. auto.
  - destruct Hs as [w0 Hs]. rewrite Hs in H. discriminate H.
Qed.





(** ** The indexes after a load *)





Lemma database_at_loaded p lg db w :
  database_at p (add_log lg (put_db p db w)) = db.
Proof. now rewrite database_at_add_log, database_at_put_db. Qed.



(** ** What a load leaves alone *)

Lemma not_relation_name name :
  name ∉ relation_names ->
  name <> "air_emissions" /\ name <> "indicator_codes"
  /\ name <> "substance_types" /\ name <> "location_codes".
Proof.
  intros H. repeat split; intros ->; apply H; unfold relation_names;
    repeat first [ apply list_elem_of_here | apply list_elem_of_further ].
Qed.

(** X8.  A load writes the four relations only: every other table of the
    database file, every other database file and the input files are as
    they were. *)
Theorem load_leaves_other_tables df p w res w' :
  create_database_tables df p w = (Ok res, w') ->
  (forall name, name ∉ relation_names ->
     tables (database_at p w') !! name = tables (database_at p w) !! name)
  /\ (forall q, q <> p -> dbs w' !! q = dbs w !! q)
  /\ files w' = files w.
Proof.
  intros H.
  apply create_database_tables_Ok_inv in H as (a & i & s & l & Hl & _ & ->).
  apply loader_frames_columns in Hl as (Ca & Ci & Cs & Cl).
  rewrite database_at_loaded. split; [|split].
  - intros name Hn. apply not_relation_name in Hn as (N1 & N2 & N3 & N4).
    rewrite tables_loaded_db by assumption.
    now rewrite !lookup_insert_ne by congruence.
  - intros q Hq. cbn [dbs add_log put_db]. now apply lookup_insert_ne.
  - reflexivity.
Qed.

Lemma load_leaves_other_tables_witness :
  match create_database_tables sample_cleaned "air_emissions.db" legacy_world with
  | (Ok _, w') =>
      tables (database_at "air_emissions.db" w') !! "notes"
      = Some {| columns := ["text"]; rows := [[Str "keep"]] |}
  | (Raise _, _) => False
  end.
Proof.
  destruct (create_database_tables sample_cleaned "air_emissions.db" legacy_world)
    as [[res|e] w'] eqn:E.
  - rewrite (proj1 (load_leaves_other_tables _ _ _ _ _ E) "notes") by compute_done.
    vm_compute. reflexivity.
  - vm_compute in E. discriminate E.
Defined.

(** ** The statistics of a load *)

Lemma select_length labels df out :
  select labels df = Ok out -> length (rows out) = length (rows df).
Proof.
  unfold select. intros H. inv_bind H. injection H as <-.
  cbn [rows]. now rewrite length_map.
Qed.

Lemma keep_first_length {K} `{EqDecision K} (key : row -> K) seen l :
  length (keep_first key seen l) <= length l.
Proof.
  revert seen. induction l as [|r l IH]; intros seen; simpl; [lia|].
  destruct (decide (key r ∈ seen)); simpl.
  - specialize (IH seen). lia.
  - specialize (IH (key r :: seen)). lia.
Qed.

Lemma drop_duplicates_on_length subset df out :
  drop_duplicates_on subset df = Ok out -> length (rows out) <= length (rows df).
Proof.
  unfold drop_duplicates_on. intros H. inv_bind H. injection H as <-.
  cbn [rows]. apply keep_first_length.
Qed.

Lemma sort_values_length label df out :
  sort_values label df = Ok out -> length (rows out) = length (rows df).
Proof.
  unfold sort_values. intros H. inv_bind H.
  destruct (comparable _); [|discriminate H]. injection H as <-.
  cbn [rows]. apply Permutation_length, merge_sort_Permutation.
Qed.

Lemma dimension_length labels subset df d0 key d :
  select labels df ≫= drop_duplicates_on subset = Ok d0 ->
  sort_values key d0 = Ok d ->
  length (rows d) <= length (rows df).
Proof.
  intros H0 H. inv_bind H0.
  rewrite (sort_values_length _ _ _ H), <- (select_length _ _ _ Ha).
  now apply (drop_duplicates_on_length subset).
Qed.

Lemma dimension_length_all labels df d0 key d :
  select labels df ≫= drop_duplicates = Ok d0 ->
  sort_values key d0 = Ok d ->
  length (rows d) <= length (rows df).
Proof.
  intros H0 H. inv_bind H0.
  rewrite (sort_values_length _ _ _ H), <- (select_length _ _ _ Ha).
  unfold drop_duplicates in H0. now apply (drop_duplicates_on_length (columns a)).
Qed.

Lemma loader_frames_lengths df a i s l :
  loader_frames df = Ok (a, i, s, l) ->
  length (rows a) = length (rows df)
  /\ length (rows i) <= length (rows df)
  /\ length (rows s) <= length (rows df)
  /\ length (rows l) <= length (rows df).
Proof.
  intros H. apply loader_frames_Ok_inv in H
    as (Ha & i0 & s0 & l0 & Hi0 & Hi & Hs0 & Hs & Hl0 & Hl).
  split; [now apply (select_length air_emissions_cols)|].
  split; [now apply (dimension_length_all _ _ _ _ _ Hi0 Hi)|].
  split; [now apply (dimension_length _ _ _ _ _ _ Hs0 Hs)|].
  now apply (dimension_length_all _ _ _ _ _ Hl0 Hl).
Qed.

(** X9.  The statistics that a load returns are the numbers of rows of
    the four relations as they are stored, in the order air_emissions,
    indicator_codes, substance_types, location_codes, and the total is
    their sum: it counts the rows of the dimensions too.  The fact
    relation has as many rows as the cleaned frame, and no dimension has
    more. *)
Theorem load_statistics df p w n stats w' :
  create_database_tables df p w = (Ok (n, stats), w') ->
  exists na ni ns nl,
    stats = [ ("air_emissions", na); ("indicator_codes", ni);
              ("substance_types", ns); ("location_codes", nl) ]
    /\ n = na + ni + ns + nl
    /\ na = length (rows df)
    /\ ni <= na /\ ns <= na /\ nl <= na
    /\ Forall (fun '(name, k) =>
                 exists t, tables (database_at p w') !! name = Some t
                           /\ length (rows t) = k) stats.
Proof.
  intros H.
  apply create_database_tables_Ok_inv in H as (a & i & s & l & Hl & Hres & ->).
  injection Hres as -> ->.
  pose proof (loader_frames_lengths _ _ _ _ _ Hl) as (La & Li & Ls & Ll).
  apply loader_frames_columns in Hl as (Ca & Ci & Cs & Cl).
  exists (length (rows a)), (length (rows i)), (length (rows s)), (length (rows l)).
  split; [reflexivity|].
  split; [unfold total, stats_of; simpl; lia|].
  split; [exact La|].
  rewrite La. do 3 (split; [assumption|]).
  rewrite database_at_loaded.
  pose proof (relations_loaded a i s l (database_at p w) Ca Ci Cs Cl) as Hr.
  apply relations_indicator in Hr as (Ra & Ri & Rs & Rl).
  unfold stats_of.
  repeat (apply Forall_cons_2; [eexists; split; [eassumption|]; cbn [SQL.stored rows];
                                now rewrite length_map|]).
  constructor.
Qed.

Lemma load_statistics_witness :
  match create_database_tables sample_cleaned "air_emissions.db" sample_world with
  | (Ok (n, stats), _) =>
      exists na ni ns nl,
        stats = [ ("air_emissions", na); ("indicator_codes", ni);
                  ("substance_types", ns); ("location_codes", nl) ]
        /\ n = na + ni + ns + nl
        /\ na = length (rows sample_cleaned)
        /\ ni <= na /\ ns <= na /\ nl <= na
  | (Raise _, _) => False
  end.
Proof.
  destruct (create_database_tables sample_cleaned "air_emissions.db" sample_world)
    as [[[n stats]|e] w'] eqn:E.
  - destruct (load_statistics _ _ _ _ _ _ E)
      as (na & ni & ns & nl & H1 & H2 & H3 & H4 & H5 & H6 & _).
    exists na, ni, ns, nl. auto 10.
  - vm_compute in E. discriminate E.
Defined.

(** ** The counts of the loader and of the validator agree *)



(** ** After a load, every reference resolves *)

Lemma cell_at_map_value k (r : row) :
  cell_at k (map SQL.value r) = SQL.value (cell_at k r).
Proof.
  unfold cell_at. change (map SQL.value r) with (SQL.value <$> r).
  rewrite list_lookup_fmap. now destruct (r !! k).
Qed.

Lemma hash_key_Str c s : hash_key c = Str s -> c = Str s.
Proof.
  destruct c as [|t|x]; simpl; try congruence.
  destruct (Float.is_nan x); [discriminate|].
  destruct (Float.is_zero x); discriminate.
Qed.








(** ** The outcome of the flow *)



(** ** What a task may change *)

Lemma writes_only_refl p w : writes_only p w w.
Proof.
  split; [reflexivity|]. split; [reflexivity|]. exists []. now rewrite app_nil_r.
Qed.

Lemma writes_only_trans p w1 w2 w3 :
  writes_only p w1 w2 -> writes_only p w2 w3 -> writes_only p w1 w3.
Proof.
  intros (F1 & D1 & lg1 & L1) (F2 & D2 & lg2 & L2).
  split; [congruence|]. split.
  - intros q Hq. now rewrite D2, D1.
  - exists (lg1 ++ lg2). now rewrite L2, L1, app_assoc.
Qed.

Lemma confined_mret p {A} (a : A) : confined p (mret a : Task A).
Proof. intros w. apply writes_only_refl. Qed.

Lemma confined_lift p {A} (r : result A) : confined p (lift r).
Proof. intros w. apply writes_only_refl. Qed.

Lemma confined_raise p {A} (e : exn) : confined p (raise e : Task A).
Proof. intros w. apply writes_only_refl. Qed.

Lemma confined_logger p l m : confined p (logger l m).
Proof.
  intros w. split; [reflexivity|]. split; [reflexivity|]. now exists [(l, m)].
Qed.

Lemma confined_query p q {A} (f : Database -> result A) : confined p (query q f).
Proof. intros w. apply writes_only_refl. Qed.

Lemma confined_execute p {A} (stmt : Database -> result A * Database) :
  confined p (execute p stmt).
Proof.
  intros w. unfold execute. destruct (stmt (database_at p w)) as [r db'].
  split; [reflexivity|]. split.
  - intros q Hq. cbn [snd dbs put_db]. now apply lookup_insert_ne.
  - exists []. cbn [snd log put_db]. now rewrite app_nil_r.
Qed.

Lemma confined_bind p {A B} (m : Task A) (f : A -> Task B) :
  confined p m -> (forall a, confined p (f a)) -> confined p (m ≫= f).
Proof.
  intros Hm Hf w. unfold mbind, task_bind.
  specialize (Hm w). destruct (m w) as [[a|e] w1]; [|exact Hm].
  eapply writes_only_trans; [exact Hm | apply Hf].
Qed.

Lemma confined_try_except p {A} (body : Task A) (handler : exn -> Task A) :
  confined p body -> (forall e, confined p (handler e)) ->
  confined p (try_except body handler).
Proof.
  intros Hb Hh w. unfold try_except.
  specialize (Hb w). destruct (body w) as [[a|e] w1]; [exact Hb|].
  eapply writes_only_trans; [exact Hb | apply Hh].
Qed.

Lemma confined_logged p {A} name (body : Task A) :
  confined p body -> confined p (logged name body).
Proof.
  intros Hb. apply confined_try_except; [exact Hb|].
  intros e. apply confined_bind; [apply confined_logger|].
  intros _. apply confined_raise.
Qed.

Lemma confined_for_each p {A} (xs : list A) (body : A -> Task unit) :
  (forall x, confined p (body x)) -> confined p (for_each xs body).
Proof.
  intros Hb. induction xs as [|x xs IH]; simpl.
  - apply confined_mret.
  - apply confined_bind; [apply Hb | intros _; exact IH].
Qed.

Lemma confined_with_retries p {A} n (t : Task A) :
  confined p t -> confined p (with_retries n t).
Proof.
  intros Ht. induction n as [|n IH]; intros w; simpl.
  - specialize (Ht w). now destruct (t w) as [[a|e] w1].
  - specialize (Ht w). destruct (t w) as [[a|e] w1]; [exact Ht|].
    eapply writes_only_trans; [exact Ht | apply IH].
Qed.

Lemma confined_read_csv p file : confined p (read_csv file).
Proof.
  intros w. unfold read_csv. destruct (files w !! file); apply writes_only_refl.
Qed.

Create HintDb confined discriminated.
#[local] Hint Resolve confined_mret confined_lift confined_raise confined_logger
  confined_query confined_execute confined_read_csv : confined.

Ltac confine :=
  repeat first
    [ apply confined_logged
    | apply confined_with_retries
    | apply confined_try_except; [|intros ?]
    | apply confined_for_each; intros ?
    | apply confined_bind; [|intros ?]
    | solve [auto with confined] ].

Lemma confined_extract_data p file : confined p (extract_data file).
Proof. unfold extract_data. confine. Qed.

Lemma confined_transform_data p df : confined p (transform_data df).
Proof. unfold transform_data. confine. Qed.

Lemma confined_create_database_tables p df :
  confined p (create_database_tables df p).
Proof.
  unfold create_database_tables, create_database_tables_body, create_indexes.
  confine. unfold create_index_logged.
  match goal with x : (string * string * string)%type |- _ =>
    destruct x as [[table idx_name] column] end.
  confine.
Qed.

Lemma confined_inspect_tables p names acc : confined p (inspect_tables p names acc).
Proof.
  revert acc. induction names as [|n names IH]; intros acc; simpl.
  - apply confined_mret.
  - apply confined_bind; [|intros info; apply IH].
    unfold inspect_table. confine.
    match goal with |- context [if ?b then _ else _] => destruct b end; confine.
Qed.

Lemma confined_validate_database p : confined p (validate_database p).
Proof.
  unfold validate_database, validate_database_body. confine.
  - apply confined_inspect_tables.
  - unfold run_check. confine.
    match goal with |- context [report ?c ?n] => destruct (report c n) end. confine.
Qed.

(** X13.  Whatever a run returns or raises, it changes no input file and
    no database other than [db_file], and it only adds records to the
    log. *)
Theorem flow_writes_only_db_file now data p rv w :
  let w' := (air_quality_etl_flow now data p rv w).2 in
  files w' = files w
  /\ (forall q, q <> p -> dbs w' !! q = dbs w !! q)
  /\ exists lg, log w' = log w ++ lg.
Proof.
  cbv zeta. revert w.
  change (confined p (air_quality_etl_flow now data p rv)).
  unfold air_quality_etl_flow.
  apply confined_bind; [apply confined_extract_data | intros raw].
  apply confined_bind; [apply confined_transform_data | intros df].
  apply confined_bind; [apply confined_create_database_tables | intros [n stats]].
  apply confined_bind; [|intros vr; apply confined_mret].
  destruct rv; [apply confined_validate_database | apply confined_mret].
Qed.

(** ** The validator on a store without the fact table *)




(** ** A run in which no row survives *)




(** ** The Location relation *)





(** ** The fact relation *)

Lemma select_rows labels df out :
  select labels df = Ok out ->
  exists idx,
    Forall2 (fun label j => get_loc label (columns df) = Ok j) labels idx
    /\ rows out = map (fun r => map (fun j => cell_at j r) idx) (rows df).
Proof.
  unfold select. intros H. inv_bind H. injection H as <-.
  exists a. split; [now apply result_mapM_Ok | reflexivity].
Qed.

(** X17.  The fact relation has one record for every row of the frame
    given to the loader, in the same order and with repeated rows kept;
    a record holds the cells of its row under the six labels section,
    code, substance, value, oktmo_code and year, a NaN stored as NULL. *)
Theorem fact_relation_is_projection df p w res w' :
  create_database_tables df p w = (Ok res, w') ->
  exists T,
    tables (database_at p w') !! "air_emissions" = Some T
    /\ columns T = ["section"; "code"; "substance"; "value"; "oktmo_code"; "year"]
    /\ Forall2
         (fun r f =>
            Forall2 (fun label c =>
                       exists j, get_loc label (columns df) = Ok j
                                 /\ c = SQL.value (cell_at j r))
                    (columns T) f)
         (rows df) (rows T).
Proof.
  intros H.
  apply create_database_tables_Ok_inv in H as (a & i & s & l & Hl & _ & ->).
  pose proof (loader_frames_columns _ _ _ _ _ Hl) as (Ca & Ci & Cs & Cl).
  pose proof (relations_loaded a i s l (database_at p w) Ca Ci Cs Cl) as Hr.
  apply relations_indicator in Hr as (Ra & _).
  apply loader_frames_Ok_inv in Hl as (Ha & _).
  destruct (select_rows _ _ _ Ha) as (idx & Hidx & Hrows).
  rewrite database_at_loaded.
  exists (SQL.stored a). split; [exact Ra|]. split; [exact Ca|].
  cbn [SQL.stored columns rows]. rewrite Ca, Hrows.
  apply Forall2_fmap_r, Forall2_fmap_r, Forall_Forall2_diag, Forall_forall.
  intros r _. unfold compose.
  apply Forall2_fmap_r, Forall2_fmap_r.
  eapply Forall2_impl; [exact Hidx|].
  intros label j Hj. unfold compose. exists j. split; [exact Hj | reflexivity].
Qed.

Lemma fact_relation_is_projection_witness :
  match create_database_tables sample_cleaned "air_emissions.db" sample_world with
  | (Ok _, w') =>
      exists T,
        tables (database_at "air_emissions.db" w') !! "air_emissions" = Some T
        /\ length (rows T) = length (rows sample_cleaned)
  | (Raise _, _) => False
  end.
Proof.
  destruct (create_database_tables sample_cleaned "air_emissions.db" sample_world)
    as [[res|e] w'] eqn:E.
  - destruct (fact_relation_is_projection _ _ _ _ _ E) as (T & H1 & _ & H3).
    exists T. split; [exact H1|]. symmetry. exact (Forall2_length _ _ _ H3).
  - vm_compute in E. discriminate E.
Defined.

(** ** A load that fails half-way *)

Lemma logged_raise {A} name (body : Task A) w e w1 :
  body w = (Raise e, w1) ->
  logged name body w = (Raise e, add_log [(ERROR, TaskFailed name e)] w1).
Proof. intros H. unfold logged, try_except. now rewrite H. Qed.

(** X18.  A load is not atomic.  On a frame without one of the six fact
    columns it raises before it writes.  On a frame that has them but
    lacks code or indicator for the first dimension it raises [KeyError]
    after air_emissions has been replaced: the store then holds the new
    fact table, none of its former indexes, and the old other tables. *)
Theorem load_is_not_atomic df p w :
  (forall e,
      select air_emissions_cols df = Raise e ->
      create_database_tables df p w
      = (Raise e, add_log [(ERROR, TaskFailed "create_database_tables" e)] w))
  /\ (forall a e,
        select air_emissions_cols df = Ok a ->
        select ["code"; "indicator"] df = Raise e ->
        let db' := (SQL.to_sql "air_emissions" a (database_at p w)).2 in
        create_database_tables df p w
        = (Raise e, add_log [(ERROR, TaskFailed "create_database_tables" e)]
                            (put_db p db' w))
        /\ tables db' !! "air_emissions" = Some (SQL.stored a)
        /\ (forall name, name <> "air_emissions" ->
              tables db' !! name = tables (database_at p w) !! name)
        /\ (forall k v, indexes db' !! k = Some v ->
              index_table v <> "air_emissions"
              /\ indexes (database_at p w) !! k = Some v)).
Proof.
  split.
  - intros e He. apply logged_raise. unfold create_database_tables_body.
    now rewrite He, bind_lift.
  - intros a e Ha He db'.
    assert (Hnd : NoDup (columns a))
      by (rewrite (select_columns _ _ _ Ha); apply air_emissions_cols_NoDup).
    split; [|split; [|split]].
    + apply logged_raise. unfold create_database_tables_body.
      rewrite Ha, bind_lift. cbv beta iota.
      rewrite bind_execute. cbv zeta. rewrite to_sql_ok by exact Hnd.
      cbv beta iota. rewrite He. cbn [mbind result_bind]. now rewrite bind_lift.
    + unfold db'. rewrite tables_to_sql by exact Hnd. apply lookup_insert_eq.
    + intros name Hn. unfold db'. rewrite tables_to_sql by exact Hnd.
      now apply lookup_insert_ne.
    + intros k v Hk. unfold db' in Hk. rewrite indexes_to_sql in Hk.
      rewrite lookup_filter_table in Hk.
      destruct (indexes (database_at p w) !! k) as [v0|]; [|discriminate Hk].
      destruct (decide (index_table v0 = "air_emissions")); [discriminate Hk|].
      injection Hk as <-. auto.
Qed.

Lemma load_is_not_atomic_witness :
  create_database_tables orphan_facts "air_emissions.db" legacy_world
  = (Raise (KeyError "indicator"),
     add_log [(ERROR, TaskFailed "create_database_tables" (KeyError "indicator"))]
       (put_db "air_emissions.db"
          (SQL.to_sql "air_emissions" orphan_facts
             (database_at "air_emissions.db" legacy_world)).2 legacy_world))
  /\ indexes (SQL.to_sql "air_emissions" orphan_facts
                (database_at "air_emissions.db" legacy_world)).2 !! "idx_old" = None.
Proof.
  split.
  - apply (proj2 (load_is_not_atomic orphan_facts "air_emissions.db" legacy_world)
             orphan_facts (KeyError "indicator")).
    + vm_compute. reflexivity.
    + vm_compute. reflexivity.
  - vm_compute. reflexivity.
Defined.

(* ===================================================================== *)
(** * Properties of the dashboard *)
(* ===================================================================== *)

(** ** The dicts of the dashboard *)

Lemma py_eq_true a b : Dashboard.py_eq a b = true <-> hash_key a = hash_key b.
Proof. unfold Dashboard.py_eq. apply bool_decide_eq_true. Qed.

Lemma py_eq_refl a : Dashboard.py_eq a a = true.
Proof. now apply py_eq_true. Qed.

Lemma py_eq_trans_false a b c :
  Dashboard.py_eq a b = true -> Dashboard.py_eq a c = Dashboard.py_eq b c.
Proof.
  intros H. apply py_eq_true in H. unfold Dashboard.py_eq. now rewrite H.
Qed.

Lemma values_of_append_to k k' v d :
  values_of (Dashboard.append_to k' v d) k
  = values_of d k ++ (if Dashboard.py_eq k' k then [v] else []).
Proof.
  unfold values_of. induction d as [|[k0 [v0 vs]] d IH]; simpl.
  - now destruct (Dashboard.py_eq k' k).
  - destruct (Dashboard.py_eq k0 k') eqn:E0; simpl.
    + rewrite <- (py_eq_trans_false _ _ k E0).
      destruct (Dashboard.py_eq k0 k) eqn:E1.
      * reflexivity.
      * now rewrite app_nil_r.
    + destruct (Dashboard.py_eq k0 k) eqn:E1; [|exact IH].
      rewrite (py_eq_trans_false _ _ k' E1) in E0.
      assert (E2 : Dashboard.py_eq k' k = false).
      { unfold Dashboard.py_eq in *. apply bool_decide_eq_false.
        apply bool_decide_eq_false in E0. congruence. }
      rewrite E2. now rewrite app_nil_r.
Qed.

Lemma values_of_foldl rs d k :
  values_of (foldl (fun d r => Dashboard.append_to (cell_at 0 r) (cell_at 1 r) d) d rs) k
  = values_of d k
    ++ map (cell_at 1) (List.filter (fun r => Dashboard.py_eq (cell_at 0 r) k) rs).
Proof.
  revert d. induction rs as [|r rs IH]; intros d; simpl.
  - now rewrite app_nil_r.
  - rewrite IH, values_of_append_to, <- app_assoc. f_equal.
    now destruct (Dashboard.py_eq (cell_at 0 r) k).
Qed.

(** The list that [collect] puts under a key: the second cells of the
    rows with that key, in the order of the rows. *)
Lemma values_of_collect rs k :
  values_of (Dashboard.collect rs) k
  = map (cell_at 1) (List.filter (fun r => Dashboard.py_eq (cell_at 0 r) k) rs).
Proof. unfold Dashboard.collect. now rewrite values_of_foldl. Qed.

Lemma lookup_key_values d k v vs :
  values_of d k = v :: vs -> Dashboard.lookup_key k d = Some (v, vs).
Proof.
  unfold values_of. destruct (Dashboard.lookup_key k d) as [[v0 vs0]|]; [|discriminate].
  now intros [= -> ->].
Qed.

Lemma lookup_key_elem {V} (k : cell) (d : list (cell * V)) v :
  Dashboard.lookup_key k d = Some v -> exists k', (k', v) ∈ d /\ Dashboard.py_eq k' k = true.
Proof.
  induction d as [|[k0 v0] d IH]; simpl; [discriminate|].
  destruct (Dashboard.py_eq k0 k) eqn:E.
  - intros [= ->]. exists k0. split; [now left | exact E].
  - intros H. destruct (IH H) as (k' & Hin & Hk). exists k'. split; [now right | exact Hk].
Qed.

(** ** Lists up to the order *)

Lemma Permutation_List_filter {A} (p : A -> bool) (l1 l2 : list A) :
  l1 ≡ₚ l2 -> List.filter p l1 ≡ₚ List.filter p l2.
Proof.
  induction 1 as [|x l1 l2 _ IH|x y l|l1 l2 l3 _ IH1 _ IH2]; simpl.
  - constructor.
  - destruct (p x); [now constructor | exact IH].
  - destruct (p x), (p y); try reflexivity. apply perm_swap.
  - now transitivity (List.filter p l2).
Qed.

Lemma distinct_NoDup_keys rs : NoDup (map (map hash_key) (Dashboard.distinct rs)).
Proof. apply keep_first_NoDup. Qed.

Lemma distinct_elem rs r : r ∈ Dashboard.distinct rs -> r ∈ rs.
Proof. intros H. now apply keep_first_elem in H as [H _]. Qed.

Lemma distinct_covers rs r :
  r ∈ rs -> exists r', r' ∈ Dashboard.distinct rs /\ map hash_key r' = map hash_key r.
Proof.
  intros H.
  assert (Hk : map hash_key r ∈ map (map hash_key) (Dashboard.distinct rs)).
  { apply keep_first_covers; [exact H|]. intros Hin. inversion Hin. }
  apply list_elem_of_fmap in Hk as (r' & Hkey & Hr'). eauto.
Qed.

(** A list without two rows of one key whose keys are [k1] and [k2], both
    there. *)
Lemma two_keys {K} (key : row -> K) (G : list row) (k1 k2 : K) :
  NoDup (map key G) ->
  (forall g, g ∈ G -> key g = k1 \/ key g = k2) ->
  k1 ∈ map key G -> k2 ∈ map key G -> k1 <> k2 ->
  exists g1 g2, key g1 = k1 /\ key g2 = k2 /\ (G = [g1; g2] \/ G = [g2; g1]).
Proof.
  intros Hnd Hall H1 H2 Hne.
  assert (Hp : [k1; k2] ≡ₚ map key G).
  { apply NoDup_Permutation; [|exact Hnd|].
    - apply NoDup_cons. split; [|apply NoDup_singleton].
      intros Hin. apply list_elem_of_singleton in Hin. contradiction.
    - intros k. split.
      + intros Hin. apply elem_of_cons in Hin as [->|Hin]; [exact H1|].
        apply list_elem_of_singleton in Hin as ->. exact H2.
      + intros Hin. apply list_elem_of_fmap in Hin as (g & -> & Hg).
        destruct (Hall g Hg) as [->| ->]; [now left | right; now left]. }
  apply Permutation_length_2_inv in Hp.
  destruct G as [|g1 [|g2 [|g3 G]]]; simpl in Hp;
    try (destruct Hp as [Hp|Hp]; discriminate Hp).
  destruct Hp as [Hp|Hp]; injection Hp as E1 E2.
  - exists g1, g2. auto.
  - exists g2, g1. auto.
Qed.

Lemma value_Str x s : SQL.value x = Str s -> x = Str s.
Proof. unfold SQL.value. destruct (isna x); [discriminate | auto]. Qed.

Lemma hash_key_NA_not_text b : hash_key b = NA -> forall s, b <> Str s.
Proof. intros H s ->. discriminate H. Qed.

Lemma hash_key_value_isna x : isna x = true -> hash_key (SQL.value x) = NA.
Proof. intros H. unfold SQL.value. now rewrite H. Qed.

Lemma join_not_text sep items b :
  b ∈ items -> (forall s, b <> Str s) -> Dashboard.join sep items = Raise TypeError.
Proof.
  intros Hin Hb. unfold Dashboard.join.
  destruct (result_mapM_Raise_elem
              (fun c => match c with Str s => Ok s | _ => Raise TypeError end)
              items b TypeError Hin) as (y & e' & _ & Hy & ->).
  - destruct b as [|s|x]; [reflexivity | now destruct (Hb s) | reflexivity].
  - destruct y; [|discriminate Hy|]; now injection Hy as <-.
Qed.

Lemma code_rows_table db T i j :
  tables db !! "indicator_codes" = Some T ->
  SQL.column "code" T = Ok i -> SQL.column "indicator" T = Ok j ->
  Dashboard.code_rows db
  = Ok (map (fun r => [Dashboard.fetch i r; Dashboard.fetch j r])
            (List.filter (fun r => Dashboard.named (cell_at i r)) (rows T))).
Proof.
  intros HT Hi Hj. unfold Dashboard.code_rows, SQL.table.
  rewrite HT. cbn [mbind result_bind]. rewrite Hi. cbn [mbind result_bind].
  now rewrite Hj.
Qed.

Lemma named_Str c : c <> "" -> Dashboard.named (Str c) = true.
Proof.
  intros Hc. unfold Dashboard.named, Dashboard.differs, Dashboard.is_not_null.
  cbn [SQL.is_null isna negb]. destruct (String.eqb_spec c ""); [contradiction|].
  reflexivity.
Qed.

Section DashboardCodes.

Variable float_repr : Float.t -> string.

Lemma display_code_Raise code indicators e :
  Dashboard.display_code float_repr code indicators = Raise e -> e = TypeError.
Proof.
  destruct indicators as [first [|second rest]]; simpl; [discriminate|].
  unfold Dashboard.join.
  destruct (result_mapM _ _) as [texts|e'] eqn:E; simpl; [discriminate|].
  intros [= <-].
  assert (H : forall l e0,
             result_mapM (fun c => match c with Str s => Ok s | _ => Raise TypeError end) l
             = Raise e0 -> e0 = TypeError).
  { induction l as [|c l IH]; simpl; [discriminate|].
    intros e0. destruct c as [|s|x]; try (now intros [= <-]).
    destruct (result_mapM _ l) as [ys|e1]; [discriminate|].
    intros [= <-]. now apply IH. }
  exact (H _ _ E).
Qed.

Lemma codes_of_rows_Raise rs k v vs b :
  Dashboard.lookup_key k (Dashboard.collect rs) = Some (v, vs) ->
  vs <> [] -> b ∈ take 2 (v :: vs) -> (forall s, b <> Str s) ->
  Dashboard.codes_of_rows float_repr rs = Raise TypeError.
Proof.
  intros Hk Hvs Hb Hnt. apply lookup_key_elem in Hk as (k' & Hin & _).
  unfold Dashboard.codes_of_rows.
  destruct (result_mapM_Raise_elem
              (fun '(code, indicators) =>
                 s ← Dashboard.display_code float_repr code indicators; Ok (code, s))
              (Dashboard.collect rs) (k', (v, vs)) TypeError Hin)
    as (y & e' & _ & Hy & ->).
  - destruct vs as [|v' vs]; [congruence|]. cbn [Dashboard.display_code].
    now rewrite (join_not_text "; " _ b Hb Hnt).
  - destruct y as [code indicators].
    destruct (Dashboard.display_code float_repr code indicators) as [s|e0] eqn:E;
      [discriminate Hy|].
    injection Hy as <-. apply display_code_Raise in E. now subst.
Qed.

(** A code with two descriptions, one of them missing, cannot be shown:
    the join of the descriptions raises. *)
Lemma codes_missing_description_raises db T i j c d res :
  tables db !! "indicator_codes" = Some T ->
  SQL.column "code" T = Ok i -> SQL.column "indicator" T = Ok j ->
  c <> "" ->
  (exists r, r ∈ rows T /\ cell_at i r = Str c /\ isna (cell_at j r) = true) ->
  (exists r, r ∈ rows T /\ cell_at i r = Str c /\ cell_at j r = Str d) ->
  (forall r, r ∈ rows T -> cell_at i r = Str c ->
             isna (cell_at j r) = true \/ cell_at j r = Str d) ->
  Dashboard.get_all_codes_with_descriptions float_repr db res ->
  res = Raise TypeError.
Proof.
  intros HT Hi Hj Hc (r1 & Hr1 & Hc1 & Hd1) (r2 & Hr2 & Hc2 & Hd2) Honly (q & Hq & ->).
  unfold Dashboard.codes_query in Hq.
  rewrite (code_rows_table db T i j HT Hi Hj) in Hq.
  destruct Hq as (out & -> & Hperm & _).
  cbn [mbind result_bind].
  set (l := map (fun r => [Dashboard.fetch i r; Dashboard.fetch j r])
                (List.filter (fun r => Dashboard.named (cell_at i r)) (rows T))) in *.
  set (p := fun r : list cell => Dashboard.py_eq (cell_at 0 r) (Str c)).
  set (G := List.filter p (Dashboard.distinct l)).
  assert (Hl : forall g, g ∈ l ->
             exists t, t ∈ rows T /\ g = [Dashboard.fetch i t; Dashboard.fetch j t]).
  { intros g Hg. apply list_elem_of_fmap in Hg as (t & -> & Ht).
    apply elem_of_List_filter in Ht as [Ht _]. eauto. }
  assert (Hin : forall t, t ∈ rows T -> cell_at i t = Str c ->
              [Dashboard.fetch i t; Dashboard.fetch j t] ∈ l).
  { intros t Ht Hct. apply (list_elem_of_fmap_2 (fun r => [Dashboard.fetch i r; Dashboard.fetch j r])).
    apply elem_of_List_filter. split; [exact Ht|]. rewrite Hct. now apply named_Str. }
  assert (HG : forall g, g ∈ G ->
             map hash_key g = [Str c; NA] \/ map hash_key g = [Str c; Str d]).
  { intros g Hg. apply elem_of_List_filter in Hg as [Hg Hp].
    apply distinct_elem, Hl in Hg as (t & Ht & ->).
    unfold p in Hp. apply py_eq_true in Hp.
    change (cell_at 0 [Dashboard.fetch i t; Dashboard.fetch j t])
      with (Dashboard.fetch i t) in Hp.
    cbn [hash_key] in Hp. apply hash_key_Str in Hp.
    cbn [map]. rewrite Hp. cbn [hash_key].
    apply value_Str in Hp.
    destruct (Honly t Ht Hp) as [Hna|Hd].
    - left. unfold Dashboard.fetch. now rewrite hash_key_value_isna.
    - right. unfold Dashboard.fetch. now rewrite Hd. }
  assert (Hcov : forall t, t ∈ rows T -> cell_at i t = Str c ->
               map hash_key [Dashboard.fetch i t; Dashboard.fetch j t]
               ∈ map (map hash_key) G).
  { intros t Ht Hct.
    destruct (distinct_covers l _ (Hin t Ht Hct)) as (g & Hg & Hkey).
    rewrite <- Hkey. apply (list_elem_of_fmap_2 (map hash_key)).
    apply elem_of_List_filter. split; [exact Hg|].
    apply distinct_elem, Hl in Hg as (t' & _ & ->).
    unfold p. apply py_eq_true.
    change (cell_at 0 [Dashboard.fetch i t'; Dashboard.fetch j t'])
      with (Dashboard.fetch i t').
    cbn [map] in Hkey. injection Hkey as Hk0 _. rewrite Hk0.
    unfold Dashboard.fetch. now rewrite Hct. }
  destruct (two_keys (map hash_key) G [Str c; NA] [Str c; Str d])
    as (g1 & g2 & Hk1 & Hk2 & HGeq).
  { eapply sublist_NoDup; [apply distinct_NoDup_keys|].
    apply fmap_sublist, List_filter_sublist. }
  { exact HG. }
  { pose proof (Hcov r1 Hr1 Hc1) as H. cbn [map] in H.
    unfold Dashboard.fetch in H at 1 2. rewrite Hc1 in H.
    now rewrite (hash_key_value_isna _ Hd1) in H. }
  { pose proof (Hcov r2 Hr2 Hc2) as H. cbn [map] in H.
    unfold Dashboard.fetch in H at 1 2. now rewrite Hc2, Hd2 in H. }
  { discriminate. }
  assert (HF : List.filter p out = [g1; g2] \/ List.filter p out = [g2; g1]).
  { assert (Hp : List.filter p out ≡ₚ G) by now apply Permutation_List_filter.
    destruct HGeq as [HGeq|HGeq]; rewrite HGeq in Hp; symmetry in Hp;
      apply Permutation_length_2_inv in Hp; destruct Hp; auto. }
  assert (Hb1 : forall s, cell_at 1 g1 <> Str s).
  { apply hash_key_NA_not_text.
    destruct g1 as [|a [|b g1]]; try discriminate Hk1.
    cbn [map] in Hk1. now injection Hk1 as _ Hk1 _. }
  pose proof (values_of_collect out (Str c)) as Hv. fold p in Hv.
  destruct HF as [HF|HF]; rewrite HF in Hv; cbn [map] in Hv;
    apply lookup_key_values in Hv.
  - apply (codes_of_rows_Raise out _ _ _ (cell_at 1 g1) Hv);
      [discriminate | now left | exact Hb1].
  - apply (codes_of_rows_Raise out _ _ _ (cell_at 1 g1) Hv);
      [discriminate | right; now left | exact Hb1].
Qed.

End DashboardCodes.

Lemma one_key {K} (key : row -> K) (G : list row) (k1 : K) :
  NoDup (map key G) -> (forall g, g ∈ G -> key g = k1) -> k1 ∈ map key G ->
  exists g, G = [g] /\ key g = k1.
Proof.
  intros Hnd Hall H1.
  destruct G as [|g1 [|g2 G]].
  - inversion H1.
  - exists g1. split; [reflexivity|]. apply Hall. now left.
  - exfalso. simpl in Hnd. apply NoDup_cons in Hnd as [Hn _]. apply Hn.
    rewrite (Hall g1) by now left. rewrite <- (Hall g2) by (right; now left).
    now left.
Qed.

Lemma collect_Forall (P : cell -> Prop) rs :
  Forall (fun r => P (cell_at 1 r)) rs ->
  Forall (fun '(_, (v, vs)) => P v /\ Forall P vs) (Dashboard.collect rs).
Proof.
  unfold Dashboard.collect.
  assert (H : forall d : Dashboard.entries,
             Forall (fun '(_, (v, vs)) => P v /\ Forall P vs) d ->
             Forall (fun r => P (cell_at 1 r)) rs ->
             Forall (fun '(_, (v, vs)) => P v /\ Forall P vs)
                    (foldl (fun d r => Dashboard.append_to (cell_at 0 r) (cell_at 1 r) d)
                           d rs)).
  { induction rs as [|r rs IH]; intros d Hd Hrs; [exact Hd|].
    apply Forall_cons in Hrs as [Hr Hrs]. simpl. apply IH; [|exact Hrs].
    clear IH Hrs. induction d as [|[k0 [v0 vs]] d IHd]; simpl.
    - repeat constructor. exact Hr.
    - apply Forall_cons in Hd as [[Hv0 Hvs] Hd].
      destruct (Dashboard.py_eq k0 (cell_at 0 r)).
      + constructor; [|exact Hd]. split; [exact Hv0|].
        apply Forall_app. split; [exact Hvs | now constructor].
      + constructor; [now split | now apply IHd]. }
  intros Hrs. apply H; [constructor | exact Hrs].
Qed.

Lemma join_texts sep items :
  Forall (fun c => is_text c = true) items -> is_ok (Dashboard.join sep items) = true.
Proof.
  intros H. unfold Dashboard.join. rewrite is_ok_bind_Ok, is_ok_result_mapM.
  eapply Forall_impl; [exact H|]. intros [|s|x]; simpl; congruence.
Qed.

Section DashboardDisplay.

Variable float_repr : Float.t -> string.

Lemma display_code_texts code v vs :
  is_text v = true -> Forall (fun c => is_text c = true) vs ->
  is_ok (Dashboard.display_code float_repr code (v, vs)) = true.
Proof.
  intros Hv Hvs. destruct vs as [|v' vs]; [reflexivity|].
  cbn [Dashboard.display_code]. rewrite is_ok_bind_Ok. apply join_texts.
  apply Forall_cons in Hvs as [Hv' _]. cbn [take]. repeat constructor; assumption.
Qed.

Lemma lookup_key_display d display k inds :
  result_mapM (fun '(code, indicators) =>
                 s ← Dashboard.display_code float_repr code indicators; Ok (code, s)) d
  = Ok display ->
  Dashboard.lookup_key k d = Some inds ->
  exists k' s,
    Dashboard.py_eq k' k = true
    /\ Dashboard.display_code float_repr k' inds = Ok s
    /\ Dashboard.lookup_key k display = Some s.
Proof.
  revert display. induction d as [|[k0 inds0] d IH]; intros display Hm Hk;
    [discriminate Hk|].
  simpl in Hm.
  destruct (Dashboard.display_code float_repr k0 inds0) as [s0|e] eqn:E0;
    [|discriminate Hm].
  cbn [mbind result_bind] in Hm.
  destruct (result_mapM _ d) as [display'|e] eqn:Ed; [|discriminate Hm].
  injection Hm as <-. simpl in Hk |- *.
  destruct (Dashboard.py_eq k0 k) eqn:Ek.
  - injection Hk as <-. exists k0, s0. auto.
  - now apply IH.
Qed.

(** X19.  When every description of a code that is neither NULL nor empty
    is a text, [get_all_codes_with_descriptions] returns; its two dicts
    have the same keys in the same order; a code with a single
    description [d] has the list [[d]] in the first dict and the text
    [code - d] in the second. *)
Theorem codes_with_text_descriptions db T i j res :
  tables db !! "indicator_codes" = Some T ->
  SQL.column "code" T = Ok i -> SQL.column "indicator" T = Ok j ->
  (forall r, r ∈ rows T -> Dashboard.named (cell_at i r) = true ->
             is_text (cell_at j r) = true) ->
  Dashboard.get_all_codes_with_descriptions float_repr db res ->
  exists codes_dict codes_display_dict,
    res = Ok (codes_dict, codes_display_dict)
    /\ map fst codes_display_dict = map fst codes_dict
    /\ forall c d,
         c <> "" ->
         (exists r, r ∈ rows T /\ cell_at i r = Str c /\ cell_at j r = Str d) ->
         (forall r, r ∈ rows T -> cell_at i r = Str c -> cell_at j r = Str d) ->
         Dashboard.lookup_key (Str c) codes_dict = Some (Str d, [])
         /\ Dashboard.lookup_key (Str c) codes_display_dict = Some (c +:+ " - " +:+ d).
Proof.
  intros HT Hi Hj Htext (q & Hq & ->).
  unfold Dashboard.codes_query in Hq.
  rewrite (code_rows_table db T i j HT Hi Hj) in Hq.
  destruct Hq as (out & -> & Hperm & _).
  cbn [mbind result_bind].
  set (l := map (fun r => [Dashboard.fetch i r; Dashboard.fetch j r])
                (List.filter (fun r => Dashboard.named (cell_at i r)) (rows T))) in *.
  assert (Hl : forall g, g ∈ l ->
             exists t, t ∈ rows T /\ Dashboard.named (cell_at i t) = true
                       /\ g = [Dashboard.fetch i t; Dashboard.fetch j t]).
  { intros g Hg. apply list_elem_of_fmap in Hg as (t & -> & Ht).
    apply elem_of_List_filter in Ht as [Ht Hn]. eauto. }
  assert (Hout : forall g, g ∈ out -> g ∈ l).
  { intros g Hg. rewrite Hperm in Hg. now apply distinct_elem. }
  assert (Htexts : Forall (fun r => is_text (cell_at 1 r) = true) out).
  { apply Forall_forall. intros g Hg. apply Hout, Hl in Hg as (t & Ht & Hn & ->).
    change (cell_at 1 [Dashboard.fetch i t; Dashboard.fetch j t])
      with (Dashboard.fetch j t).
    specialize (Htext t Ht Hn). unfold Dashboard.fetch.
    now destruct (cell_at j t). }
  unfold Dashboard.codes_of_rows.
  destruct (result_mapM _ (Dashboard.collect out)) as [display|e] eqn:Edisp.
  2:{ exfalso.
      assert (Hok : is_ok (result_mapM
                (fun '(code, indicators) =>
                   s ← Dashboard.display_code float_repr code indicators; Ok (code, s))
                (Dashboard.collect out)) = true).
      { apply is_ok_result_mapM.
        eapply Forall_impl;
          [exact (collect_Forall (fun c => is_text c = true) _ Htexts)|].
        intros [k [v vs]] [Hv Hvs]. rewrite is_ok_bind_Ok.
        now apply display_code_texts. }
      rewrite Edisp in Hok. discriminate Hok. }
  cbn [mbind result_bind]. eexists _, _. split; [reflexivity|]. split.
  - apply result_mapM_Ok in Edisp. clear -Edisp.
    induction Edisp as [|[k inds] [k' s] d display Hxy _ IH]; [reflexivity|].
    cbn [map fst]. rewrite IH. f_equal.
    destruct (Dashboard.display_code float_repr k inds); [|discriminate Hxy].
    now injection Hxy as <- _.
  - intros c d Hc (r0 & Hr0 & Hc0 & Hd0) Honly.
    set (p := fun r : list cell => Dashboard.py_eq (cell_at 0 r) (Str c)).
    set (G := List.filter p (Dashboard.distinct l)).
    destruct (one_key (map hash_key) G [Str c; Str d]) as (g & HG & Hkey).
    { eapply sublist_NoDup; [apply distinct_NoDup_keys|].
      apply fmap_sublist, List_filter_sublist. }
    { intros g Hg. apply elem_of_List_filter in Hg as [Hg Hp].
      apply distinct_elem, Hl in Hg as (t & Ht & _ & ->).
      unfold p in Hp. apply py_eq_true in Hp.
      change (cell_at 0 [Dashboard.fetch i t; Dashboard.fetch j t])
        with (Dashboard.fetch i t) in Hp.
      cbn [hash_key] in Hp. apply hash_key_Str in Hp.
      cbn [map]. rewrite Hp. cbn [hash_key].
      apply value_Str in Hp. unfold Dashboard.fetch.
      now rewrite (Honly t Ht Hp). }
    { assert (Hin : [Dashboard.fetch i r0; Dashboard.fetch j r0] ∈ l).
      { apply (list_elem_of_fmap_2
                 (fun r => [Dashboard.fetch i r; Dashboard.fetch j r])).
        apply elem_of_List_filter. split; [exact Hr0|].
        rewrite Hc0. now apply named_Str. }
      destruct (distinct_covers l _ Hin) as (g & Hg & Hkey).
      cbn [map] in Hkey. unfold Dashboard.fetch in Hkey. rewrite Hc0, Hd0 in Hkey.
      cbn [SQL.value isna hash_key] in Hkey.
      rewrite <- Hkey. apply (list_elem_of_fmap_2 (map hash_key)).
      apply elem_of_List_filter. split; [exact Hg|].
      unfold p. apply py_eq_true.
      destruct g as [|a g]; [discriminate Hkey|]. cbn [map] in Hkey.
      injection Hkey as Hk0 _. unfold cell_at. cbn. exact Hk0. }
    assert (Hg : g = [Str c; Str d]).
    { assert (Hgin : g ∈ G) by (rewrite HG; now left).
      apply elem_of_List_filter in Hgin as [Hgin _].
      apply distinct_elem, Hl in Hgin as (t & _ & _ & ->).
      cbn [map] in Hkey. injection Hkey as Hk0 Hk1.
      now rewrite (hash_key_Str _ _ Hk0), (hash_key_Str _ _ Hk1). }
    assert (HF : List.filter p out = [g]).
    { assert (Hp : List.filter p out ≡ₚ G) by now apply Permutation_List_filter.
      rewrite HG in Hp. symmetry in Hp. now apply Permutation_length_1_inv in Hp. }
    pose proof (values_of_collect out (Str c)) as Hv. fold p in Hv.
    rewrite HF, Hg in Hv. cbn [map] in Hv.
    change (cell_at 1 [Str c; Str d]) with (Str d) in Hv.
    apply lookup_key_values in Hv. split; [exact Hv|].
    destruct (lookup_key_display _ _ _ _ Edisp Hv) as (k' & s & Hk' & Hs & Hlk).
    apply py_eq_true in Hk'. cbn [hash_key] in Hk'. apply hash_key_Str in Hk'.
    subst k'. cbn [Dashboard.display_code Dashboard.py_str] in Hs.
    injection Hs as <-. exact Hlk.
Qed.

End DashboardDisplay.

(** ** [load_data] *)

Lemma length_left_join x j t_rows :
  length (Dashboard.left_join x j t_rows) = max 1 (matches x j t_rows).
Proof.
  unfold Dashboard.left_join, matches.
  destruct (List.filter _ t_rows) as [|m ms]; [reflexivity|]. simpl. lia.
Qed.

Lemma length_flat_map {A B} (f : A -> list B) (l : list A) :
  length (flat_map f l) = sum_list (map (fun x => length (f x)) l).
Proof.
  induction l as [|x l IH]; simpl; [reflexivity|].
  now rewrite length_app, IH.
Qed.

Lemma length_flat_map_const {A B} (f : A -> list B) (l : list A) n :
  (forall x, x ∈ l -> length (f x) = n) -> length (flat_map f l) = length l * n.
Proof.
  intros H. induction l as [|x l IH]; simpl; [reflexivity|].
  rewrite length_app, IH, (H x) by (try (intros; apply H; now right); now left).
  reflexivity.
Qed.

Lemma joined_rows_tables db ae ic lc :
  tables db !! "air_emissions" = Some ae -> columns ae = air_emissions_cols ->
  tables db !! "indicator_codes" = Some ic -> columns ic = ["code"; "indicator"] ->
  tables db !! "location_codes" = Some lc -> columns lc = location_cols ->
  Dashboard.joined_rows db = Ok (joined_of ae ic lc).
Proof.
  intros Hae Cae Hic Cic Hlc Clc.
  unfold Dashboard.joined_rows, SQL.table, SQL.column.
  rewrite Hae, Hic, Hlc. cbn [mbind result_bind].
  rewrite Cae, Cic, Clc. reflexivity.
Qed.

Lemma length_joined_of ae ic lc :
  length (joined_of ae ic lc)
  = sum_list
      (map (fun f => max 1 (matches (cell_at 1 f) 0 (rows ic))
                     * max 1 (matches (cell_at 4 f) 0 (rows lc)))
           (List.filter (fun f => SQL.holds (Dashboard.positive (cell_at 3 f)))
                        (rows ae))).
Proof.
  unfold joined_of. rewrite length_flat_map. f_equal.
  apply map_ext. intros f.
  rewrite (length_flat_map_const _ _ (max 1 (matches (cell_at 4 f) 0 (rows lc)))).
  - now rewrite length_left_join.
  - intros i_row _. now rewrite length_map, length_left_join.
Qed.

Lemma assign_total label (f : cell -> cell) df i :
  get_loc label (columns df) = Ok i ->
  assign label (fun c => Ok (f c)) df
  = Ok {| columns := columns df;
          rows := map (fun r => <[i := f (cell_at i r)]> r) (rows df) |}.
Proof.
  intros Hi. unfold assign. rewrite Hi. cbn [mbind result_bind].
  now rewrite (result_mapM_total (fun r => <[i := f (cell_at i r)]> r)).
Qed.

Section DashboardData.

Variable float_repr : Float.t -> string.

(** [load_data_frame] step by step: the two conversions, then the two new
    columns. *)
Lemma load_data_frame_unfold substances data :
  Dashboard.load_data_frame float_repr substances data
  = (rs ← result_mapM
            (fun r =>
               '(name, display) ←
                 Dashboard.get_substance_info float_repr
                   (Dashboard.collect substances) (cell_at 2 r);
               Ok (r ++ [name; display]))
            (map (fun r => <[3 := numeric (cell_at 3 r)]> r)
                 (map (fun r => <[5 := numeric (cell_at 5 r)]> r) data));
     Ok {| columns := Dashboard.data_columns ++ ["substance_name"; "substance_display"];
           rows := rs |}).
Proof.
  unfold Dashboard.load_data_frame.
  change (has_column "year" ?x) with true. cbv iota.
  rewrite (assign_total "year" numeric _ 5) by reflexivity.
  cbn [mbind result_bind columns rows].
  change (has_column "value" ?x) with true. cbv iota.
  rewrite (assign_total "value" numeric _ 3) by reflexivity.
  cbn [mbind result_bind columns rows].
  reflexivity.
Qed.

Lemma load_data_Ok_inv db ae ic lc out :
  tables db !! "air_emissions" = Some ae -> columns ae = air_emissions_cols ->
  tables db !! "indicator_codes" = Some ic -> columns ic = ["code"; "indicator"] ->
  tables db !! "location_codes" = Some lc -> columns lc = location_cols ->
  Dashboard.load_data float_repr db (Ok out) ->
  exists substances data,
    Dashboard.substances_query db (Ok substances)
    /\ data ≡ₚ joined_of ae ic lc
    /\ Dashboard.load_data_frame float_repr substances data = Ok out.
Proof.
  intros Hae Cae Hic Cic Hlc Clc (qs & Hqs & H).
  destruct qs as [substances|e]; [|discriminate H].
  destruct H as (qd & Hqd & H).
  unfold Dashboard.data_query in Hqd.
  rewrite (joined_rows_tables db ae ic lc) in Hqd by assumption.
  destruct Hqd as (data & -> & Hperm).
  exists substances, data. cbn [mbind result_bind] in H. auto.
Qed.

(** X21.  The number of rows of the frame of [load_data].  Every fact
    whose value is positive gives one row for every pair of a row of
    indicator_codes with its code and a row of location_codes with its
    location code, where a table without a matching row counts as one: a
    fact is never lost, and it is repeated when its code has several
    descriptions or its location code several rows. *)
Theorem load_data_repeats_facts db ae ic lc out :
  tables db !! "air_emissions" = Some ae -> columns ae = air_emissions_cols ->
  tables db !! "indicator_codes" = Some ic -> columns ic = ["code"; "indicator"] ->
  tables db !! "location_codes" = Some lc -> columns lc = location_cols ->
  Dashboard.load_data float_repr db (Ok out) ->
  length (rows out)
  = sum_list
      (map (fun f => max 1 (matches (cell_at 1 f) 0 (rows ic))
                     * max 1 (matches (cell_at 4 f) 0 (rows lc)))
           (List.filter (fun f => SQL.holds (Dashboard.positive (cell_at 3 f)))
                        (rows ae))).
Proof.
  intros Hae Cae Hic Cic Hlc Clc H.
  destruct (load_data_Ok_inv db ae ic lc out Hae Cae Hic Cic Hlc Clc H)
    as (substances & data & _ & Hperm & Hout).
  rewrite load_data_frame_unfold in Hout. inv_bind Hout. injection Hout as <-.
  cbn [rows]. apply result_mapM_Ok in Ha.
  rewrite <- (Forall2_length _ _ _ Ha), !length_map.
  rewrite (Permutation_length Hperm). apply length_joined_of.
Qed.

Lemma joined_of_elem ae ic lc r0 :
  r0 ∈ joined_of ae ic lc ->
  exists f i_row l_row,
    f ∈ rows ae
    /\ SQL.holds (Dashboard.positive (cell_at 3 f)) = true
    /\ i_row ∈ Dashboard.left_join (cell_at 1 f) 0 (rows ic)
    /\ l_row ∈ Dashboard.left_join (cell_at 4 f) 0 (rows lc)
    /\ r0 = [ Dashboard.fetch 0 f; Dashboard.fetch 1 f; Dashboard.fetch 2 f;
              Dashboard.fetch 3 f; Dashboard.fetch 4 f; Dashboard.fetch 5 f;
              Dashboard.fetch 1 i_row;
              Dashboard.fetch 3 l_row; Dashboard.fetch 2 l_row;
              Dashboard.fetch 1 l_row ].
Proof.
  unfold joined_of. rewrite list_elem_of_In, in_flat_map.
  intros (f & Hf & H). apply in_flat_map in H as (i_row & Hi & H).
  apply in_map_iff in H as (l_row & <- & Hl).
  apply list_elem_of_In, elem_of_List_filter in Hf as [Hf Hpos].
  apply list_elem_of_In in Hi, Hl.
  exists f, i_row, l_row. auto 6.
Qed.

Lemma load_data_row db ae ic lc out r :
  tables db !! "air_emissions" = Some ae -> columns ae = air_emissions_cols ->
  tables db !! "indicator_codes" = Some ic -> columns ic = ["code"; "indicator"] ->
  tables db !! "location_codes" = Some lc -> columns lc = location_cols ->
  Dashboard.load_data float_repr db (Ok out) -> r ∈ rows out ->
  exists substances f i_row l_row name display,
    Dashboard.substances_query db (Ok substances)
    /\ f ∈ rows ae
    /\ SQL.holds (Dashboard.positive (cell_at 3 f)) = true
    /\ i_row ∈ Dashboard.left_join (cell_at 1 f) 0 (rows ic)
    /\ l_row ∈ Dashboard.left_join (cell_at 4 f) 0 (rows lc)
    /\ Dashboard.get_substance_info float_repr (Dashboard.collect substances)
         (Dashboard.fetch 2 f) = Ok (name, display)
    /\ r = [ Dashboard.fetch 0 f; Dashboard.fetch 1 f; Dashboard.fetch 2 f;
             numeric (Dashboard.fetch 3 f); Dashboard.fetch 4 f;
             numeric (Dashboard.fetch 5 f);
             Dashboard.fetch 1 i_row;
             Dashboard.fetch 3 l_row; Dashboard.fetch 2 l_row;
             Dashboard.fetch 1 l_row; name; display ].
Proof.
  intros Hae Cae Hic Cic Hlc Clc H Hr.
  destruct (load_data_Ok_inv db ae ic lc out Hae Cae Hic Cic Hlc Clc H)
    as (substances & data & Hs & Hperm & Hout).
  rewrite load_data_frame_unfold in Hout. inv_bind Hout. injection Hout as <-.
  cbn [rows] in Hr. apply result_mapM_Ok in Ha.
  destruct (Forall2_elem_of_r _ _ _ _ Ha Hr) as (r1 & Hr1 & Hinfo).
  apply list_elem_of_fmap in Hr1 as (r2 & -> & Hr2).
  apply list_elem_of_fmap in Hr2 as (r0 & -> & Hr0).
  rewrite Hperm in Hr0.
  apply joined_of_elem in Hr0 as (f & i_row & l_row & Hf & Hpos & Hi & Hl & ->).
  cbn in Hinfo.
  change (cell_at 2 _) with (Dashboard.fetch 2 f) in Hinfo.
  destruct (Dashboard.get_substance_info float_repr (Dashboard.collect substances)
              (Dashboard.fetch 2 f)) as [[name display]|e] eqn:Einfo;
    [|discriminate Hinfo].
  cbn in Hinfo. injection Hinfo as <-.
  exists substances, f, i_row, l_row, name, display.
  repeat (split; [first [assumption | reflexivity]|]). reflexivity.
Qed.

Lemma positive_holds c :
  SQL.holds (Dashboard.positive c) = true ->
  Dashboard.positive c = Some true
  /\ forall x, c = Num x ->
       SQL.value c = Num x /\ SFltb (S754_zero false) x = true.
Proof.
  intros H. split.
  - destruct (Dashboard.positive c) as [[|]|]; [reflexivity | discriminate H..].
  - intros x ->. unfold Dashboard.positive, SQL.is_null in H.
    unfold SQL.value. cbn [isna] in *.
    destruct (Float.is_nan x); [discriminate H|].
    split; [reflexivity|]. cbn [SQL.holds] in H.
    now destruct (SFltb (S754_zero false) x).
Qed.

(** X22.  Every row of the frame of [load_data] has twelve cells and comes
    from a fact on which [value > 0] is true (not from a fact whose value
    is NULL): its first six cells are those of the fact, year and value
    as numbers; the value of a numeric fact is the same number, greater
    than zero; the indicator is missing or the description of a row of
    indicator_codes with the code of the fact. *)
Theorem load_data_positive_facts db ae ic lc out r :
  tables db !! "air_emissions" = Some ae -> columns ae = air_emissions_cols ->
  tables db !! "indicator_codes" = Some ic -> columns ic = ["code"; "indicator"] ->
  tables db !! "location_codes" = Some lc -> columns lc = location_cols ->
  Dashboard.load_data float_repr db (Ok out) -> r ∈ rows out ->
  length r = 12
  /\ exists f,
       f ∈ rows ae
       /\ Dashboard.positive (cell_at 3 f) = Some true
       /\ take 6 r = [ Dashboard.fetch 0 f; Dashboard.fetch 1 f; Dashboard.fetch 2 f;
                       numeric (Dashboard.fetch 3 f); Dashboard.fetch 4 f;
                       numeric (Dashboard.fetch 5 f) ]
       /\ (forall x, cell_at 3 f = Num x ->
             cell_at 3 r = Num x /\ SFltb (S754_zero false) x = true)
       /\ (cell_at 6 r = NA
           \/ exists d, d ∈ rows ic
                        /\ SQL.holds (Dashboard.eq_ (cell_at 1 f) (cell_at 0 d)) = true
                        /\ cell_at 6 r = Dashboard.fetch 1 d).
Proof.
  intros Hae Cae Hic Cic Hlc Clc H Hr.
  destruct (load_data_row db ae ic lc out r Hae Cae Hic Cic Hlc Clc H Hr)
    as (substances & f & i_row & l_row & name & display
        & _ & Hf & Hpos & Hi & _ & _ & ->).
  split; [reflexivity|]. exists f. split; [exact Hf|].
  destruct (positive_holds _ Hpos) as [Hp Hnum].
  split; [exact Hp|]. split; [reflexivity|]. split.
  - intros x Hx. destruct (Hnum x Hx) as [Hfetch Hlt]. split; [|exact Hlt].
    change (cell_at 3 _) with (numeric (Dashboard.fetch 3 f)).
    unfold Dashboard.fetch. rewrite Hx in Hfetch |- *. now rewrite Hfetch.
  - change (cell_at 6 _) with (Dashboard.fetch 1 i_row).
    unfold Dashboard.left_join in Hi.
    destruct (List.filter _ (rows ic)) as [|m ms] eqn:E.
    + left. apply list_elem_of_singleton in Hi as ->. reflexivity.
    + right. exists i_row. rewrite <- E in Hi.
      apply elem_of_List_filter in Hi as [Hi Hm]. auto.
Qed.

Lemma substance_rows_table db st :
  tables db !! "substance_types" = Some st ->
  columns st = ["substance"; "source_type"] ->
  Dashboard.substance_rows db
  = Ok (map (fun r => [Dashboard.fetch 0 r; Dashboard.fetch 1 r])
            (List.filter (fun r => Dashboard.named (cell_at 1 r)) (rows st))).
Proof.
  intros Hst Cst. unfold Dashboard.substance_rows, SQL.table, SQL.column.
  rewrite Hst. cbn [mbind result_bind]. rewrite Cst. reflexivity.
Qed.

Lemma hash_key_value c : hash_key (SQL.value c) = hash_key c.
Proof.
  unfold SQL.value. destruct (isna c) eqn:E; [|reflexivity].
  destruct c as [|s|x]; [reflexivity | discriminate E |].
  cbn [isna] in E. cbn [hash_key]. now rewrite E.
Qed.

Lemma keep_first_sublist {K} `{EqDecision K} (key : row -> K) seen l :
  keep_first key seen l `sublist_of` l.
Proof.
  revert seen. induction l as [|r l IH]; intros seen; simpl; [constructor|].
  destruct (decide (key r ∈ seen)); constructor; apply IH.
Qed.

(** With one row for every key, every list of [collect] has one element. *)
Lemma lookup_key_single rs k :
  NoDup (map (fun r => hash_key (cell_at 0 r)) rs) ->
  Dashboard.lookup_key k (Dashboard.collect rs) = None
  \/ exists r, r ∈ rs /\ Dashboard.py_eq (cell_at 0 r) k = true
               /\ Dashboard.lookup_key k (Dashboard.collect rs) = Some (cell_at 1 r, []).
Proof.
  intros Hnd.
  assert (H : List.filter (fun r => Dashboard.py_eq (cell_at 0 r) k) rs = []
              \/ exists r, r ∈ rs /\ Dashboard.py_eq (cell_at 0 r) k = true
                           /\ List.filter (fun r => Dashboard.py_eq (cell_at 0 r) k) rs
                              = [r]).
  { induction rs as [|r rs IH]; [now left|].
    simpl in Hnd. apply NoDup_cons in Hnd as [Hr Hnd]. simpl.
    destruct (Dashboard.py_eq (cell_at 0 r) k) eqn:E.
    - right. exists r. split; [now left|]. split; [exact E|]. f_equal.
      apply filter_none. intros r' Hr'.
      destruct (Dashboard.py_eq (cell_at 0 r') k) eqn:E'; [|reflexivity].
      exfalso. apply Hr. apply py_eq_true in E, E'. rewrite E, <- E'.
      now apply (list_elem_of_fmap_2 (fun r => hash_key (cell_at 0 r))).
    - destruct (IH Hnd) as [H|(r' & Hr' & Hk & H)]; [now left|].
      right. exists r'. split; [now right|]. auto. }
  pose proof (values_of_collect rs k) as Hv.
  destruct H as [H|(r & Hr & Hk & H)]; rewrite H in Hv; cbn [map] in Hv.
  - left. unfold values_of in Hv.
    now destruct (Dashboard.lookup_key k (Dashboard.collect rs)) as [[v vs]|].
  - right. exists r. split; [exact Hr|]. split; [exact Hk|].
    now apply lookup_key_values.
Qed.

Lemma substances_one_type db st substances :
  tables db !! "substance_types" = Some st ->
  columns st = ["substance"; "source_type"] ->
  NoDup (map (fun r => hash_key (cell_at 0 r)) (rows st)) ->
  Dashboard.substances_query db (Ok substances) ->
  NoDup (map (fun r => hash_key (cell_at 0 r)) substances)
  /\ forall r, r ∈ substances ->
       exists t, t ∈ rows st /\ Dashboard.named (cell_at 1 t) = true
                 /\ r = [Dashboard.fetch 0 t; Dashboard.fetch 1 t].
Proof.
  intros Hst Cst Hnd Hq. unfold Dashboard.substances_query in Hq.
  rewrite (substance_rows_table db st Hst Cst) in Hq.
  destruct Hq as (out & [= <-] & Hperm).
  set (l := map (fun r => [Dashboard.fetch 0 r; Dashboard.fetch 1 r])
                (List.filter (fun r => Dashboard.named (cell_at 1 r)) (rows st))) in *.
  split.
  - rewrite Hperm.
    eapply sublist_NoDup; [|apply fmap_sublist, keep_first_sublist].
    unfold l. rewrite map_map.
    erewrite map_ext; [|intros r; change (cell_at 0 [_; _]) with (Dashboard.fetch 0 r);
                        unfold Dashboard.fetch; apply hash_key_value].
    eapply sublist_NoDup; [exact Hnd|]. apply fmap_sublist, List_filter_sublist.
  - intros r Hr. rewrite Hperm in Hr. apply distinct_elem in Hr.
    apply list_elem_of_fmap in Hr as (t & -> & Ht).
    apply elem_of_List_filter in Ht as [Ht Hn]. eauto.
Qed.

Lemma cell_at_map_hash_key k (r : row) :
  cell_at k (map hash_key r) = hash_key (cell_at k r).
Proof.
  unfold cell_at. rewrite list_lookup_fmap. now destruct (r !! k).
Qed.

Lemma find_unique_key {A K} (key : A -> K) (P : A -> bool) (l : list A) (t : A) :
  NoDup (map key l) -> t ∈ l -> P t = true ->
  (forall x, x ∈ l -> P x = true -> key x = key t) ->
  List.find P l = Some t.
Proof.
  induction l as [|a l IH]; intros Hnd Ht HP Hkey; [inversion Ht|].
  cbn [map] in Hnd. apply NoDup_cons in Hnd as [Ha Hnd]. cbn [List.find].
  destruct (P a) eqn:Pa.
  - apply elem_of_cons in Ht as [->|Ht]; [reflexivity|].
    exfalso. apply Ha. rewrite (Hkey a) by (auto; now left).
    now apply (list_elem_of_fmap_2 key).
  - apply elem_of_cons in Ht as [->|Ht]; [congruence|].
    apply IH; auto. intros x Hx. apply Hkey. now right.
Qed.

Lemma find_all_false {A} (P : A -> bool) (l : list A) :
  (forall x, x ∈ l -> P x = false) -> List.find P l = None.
Proof.
  induction l as [|a l IH]; intros H; [reflexivity|].
  cbn [List.find]. rewrite (H a) by now left.
  apply IH. intros x Hx. apply H. now right.
Qed.

Lemma lookup_key_collect_None rs k :
  Dashboard.lookup_key k (Dashboard.collect rs) = None ->
  forall r, r ∈ rs -> Dashboard.py_eq (cell_at 0 r) k = false.
Proof.
  intros H r Hr. pose proof (values_of_collect rs k) as Hv.
  unfold values_of in Hv. rewrite H in Hv.
  destruct (Dashboard.py_eq (cell_at 0 r) k) eqn:E; [|reflexivity].
  assert (Hin : r ∈ List.filter (fun r => Dashboard.py_eq (cell_at 0 r) k) rs)
    by (apply elem_of_List_filter; auto).
  destruct (List.filter _ rs); [inversion Hin | discriminate Hv].
Qed.

(** Every row of substance_types with a type is among the rows of the
    query, up to the equality of [DISTINCT]. *)
Lemma substances_cover db st substances :
  tables db !! "substance_types" = Some st ->
  columns st = ["substance"; "source_type"] ->
  Dashboard.substances_query db (Ok substances) ->
  forall t, t ∈ rows st -> Dashboard.named (cell_at 1 t) = true ->
    exists r, r ∈ substances
              /\ map hash_key r = map hash_key [Dashboard.fetch 0 t; Dashboard.fetch 1 t].
Proof.
  intros Hst Cst Hq t Ht Hn. unfold Dashboard.substances_query in Hq.
  rewrite (substance_rows_table db st Hst Cst) in Hq.
  destruct Hq as (out & [= <-] & Hperm).
  destruct (distinct_covers
              (map (fun r => [Dashboard.fetch 0 r; Dashboard.fetch 1 r])
                   (List.filter (fun r => Dashboard.named (cell_at 1 r)) (rows st)))
              [Dashboard.fetch 0 t; Dashboard.fetch 1 t]) as (r & Hr & Hk).
  - apply (list_elem_of_fmap_2 (fun r => [Dashboard.fetch 0 r; Dashboard.fetch 1 r])).
    apply elem_of_List_filter. auto.
  - exists r. split; [now rewrite Hperm | exact Hk].
Qed.

(** With one row for every substance in substance_types, the name and the
    text shown for a substance are its [substance_name]. *)
Lemma get_substance_info_unique db st substances k :
  tables db !! "substance_types" = Some st ->
  columns st = ["substance"; "source_type"] ->
  NoDup (map (fun r => hash_key (cell_at 0 r)) (rows st)) ->
  Dashboard.substances_query db (Ok substances) ->
  Dashboard.get_substance_info float_repr (Dashboard.collect substances) k
  = Ok (substance_name (rows st) k, substance_name (rows st) k).
Proof.
  intros Hst Cst Hnd Hq.
  destruct (substances_one_type db st substances Hst Cst Hnd Hq) as [Hnd' Hrows].
  unfold Dashboard.get_substance_info, substance_name.
  destruct (lookup_key_single substances k Hnd') as [E|(r & Hr & Hk & ->)].
  - rewrite E. rewrite find_all_false; [reflexivity|].
    intros t Ht. apply andb_false_iff.
    destruct (Dashboard.named (cell_at 1 t)) eqn:Hn; [left | now right].
    destruct (substances_cover db st substances Hst Cst Hq t Ht Hn) as (r & Hr & Hkr).
    pose proof (lookup_key_collect_None substances k E r Hr) as Hne.
    rewrite <- Hne. unfold Dashboard.py_eq. f_equal.
    apply (f_equal (fun l => cell_at 0 l)) in Hkr.
    rewrite !cell_at_map_hash_key in Hkr.
    change (cell_at 0 [_; _]) with (Dashboard.fetch 0 t) in Hkr.
    unfold Dashboard.fetch in Hkr. rewrite hash_key_value in Hkr.
    apply bool_decide_ext. now rewrite Hkr.
  - destruct (Hrows r Hr) as (t & Ht & Hn & ->).
    apply py_eq_true in Hk.
    change (cell_at 0 [_; _]) with (Dashboard.fetch 0 t) in Hk.
    unfold Dashboard.fetch in Hk. rewrite hash_key_value in Hk.
    rewrite (find_unique_key (fun r => hash_key (cell_at 0 r)) _ (rows st) t Hnd Ht).
    + reflexivity.
    + apply andb_true_iff. split; [now apply py_eq_true | exact Hn].
    + intros x _ Hx. apply andb_true_iff in Hx as [Hx _].
      apply py_eq_true in Hx. now rewrite Hx, Hk.
Qed.

(** When substance_types has one row for every substance, [load_data]
    returns, and the name and the text shown for a substance are both its
    [substance_name]. *)
Lemma load_data_names_unique db st ae ic lc res :
  tables db !! "substance_types" = Some st ->
  columns st = ["substance"; "source_type"] ->
  tables db !! "air_emissions" = Some ae -> columns ae = air_emissions_cols ->
  tables db !! "indicator_codes" = Some ic -> columns ic = ["code"; "indicator"] ->
  tables db !! "location_codes" = Some lc -> columns lc = location_cols ->
  NoDup (map (fun r => hash_key (cell_at 0 r)) (rows st)) ->
  Dashboard.load_data float_repr db res ->
  exists out,
    res = Ok out
    /\ columns out
       = [ "section"; "code"; "substance"; "value"; "oktmo_code"; "year";
           "indicator"; "region"; "municipal_district"; "municipal_formation";
           "substance_name"; "substance_display" ]
    /\ forall r, r ∈ rows out ->
         exists f, f ∈ rows ae
                   /\ cell_at 2 r = Dashboard.fetch 2 f
                   /\ cell_at 10 r = substance_name (rows st) (cell_at 2 r)
                   /\ cell_at 11 r = cell_at 10 r.
Proof.
  intros Hst Cst Hae Cae Hic Cic Hlc Clc Hnd (qs & Hqs & H).
  assert (Hsq := Hqs). unfold Dashboard.substances_query in Hsq.
  rewrite (substance_rows_table db st Hst Cst) in Hsq.
  destruct Hsq as (substances & -> & _).
  destruct H as (qd & Hqd & ->).
  unfold Dashboard.data_query in Hqd.
  rewrite (joined_rows_tables db ae ic lc) in Hqd by assumption.
  destruct Hqd as (data & -> & Hperm).
  cbn [mbind result_bind]. rewrite load_data_frame_unfold.
  pose proof (fun k => get_substance_info_unique db st substances k Hst Cst Hnd Hqs)
    as Hinfo.
  set (converted := map (fun r => <[3 := numeric (cell_at 3 r)]> r)
                        (map (fun r => <[5 := numeric (cell_at 5 r)]> r) data)).
  set (step := fun r : list cell =>
                 '(name, display) ←
                   Dashboard.get_substance_info float_repr
                     (Dashboard.collect substances) (cell_at 2 r);
                 Ok (r ++ [name; display])).
  assert (Htotal : exists rs, result_mapM step converted = Ok rs).
  { assert (Hok : is_ok (result_mapM step converted) = true).
    { apply is_ok_result_mapM, Forall_forall. intros r _. unfold step.
      now rewrite Hinfo. }
    destruct (result_mapM step converted) as [rs|e]; [eauto | discriminate Hok]. }
  destruct Htotal as [rs Hrs]. fold converted. fold step. rewrite Hrs.
  cbn [mbind result_bind]. eexists. split; [reflexivity|]. split; [reflexivity|].
  intros r Hr. cbn [rows] in Hr. apply result_mapM_Ok in Hrs.
  destruct (Forall2_elem_of_r _ _ _ _ Hrs Hr) as (r1 & Hr1 & Hstep).
  unfold converted in Hr1.
  apply list_elem_of_fmap in Hr1 as (r2 & -> & Hr2).
  apply list_elem_of_fmap in Hr2 as (r0 & -> & Hr0).
  rewrite Hperm in Hr0.
  apply joined_of_elem in Hr0 as (f & i_row & l_row & Hf & _ & _ & _ & ->).
  unfold step in Hstep. cbn in Hstep.
  change (cell_at 2 _) with (Dashboard.fetch 2 f) in Hstep.
  rewrite Hinfo in Hstep. cbn in Hstep. injection Hstep as <-.
  exists f. split; [exact Hf|]. repeat split; reflexivity.
Qed.

End DashboardData.

(** ** The dashboard on the store that a load leaves *)

(** The four relations that a load of a cleaned frame leaves. *)
Lemma loaded_tables raw df_final p w res w' :
  canonical raw -> text_frame raw -> transform_data_body raw = Ok df_final ->
  create_database_tables df_final p w = (Ok res, w') ->
  tables (database_at p w') !! "air_emissions"
  = Some (SQL.stored (fact_frame (rows df_final)))
  /\ tables (database_at p w') !! "indicator_codes"
     = Some (SQL.stored
               {| columns := ["code"; "indicator"];
                  rows := merge_sort (key_le 0)
                            (keep_first (row_key [0; 1]) []
                               (map (project [CODE; INDICATOR]) (rows df_final))) |})
  /\ tables (database_at p w') !! "substance_types"
     = Some (SQL.stored
               {| columns := ["substance"; "source_type"];
                  rows := merge_sort (key_le 0)
                            (keep_first (row_key [0]) []
                               (map (project [SUBSTANCE; SOURCE_TYPE])
                                    (rows df_final))) |})
  /\ tables (database_at p w') !! "location_codes"
     = Some (SQL.stored
               {| columns := location_cols;
                  rows := merge_sort (key_le 0)
                            (keep_first (row_key [0; 1; 2; 3]) []
                               (map (project [OKTMO_CODE; MUNICIPAL_FORMATION;
                                              MUNICIPAL_DISTRICT; REGION])
                                    (rows df_final))) |}).
Proof.
  intros Hc Ht Htr H.
  apply create_database_tables_Ok_inv in H as (a & i & s & l & Hl & _ & ->).
  pose proof (loader_frames_columns _ _ _ _ _ Hl) as (Ca & Ci & Cs & Cl).
  pose proof (relations_loaded a i s l (database_at p w) Ca Ci Cs Cl) as Hr.
  apply relations_indicator in Hr.
  rewrite database_at_loaded.
  rewrite (load_cleaned raw df_final Hc Ht Htr) in Hl.
  injection Hl as <- <- <- <-. exact Hr.
Qed.

(** The rows of indicator_codes after a load: the pairs of the cleaned
    rows. *)
Lemma indicator_rows_loaded raw df_final t :
  canonical raw -> text_frame raw -> transform_data_body raw = Ok df_final ->
  t ∈ map (map SQL.value)
        (merge_sort (key_le 0)
           (keep_first (row_key [0; 1]) []
              (map (project [CODE; INDICATOR]) (rows df_final))))
  <-> exists r, r ∈ rows df_final /\ t = [cell_at CODE r; cell_at INDICATOR r].
Proof.
  intros Hc Ht H.
  set (projected := map (project [CODE; INDICATOR]) (rows df_final)).
  set (kept := keep_first (row_key [0; 1]) [] projected).
  assert (Hproj : forall t, t ∈ projected ->
            Forall (fun c => text_cell c = true) t /\ row_key [0; 1] t = t).
  { intros t0 Hin. apply list_elem_of_fmap in Hin as (r & -> & Hr).
    assert (H1 : text_cell (cell_at CODE r) = true)
      by (eapply transform_text; eauto; discriminate).
    assert (H2 : text_cell (cell_at INDICATOR r) = true)
      by (eapply transform_text; eauto; discriminate).
    split.
    - repeat constructor; assumption.
    - unfold row_key, project. cbn [map]. unfold cell_at at 1 3. cbn.
      now rewrite !hash_key_text. }
  destruct (keep_first_id (row_key [0; 1]) projected) as [Hnd Hmem].
  { intros t0 Hin. now apply Hproj. }
  fold kept in Hnd, Hmem.
  assert (Hstored : map (map SQL.value) (merge_sort (key_le 0) kept)
                    = merge_sort (key_le 0) kept).
  { apply stored_text_rows. apply Forall_forall. intros t0 Hin.
    apply elem_of_merge_sort in Hin. apply Hmem in Hin. now apply Hproj. }
  rewrite Hstored, elem_of_merge_sort, Hmem. unfold projected.
  rewrite list_elem_of_fmap. split.
  - intros (r & -> & Hr). eauto.
  - intros (r & Hr & ->). eauto.
Qed.

(** substance_types after a load has one row for every substance. *)
Lemma substance_rows_loaded (rs : list row) :
  NoDup (map (fun r => hash_key (cell_at 0 r))
             (map (map SQL.value)
                (merge_sort (key_le 0)
                   (keep_first (row_key [0]) []
                      (map (project [SUBSTANCE; SOURCE_TYPE]) rs))))).
Proof.
  rewrite map_map.
  erewrite map_ext; [|intros r; rewrite cell_at_map_value; apply hash_key_value].
  rewrite merge_sort_Permutation.
  pose proof (keep_first_NoDup (row_key [0]) []
                (map (project [SUBSTANCE; SOURCE_TYPE]) rs)) as Hnd.
  apply (NoDup_fmap_1 (fun k => [k])).
  now rewrite <- list_fmap_compose.
Qed.

Lemma NoDup_key_eq {A K} (key : A -> K) (l : list A) x y :
  NoDup (map key l) -> x ∈ l -> y ∈ l -> key x = key y -> x = y.
Proof.
  induction l as [|a l IH]; intros Hnd Hx Hy Hk; [inversion Hx|].
  cbn [map] in Hnd. apply NoDup_cons in Hnd as [Ha Hnd].
  apply elem_of_cons in Hx as [->|Hx]; apply elem_of_cons in Hy as [->|Hy].
  - reflexivity.
  - exfalso. apply Ha. rewrite Hk. now apply (list_elem_of_fmap_2 key).
  - exfalso. apply Ha. rewrite <- Hk. now apply (list_elem_of_fmap_2 key).
  - now apply IH.
Qed.

Lemma find_is_Some {A} (P : A -> bool) (l : list A) x :
  x ∈ l -> P x = true -> exists y, List.find P l = Some y.
Proof.
  intros Hx HP. destruct (List.find P l) as [y|] eqn:E; [eauto|].
  apply list_elem_of_In in Hx.
  pose proof (find_none P l E x Hx) as Hf. congruence.
Qed.

(** The row that substance_types holds for a substance is the one of the
    first cleaned row with the substance. *)
Lemma substance_row_of_first raw df_final c s :
  canonical raw -> text_frame raw -> transform_data_body raw = Ok df_final ->
  List.find (fun r => bool_decide (cell_at SUBSTANCE r = c)) (rows df_final) = Some s ->
  [c; cell_at SOURCE_TYPE s]
  ∈ map (map SQL.value)
      (merge_sort (key_le 0)
         (keep_first (row_key [0]) []
            (map (project [SUBSTANCE; SOURCE_TYPE]) (rows df_final)))).
Proof.
  intros Hc Ht H Hfind.
  set (projected := map (project [SUBSTANCE; SOURCE_TYPE]) (rows df_final)).
  set (kept := keep_first (row_key [0]) [] projected).
  assert (Hsub : forall r, r ∈ rows df_final -> text_cell (cell_at SUBSTANCE r) = true)
    by (intros r Hr; eapply transform_text; eauto; discriminate).
  assert (Hsrc : forall r, r ∈ rows df_final -> text_cell (cell_at SOURCE_TYPE r) = true)
    by (intros r Hr; eapply transform_text; eauto; discriminate).
  assert (Hkey : forall r, r ∈ rows df_final ->
            row_key [0] (project [SUBSTANCE; SOURCE_TYPE] r) = [cell_at SUBSTANCE r]).
  { intros r Hr. unfold row_key, project. cbn [map]. unfold cell_at at 1. cbn.
    now rewrite hash_key_text by auto. }
  assert (Hs : s ∈ rows df_final)
    by (apply list_elem_of_In; eapply find_some; exact Hfind).
  assert (Hcs : cell_at SUBSTANCE s = c).
  { apply find_some in Hfind as [_ Hb]. now apply bool_decide_eq_true in Hb. }
  assert (Hk : row_key [0] (project [SUBSTANCE; SOURCE_TYPE] s)
               ∈ map (row_key [0]) kept).
  { apply keep_first_covers.
    - apply list_elem_of_fmap. eauto.
    - intros Hin. inversion Hin. }
  apply list_elem_of_fmap in Hk as (t & Heq & Hin).
  pose proof (keep_first_is_first (row_key [0]) [] projected t Hin) as Hft.
  unfold projected in Hft. rewrite find_map in Hft.
  rewrite (find_ext_elem _ (fun r => bool_decide (cell_at SUBSTANCE r = c))) in Hft.
  - rewrite Hfind in Hft. injection Hft as <-.
    apply list_elem_of_fmap.
    exists (project [SUBSTANCE; SOURCE_TYPE] s). split.
    + unfold project. cbn [map]. rewrite Hcs.
      rewrite !value_text; [reflexivity | now apply Hsrc | rewrite <- Hcs; now apply Hsub].
    + now apply elem_of_merge_sort.
  - intros r Hr. rewrite (Hkey r Hr), <- Heq, (Hkey s Hs), Hcs.
    apply bool_decide_ext. split; congruence.
Qed.

(** The name that the dashboard gives to a substance on the store of a
    load: the source type of the first cleaned row with the substance,
    and the substance itself when that row has no type. *)
Lemma substance_name_loaded raw df_final c s :
  canonical raw -> text_frame raw -> transform_data_body raw = Ok df_final ->
  List.find (fun r => bool_decide (cell_at SUBSTANCE r = c)) (rows df_final) = Some s ->
  substance_name
    (map (map SQL.value)
       (merge_sort (key_le 0)
          (keep_first (row_key [0]) []
             (map (project [SUBSTANCE; SOURCE_TYPE]) (rows df_final))))) c
  = if Dashboard.named (cell_at SOURCE_TYPE s) then cell_at SOURCE_TYPE s else c.
Proof.
  intros Hc Ht H Hfind.
  pose proof (substance_row_of_first raw df_final c s Hc Ht H Hfind) as Hin.
  pose proof (substance_rows_loaded (rows df_final)) as Hnd.
  assert (Hs : s ∈ rows df_final)
    by (apply list_elem_of_In; eapply find_some; exact Hfind).
  assert (Hsrc : text_cell (cell_at SOURCE_TYPE s) = true)
    by (eapply transform_text; eauto; discriminate).
  unfold substance_name.
  destruct (Dashboard.named (cell_at SOURCE_TYPE s)) eqn:Hn.
  - rewrite (find_unique_key (fun r => hash_key (cell_at 0 r)) _ _
               [c; cell_at SOURCE_TYPE s] Hnd Hin).
    + unfold Dashboard.fetch. change (cell_at 1 [_; _]) with (cell_at SOURCE_TYPE s).
      now apply value_text.
    + apply andb_true_iff. split; [apply py_eq_refl | exact Hn].
    + intros x _ Hx. apply andb_true_iff in Hx as [Hx _].
      now apply py_eq_true in Hx.
  - rewrite find_all_false; [reflexivity|].
    intros x Hx. apply andb_false_iff.
    destruct (Dashboard.py_eq (cell_at 0 x) c) eqn:E; [right | now left].
    apply py_eq_true in E.
    rewrite (NoDup_key_eq (fun r => hash_key (cell_at 0 r)) _ x
               [c; cell_at SOURCE_TYPE s] Hnd Hx Hin E).
    exact Hn.
Qed.

(** A row of the fact table after a load holds the substance of a cleaned
    row. *)
Lemma fact_substance_loaded raw df_final f :
  canonical raw -> text_frame raw -> transform_data_body raw = Ok df_final ->
  f ∈ rows (SQL.stored (fact_frame (rows df_final))) ->
  exists r, r ∈ rows df_final /\ Dashboard.fetch 2 f = cell_at SUBSTANCE r.
Proof.
  intros Hc Ht H Hf. cbn [SQL.stored fact_frame rows] in Hf.
  apply list_elem_of_fmap in Hf as (f0 & -> & Hf0).
  apply list_elem_of_fmap in Hf0 as (r & -> & Hr).
  exists r. split; [exact Hr|].
  assert (Hsub : text_cell (cell_at SUBSTANCE r) = true)
    by (eapply transform_text; eauto; discriminate).
  unfold Dashboard.fetch. rewrite cell_at_map_value.
  change (cell_at 2 (project _ r)) with (cell_at SUBSTANCE r).
  now rewrite !(value_text _ Hsub).
Qed.

Section DashboardAfterLoad.

Variable float_repr : Float.t -> string.

(** X20.  The dashboard on the store of a load.  When the cleaned frame has
    a code with a row without description and a row with the description
    [d], and no third description, the store holds both pairs and
    [get_all_codes_with_descriptions] raises [TypeError], whatever the
    order in which the query returns its rows: the join of the two
    descriptions meets [None]. *)
Theorem dashboard_codes_fail_on_missing_description
    raw df_final p w res w' c d r1 r2 :
  canonical raw -> text_frame raw -> transform_data_body raw = Ok df_final ->
  create_database_tables df_final p w = (Ok res, w') ->
  c <> "" ->
  r1 ∈ rows df_final -> cell_at CODE r1 = Str c -> cell_at INDICATOR r1 = NA ->
  r2 ∈ rows df_final -> cell_at CODE r2 = Str c -> cell_at INDICATOR r2 = Str d ->
  (forall r, r ∈ rows df_final -> cell_at CODE r = Str c ->
             cell_at INDICATOR r = NA \/ cell_at INDICATOR r = Str d) ->
  forall out,
    Dashboard.get_all_codes_with_descriptions float_repr (database_at p w') out ->
    out = Raise TypeError.
Proof.
  intros Hc Ht Htr Hload Hne Hr1 Hc1 Hd1 Hr2 Hc2 Hd2 Honly out Hout.
  destruct (loaded_tables raw df_final p w res w' Hc Ht Htr Hload) as (_ & HT & _).
  refine (codes_missing_description_raises float_repr _ _ 0 1 c d out HT
            eq_refl eq_refl Hne _ _ _ Hout).
  - exists [Str c; NA]. split; [|split; reflexivity].
    cbn [SQL.stored rows]. apply (indicator_rows_loaded raw df_final _ Hc Ht Htr).
    exists r1. now rewrite Hc1, Hd1.
  - exists [Str c; Str d]. split; [|split; reflexivity].
    cbn [SQL.stored rows]. apply (indicator_rows_loaded raw df_final _ Hc Ht Htr).
    exists r2. now rewrite Hc2, Hd2.
  - intros t Hin Hct. cbn [SQL.stored rows] in Hin.
    apply (indicator_rows_loaded raw df_final _ Hc Ht Htr) in Hin as (r & Hr & ->).
    change (cell_at 0 _) with (cell_at CODE r) in Hct.
    change (cell_at 1 _) with (cell_at INDICATOR r).
    destruct (Honly r Hr Hct) as [->| ->]; [now left | now right].
Qed.

(** X23.  The dashboard on the store of a load.  [load_data] returns a frame
    of the twelve columns: the loader keeps one row for every substance,
    so no substance has two types and the join of the types is never
    reached.  In every row the name of the substance and the text shown
    for it are the same cell: the source type of the first cleaned row
    with the substance of the row or, when that row has no source type
    (none, or the empty text), the substance itself. *)
Theorem dashboard_names_after_load raw df_final p w res w' out :
  canonical raw -> text_frame raw -> transform_data_body raw = Ok df_final ->
  create_database_tables df_final p w = (Ok res, w') ->
  Dashboard.load_data float_repr (database_at p w') out ->
  exists frame,
    out = Ok frame
    /\ columns frame
       = [ "section"; "code"; "substance"; "value"; "oktmo_code"; "year";
           "indicator"; "region"; "municipal_district"; "municipal_formation";
           "substance_name"; "substance_display" ]
    /\ forall r, r ∈ rows frame ->
         exists s,
           List.find (fun s => bool_decide (cell_at SUBSTANCE s = cell_at 2 r))
                     (rows df_final) = Some s
           /\ cell_at 10 r
              = (if Dashboard.named (cell_at SOURCE_TYPE s)
                 then cell_at SOURCE_TYPE s else cell_at 2 r)
           /\ cell_at 11 r = cell_at 10 r.
Proof.
  intros Hc Ht Htr Hload Hout.
  destruct (loaded_tables raw df_final p w res w' Hc Ht Htr Hload)
    as (Hae & Hic & Hst & Hlc).
  destruct (load_data_names_unique float_repr _ _ _ _ _ out
              Hst eq_refl Hae eq_refl Hic eq_refl Hlc eq_refl
              (substance_rows_loaded (rows df_final)) Hout)
    as (frame & -> & Hcols & Hrows).
  exists frame. split; [reflexivity|]. split; [exact Hcols|].
  intros r Hr. destruct (Hrows r Hr) as (f & Hf & H2 & H10 & H11).
  destruct (fact_substance_loaded raw df_final f Hc Ht Htr Hf) as (r0 & Hr0 & Hsub).
  destruct (find_is_Some (fun s => bool_decide (cell_at SUBSTANCE s = cell_at 2 r))
              (rows df_final) r0 Hr0) as [s Hs].
  { apply bool_decide_eq_true. now rewrite H2, Hsub. }
  exists s. split; [exact Hs|]. split; [|exact H11].
  rewrite H10. cbn [SQL.stored rows].
  exact (substance_name_loaded raw df_final (cell_at 2 r) s Hc Ht Htr Hs).
Qed.

End DashboardAfterLoad.

(** ** [get_all_substances_with_types] on the store of a load *)

Section DashboardSubstances.

Variable float_repr : Float.t -> string.

Lemma append_to_new k v (d : Dashboard.entries) :
  (forall e, e ∈ d -> Dashboard.py_eq e.1 k = false) ->
  Dashboard.append_to k v d = d ++ [(k, (v, []))].
Proof.
  induction d as [|[k' [v0 vs]] d IH]; intros H; [reflexivity|].
  cbn [Dashboard.append_to app].
  pose proof (H (k', (v0, vs)) ltac:(now left)) as E. cbn [fst] in E. rewrite E.
  f_equal. apply IH. intros e He. apply H. now right.
Qed.

Lemma collect_from_unique rs (d : Dashboard.entries) :
  NoDup (map (fun r => hash_key (cell_at 0 r)) rs) ->
  (forall e r, e ∈ d -> r ∈ rs -> hash_key e.1 <> hash_key (cell_at 0 r)) ->
  foldl (fun d r => Dashboard.append_to (cell_at 0 r) (cell_at 1 r) d) d rs
  = d ++ map (fun r => (cell_at 0 r, (cell_at 1 r, []))) rs.
Proof.
  revert d. induction rs as [|a rs IH]; intros d Hnd Hd.
  - cbn. now rewrite app_nil_r.
  - cbn [map] in Hnd. apply NoDup_cons in Hnd as [Ha Hnd].
    cbn [foldl map]. rewrite append_to_new.
    + rewrite IH; [now rewrite <- app_assoc | exact Hnd |].
      intros e r He Hr. apply elem_of_app in He as [He|He].
      * apply Hd; [exact He | now right].
      * apply list_elem_of_singleton in He as ->. cbn [fst].
        intros Heq. apply Ha. rewrite Heq.
        now apply (list_elem_of_fmap_2 (fun r => hash_key (cell_at 0 r))).
    + intros e He. destruct (Dashboard.py_eq e.1 (cell_at 0 a)) eqn:E; [|reflexivity].
      apply py_eq_true in E. exfalso. apply (Hd e a He); [now left | exact E].
Qed.

(** With one row for every key, the dict of [collect] has one entry for
    every row, in the order of the rows. *)
Lemma collect_unique rs :
  NoDup (map (fun r => hash_key (cell_at 0 r)) rs) ->
  Dashboard.collect rs = map (fun r => (cell_at 0 r, (cell_at 1 r, []))) rs.
Proof.
  intros Hnd. unfold Dashboard.collect.
  rewrite (collect_from_unique rs [] Hnd); [reflexivity|].
  intros e r He. inversion He.
Qed.

Lemma lookup_key_None {V} (k : cell) (d : list (cell * V)) :
  Dashboard.lookup_key k d = None
  <-> forall e, e ∈ d -> hash_key e.1 <> hash_key k.
Proof.
  induction d as [|[k' v] d IH]; cbn [Dashboard.lookup_key].
  - split; [intros _ e He; inversion He | reflexivity].
  - destruct (Dashboard.py_eq k' k) eqn:E.
    + split; [discriminate|]. intros H. exfalso.
      apply (H (k', v)); [now left | now apply py_eq_true].
    + rewrite IH. split.
      * intros H e He. apply elem_of_cons in He as [->|He]; [|now apply H].
        cbn [fst]. intros Heq. apply py_eq_true in Heq. congruence.
      * intros H e He. apply H. now right.
Qed.

Lemma lookup_key_Some_NoDup {V} (k k' : cell) (v : V) (d : list (cell * V)) :
  NoDup (map (fun e => hash_key e.1) d) ->
  (k', v) ∈ d -> hash_key k' = hash_key k ->
  Dashboard.lookup_key k d = Some v.
Proof.
  induction d as [|[k0 v0] d IH]; intros Hnd Hin Hk; [inversion Hin|].
  cbn [map] in Hnd. apply NoDup_cons in Hnd as [Ha Hnd]. cbn [fst] in Ha.
  cbn [Dashboard.lookup_key].
  apply elem_of_cons in Hin as [[= <- <-]|Hin].
  - now rewrite (proj2 (py_eq_true k' k) Hk).
  - destruct (Dashboard.py_eq k0 k) eqn:E; [|now apply IH].
    apply py_eq_true in E. exfalso. apply Ha. rewrite E, <- Hk.
    now apply (list_elem_of_fmap_2 (fun e => hash_key e.1) d (k', v)).
Qed.

Lemma lookup_key_app {V} (k : cell) (d d' : list (cell * V)) :
  Dashboard.lookup_key k (d ++ d')
  = match Dashboard.lookup_key k d with
    | Some v => Some v
    | None => Dashboard.lookup_key k d'
    end.
Proof.
  induction d as [|[k0 v0] d IH]; [reflexivity|].
  cbn [app Dashboard.lookup_key]. now destruct (Dashboard.py_eq k0 k).
Qed.

Lemma lookup_key_hash {V} (k k' : cell) (d : list (cell * V)) :
  hash_key k = hash_key k' -> Dashboard.lookup_key k d = Dashboard.lookup_key k' d.
Proof.
  intros H. induction d as [|[k0 v0] d IH]; [reflexivity|].
  cbn [Dashboard.lookup_key]. rewrite IH. unfold Dashboard.py_eq. now rewrite H.
Qed.

(** The second loop keeps what is in the dict. *)
Lemma add_missing_keeps substances d k v :
  Dashboard.lookup_key k d = Some v ->
  Dashboard.lookup_key k (Dashboard.add_missing substances d) = Some v.
Proof.
  unfold Dashboard.add_missing. revert d.
  induction substances as [|r rs IH]; intros d H; [exact H|].
  cbn [foldl]. apply IH. cbv zeta.
  destruct (Dashboard.lookup_key (cell_at 0 r) d); [exact H|].
  now rewrite lookup_key_app, H.
Qed.

(** It adds the first of the substances that are equal to a key which is
    not in the dict. *)
Lemma add_missing_adds substances d k r :
  Dashboard.lookup_key k d = None ->
  r ∈ substances -> Dashboard.py_eq (cell_at 0 r) k = true ->
  exists r', r' ∈ substances /\ Dashboard.py_eq (cell_at 0 r') k = true
             /\ Dashboard.lookup_key k (Dashboard.add_missing substances d)
                = Some (cell_at 0 r').
Proof.
  unfold Dashboard.add_missing. revert d.
  induction substances as [|a rs IH]; intros d Hd Hr Hk; [inversion Hr|].
  cbn [foldl]. cbv zeta.
  destruct (Dashboard.py_eq (cell_at 0 a) k) eqn:Ea.
  - exists a. split; [now left|]. split; [exact Ea|].
    apply add_missing_keeps.
    rewrite (lookup_key_hash (cell_at 0 a) k) by now apply py_eq_true.
    rewrite Hd, lookup_key_app, Hd. cbn [Dashboard.lookup_key]. now rewrite Ea.
  - apply elem_of_cons in Hr as [->|Hr]; [congruence|].
    destruct (IH (match Dashboard.lookup_key (cell_at 0 a) d with
                  | Some _ => d
                  | None => d ++ [(cell_at 0 a, cell_at 0 a)]
                  end)) as (r' & Hr' & Hk' & Hl); [|exact Hr|exact Hk|].
    + destruct (Dashboard.lookup_key (cell_at 0 a) d); [exact Hd|].
      rewrite lookup_key_app, Hd. cbn [Dashboard.lookup_key]. now rewrite Ea.
    + exists r'. split; [now right|]. auto.
Qed.

(** Every entry it leaves was in the dict or is a substance with itself. *)
Lemma add_missing_elem substances d k v :
  (k, v) ∈ Dashboard.add_missing substances d ->
  (k, v) ∈ d \/ exists r, r ∈ substances /\ k = cell_at 0 r /\ v = k.
Proof.
  unfold Dashboard.add_missing. revert d.
  induction substances as [|a rs IH]; intros d H; [now left|].
  cbn [foldl] in H. cbv zeta in H. apply IH in H as [H|(r & Hr & Hk & Hv)].
  - destruct (Dashboard.lookup_key (cell_at 0 a) d); [now left|].
    apply elem_of_app in H as [H|H]; [now left|].
    apply list_elem_of_singleton in H as [= -> ->].
    right. exists a. split; [now left | auto].
  - right. exists r. split; [now right | auto].
Qed.

Lemma display_unique (gs : Dashboard.entries) :
  Forall (fun g => g.2.2 = []) gs ->
  result_mapM (fun '(substance, types) =>
                 s ← Dashboard.display_substance float_repr substance types;
                 Ok (substance, s)) gs
  = Ok (map (fun g => (g.1, g.2.1)) gs).
Proof.
  induction 1 as [|[k [v vs]] gs Hg _ IH]; [reflexivity|].
  cbn [snd] in Hg. subst vs. cbn [result_mapM]. rewrite IH. reflexivity.
Qed.

(** With one row for every substance, the first loop gives every
    substance its type. *)
Lemma substances_of_rows_unique rs :
  NoDup (map (fun r => hash_key (cell_at 0 r)) rs) ->
  exists d,
    Dashboard.substances_of_rows float_repr rs = Ok d
    /\ d ≡ₚ map (fun r => (cell_at 0 r, cell_at 1 r))
              (List.filter (fun r => notna (cell_at 0 r)) rs).
Proof.
  intros Hnd. unfold Dashboard.substances_of_rows, Dashboard.groupby.
  rewrite (collect_unique rs Hnd).
  set (gs := merge_sort Dashboard.group_le _).
  assert (Hgs : gs ≡ₚ List.filter (fun g : cell * (cell * list cell) => notna g.1)
                        (map (fun r => (cell_at 0 r, (cell_at 1 r, []))) rs))
    by apply merge_sort_Permutation.
  eexists. split.
  - apply display_unique. apply Forall_forall. intros g Hg.
    rewrite Hgs in Hg. apply elem_of_List_filter in Hg as [Hg _].
    now apply list_elem_of_fmap in Hg as (r & -> & _).
  - rewrite Hgs. clear. induction rs as [|r rs IH]; [reflexivity|].
    cbn [map List.filter fst]. destruct (notna (cell_at 0 r)); cbn [map fst snd].
    + now rewrite IH.
    + exact IH.
Qed.
Lemma fact_substance_rows_table db ae :
  tables db !! "air_emissions" = Some ae -> columns ae = air_emissions_cols ->
  Dashboard.fact_substance_rows db
  = Ok (map (fun r => [Dashboard.fetch 2 r])
            (List.filter
               (fun r => SQL.holds (Dashboard.is_not_null (cell_at 2 r))) (rows ae))).
Proof.
  intros Hae Cae. unfold Dashboard.fact_substance_rows, SQL.table, SQL.column.
  rewrite Hae. cbn [mbind result_bind]. rewrite Cae. reflexivity.
Qed.

(** With one row for every substance in substance_types, the rows of the
    query are the rows of the table that have a type. *)
Lemma substances_rows_exact db st substances r :
  tables db !! "substance_types" = Some st ->
  columns st = ["substance"; "source_type"] ->
  NoDup (map (fun r => hash_key (cell_at 0 r)) (rows st)) ->
  Dashboard.substances_query db (Ok substances) ->
  r ∈ substances
  <-> exists t, t ∈ rows st /\ Dashboard.named (cell_at 1 t) = true
                /\ r = [Dashboard.fetch 0 t; Dashboard.fetch 1 t].
Proof.
  intros Hst Cst Hnd Hq.
  destruct (substances_one_type db st substances Hst Cst Hnd Hq) as [_ Hrows].
  split; [apply Hrows|]. intros (t & Ht & Hn & ->).
  destruct (substances_cover db st substances Hst Cst Hq t Ht Hn) as (r & Hr & Hk).
  destruct (Hrows r Hr) as (t' & Ht' & _ & ->).
  apply (f_equal (fun l => cell_at 0 l)) in Hk. rewrite !cell_at_map_hash_key in Hk.
  change (cell_at 0 [Dashboard.fetch 0 t'; _]) with (Dashboard.fetch 0 t') in Hk.
  change (cell_at 0 [Dashboard.fetch 0 t; _]) with (Dashboard.fetch 0 t) in Hk.
  unfold Dashboard.fetch in Hk. rewrite !hash_key_value in Hk.
  now rewrite <- (NoDup_key_eq (fun r => hash_key (cell_at 0 r)) _ t' t Hnd Ht' Ht Hk).
Qed.

(** With one row for every substance in substance_types the function
    returns: the dict of the types, then the substances of the facts. *)
Lemma get_all_substances_shape db st ae res :
  tables db !! "substance_types" = Some st ->
  columns st = ["substance"; "source_type"] ->
  tables db !! "air_emissions" = Some ae -> columns ae = air_emissions_cols ->
  NoDup (map (fun r => hash_key (cell_at 0 r)) (rows st)) ->
  Dashboard.get_all_substances_with_types float_repr db res ->
  exists rs substances d,
    Dashboard.substances_query db (Ok rs)
    /\ NoDup (map (fun r => hash_key (cell_at 0 r)) rs)
    /\ d ≡ₚ map (fun r => (cell_at 0 r, cell_at 1 r))
              (List.filter (fun r => notna (cell_at 0 r)) rs)
    /\ substances
       ≡ₚ Dashboard.distinct
            (map (fun r => [Dashboard.fetch 2 r])
                 (List.filter
                    (fun r => SQL.holds (Dashboard.is_not_null (cell_at 2 r)))
                    (rows ae)))
    /\ res = Ok (Dashboard.add_missing substances d).
Proof.
  intros Hst Cst Hae Cae Hnd (q & Hq & H).
  unfold Dashboard.types_query in Hq.
  rewrite (substance_rows_table db st Hst Cst) in Hq.
  destruct Hq as (rs & -> & Hperm & _).
  assert (Hsq : Dashboard.substances_query db (Ok rs)).
  { unfold Dashboard.substances_query.
    rewrite (substance_rows_table db st Hst Cst). eauto. }
  destruct (substances_one_type db st rs Hst Cst Hnd Hsq) as [Hnd' _].
  cbn [mbind result_bind] in H.
  destruct (substances_of_rows_unique rs Hnd') as (d & Hd & Hp).
  rewrite Hd in H. destruct H as (q2 & Hq2 & ->).
  unfold Dashboard.all_substances_query in Hq2.
  rewrite (fact_substance_rows_table db ae Hae Cae) in Hq2.
  destruct Hq2 as (substances & -> & Hperm2).
  exists rs, substances, d. auto.
Qed.

(** X24.  The dashboard on the store of a load.
    [get_all_substances_with_types] returns, whatever the order in which
    its two queries return their rows.  Its dict maps the substance of
    every cleaned row to the source type of the first cleaned row with
    that substance or, when that row has no source type, to the substance
    itself; every key is the substance of a cleaned row.  A text made of
    several types is never built. *)
Theorem dashboard_substances_after_load raw df_final p w res w' out :
  canonical raw -> text_frame raw -> transform_data_body raw = Ok df_final ->
  create_database_tables df_final p w = (Ok res, w') ->
  Dashboard.get_all_substances_with_types float_repr (database_at p w') out ->
  exists d,
    out = Ok d
    /\ (forall r s,
          r ∈ rows df_final ->
          List.find (fun s => bool_decide (cell_at SUBSTANCE s = cell_at SUBSTANCE r))
                    (rows df_final) = Some s ->
          Dashboard.lookup_key (cell_at SUBSTANCE r) d
          = Some (if Dashboard.named (cell_at SOURCE_TYPE s)
                  then cell_at SOURCE_TYPE s else cell_at SUBSTANCE r))
    /\ (forall k v, (k, v) ∈ d -> exists r, r ∈ rows df_final /\ k = cell_at SUBSTANCE r).
Proof.
  intros Hc Ht Htr Hload Hout.
  destruct (loaded_tables raw df_final p w res w' Hc Ht Htr Hload)
    as (Hae & _ & Hst & _).
  pose proof (substance_rows_loaded (rows df_final)) as Hnd.
  destruct (get_all_substances_shape _ _ _ out Hst eq_refl Hae eq_refl Hnd Hout)
    as (rs & substances & d & Hsq & Hnd' & Hd & Hsubs & ->).
  pose proof (fun r => substances_rows_exact _ _ rs r Hst eq_refl Hnd Hsq) as Hrs.
  assert (Hsub : forall r, r ∈ rows df_final -> text_cell (cell_at SUBSTANCE r) = true)
    by (intros r Hr; eapply transform_text; eauto; discriminate).
  assert (Hfacts : forall r', r' ∈ substances ->
            exists r0, r0 ∈ rows df_final /\ cell_at 0 r' = cell_at SUBSTANCE r0).
  { intros r' Hr'. rewrite Hsubs in Hr'. apply distinct_elem in Hr'.
    apply list_elem_of_fmap in Hr' as (f & -> & Hf).
    apply elem_of_List_filter in Hf as [Hf _].
    exact (fact_substance_loaded raw df_final f Hc Ht Htr Hf). }
  assert (Hdnd : NoDup (map (fun e : cell * cell => hash_key e.1) d)).
  { rewrite Hd, map_map. cbn [fst].
    eapply sublist_NoDup; [exact Hnd'|]. apply fmap_sublist, List_filter_sublist. }
  exists (Dashboard.add_missing substances d). split; [reflexivity|]. split.
  - intros r s Hr Hfind.
    pose proof (substance_row_of_first raw df_final _ s Hc Ht Htr Hfind) as Hin.
    assert (Hs : s ∈ rows df_final)
      by (apply list_elem_of_In; eapply find_some; exact Hfind).
    assert (Hsrc : text_cell (cell_at SOURCE_TYPE s) = true)
      by (eapply transform_text; eauto; discriminate).
    destruct (transform_invariant raw df_final r Hc Htr Hr) as (_ & _ & Hna & _).
    destruct (Dashboard.named (cell_at SOURCE_TYPE s)) eqn:Hn.
    + apply add_missing_keeps.
      apply (lookup_key_Some_NoDup _ (cell_at SUBSTANCE r)); [exact Hdnd| |reflexivity].
      rewrite Hd.
      apply (list_elem_of_fmap_2 (fun r => (cell_at 0 r, cell_at 1 r)) _
               [cell_at SUBSTANCE r; cell_at SOURCE_TYPE s]).
      apply elem_of_List_filter. split; [|exact Hna].
      apply Hrs. exists [cell_at SUBSTANCE r; cell_at SOURCE_TYPE s].
      split; [exact Hin|]. split; [exact Hn|].
      unfold Dashboard.fetch.
      change (cell_at 0 [_; _]) with (cell_at SUBSTANCE r).
      change (cell_at 1 [_; _]) with (cell_at SOURCE_TYPE s).
      now rewrite (value_text _ (Hsub r Hr)), (value_text _ Hsrc).
    + assert (Hnone : Dashboard.lookup_key (cell_at SUBSTANCE r) d = None).
      { apply lookup_key_None. intros e He Hk. rewrite Hd in He.
        apply list_elem_of_fmap in He as (r1 & -> & Hr1).
        apply elem_of_List_filter in Hr1 as [Hr1 _].
        apply Hrs in Hr1 as (t & Ht' & Hnt & ->).
        cbn [fst] in Hk. change (cell_at 0 [_; _]) with (Dashboard.fetch 0 t) in Hk.
        unfold Dashboard.fetch in Hk. rewrite hash_key_value in Hk.
        rewrite (NoDup_key_eq (fun r => hash_key (cell_at 0 r)) _ t
                   [cell_at SUBSTANCE r; cell_at SOURCE_TYPE s] Hnd Ht' Hin Hk) in Hnt.
        change (cell_at 1 [_; _]) with (cell_at SOURCE_TYPE s) in Hnt. congruence. }
      set (f := map SQL.value
                  (project [SECTION; CODE; SUBSTANCE; VALUE; OKTMO_CODE; YEAR] r)).
      assert (Hf2 : Dashboard.fetch 2 f = cell_at SUBSTANCE r).
      { unfold Dashboard.fetch, f. rewrite cell_at_map_value.
        change (cell_at 2 (project _ r)) with (cell_at SUBSTANCE r).
        now rewrite !(value_text _ (Hsub r Hr)). }
      destruct (distinct_covers
                  (map (fun r => [Dashboard.fetch 2 r])
                       (List.filter
                          (fun r => SQL.holds (Dashboard.is_not_null (cell_at 2 r)))
                          (map (map SQL.value)
                             (map (project [SECTION; CODE; SUBSTANCE; VALUE;
                                            OKTMO_CODE; YEAR]) (rows df_final)))))
                  [Dashboard.fetch 2 f]) as (r2 & Hr2 & Hk2).
      { apply (list_elem_of_fmap_2 (fun r => [Dashboard.fetch 2 r])).
        apply elem_of_List_filter. split.
        - apply (list_elem_of_fmap_2 (map SQL.value)).
          now apply (list_elem_of_fmap_2 (project _)).
        - unfold f. rewrite cell_at_map_value.
          change (cell_at 2 (project _ r)) with (cell_at SUBSTANCE r).
          rewrite (value_text _ (Hsub r Hr)).
          unfold Dashboard.is_not_null, SQL.is_null. cbn [SQL.holds].
          unfold notna in Hna. now rewrite Hna. }
      assert (Hr2' : r2 ∈ substances) by (rewrite Hsubs; exact Hr2).
      assert (Hk : Dashboard.py_eq (cell_at 0 r2) (cell_at SUBSTANCE r) = true).
      { apply py_eq_true. apply (f_equal (fun l => cell_at 0 l)) in Hk2.
        rewrite !cell_at_map_hash_key in Hk2.
        change (cell_at 0 [Dashboard.fetch 2 f]) with (Dashboard.fetch 2 f) in Hk2.
        now rewrite Hf2 in Hk2. }
      destruct (add_missing_adds substances d _ r2 Hnone Hr2' Hk)
        as (r' & Hr' & Hk' & ->).
      f_equal. destruct (Hfacts r' Hr') as (r0 & Hr0 & E).
      apply py_eq_true in Hk'. rewrite E in Hk' |- *.
      now rewrite !hash_key_text in Hk' by auto.
  - intros k v Hkv. apply add_missing_elem in Hkv as [Hkv|(r' & Hr' & -> & _)].
    + rewrite Hd in Hkv. apply list_elem_of_fmap in Hkv as (r1 & [= -> ->] & Hr1).
      apply elem_of_List_filter in Hr1 as [Hr1 _].
      apply Hrs in Hr1 as (t & Ht' & _ & ->).
      cbn [SQL.stored rows] in Ht'.
      apply list_elem_of_fmap in Ht' as (t0 & -> & Ht0).
      apply elem_of_merge_sort in Ht0. apply keep_first_elem in Ht0 as [Ht0 _].
      apply list_elem_of_fmap in Ht0 as (r0 & -> & Hr0).
      exists r0. split; [exact Hr0|].
      change (cell_at 0 [_; _]) with
        (Dashboard.fetch 0 (map SQL.value (project [SUBSTANCE; SOURCE_TYPE] r0))).
      unfold Dashboard.fetch. rewrite cell_at_map_value.
      change (cell_at 0 (project _ r0)) with (cell_at SUBSTANCE r0).
      now rewrite !(value_text _ (Hsub r0 Hr0)).
    + exact (Hfacts r' Hr').
Qed.

End DashboardSubstances.

(** ** One outcome of each function *)

Lemma codes_query_run db : Dashboard.codes_query db (Dashboard.run_codes_query db).
Proof.
  unfold Dashboard.codes_query, Dashboard.run_codes_query.
  destruct (Dashboard.code_rows db) as [l|e]; [|reflexivity].
  cbn [mbind result_bind]. eexists. split; [reflexivity|]. split.
  - apply merge_sort_Permutation.
  - apply (StronglySorted_merge_sort (key_le 0)); apply _.
Qed.

Lemma sql_leb_total a b :
  Dashboard.sql_leb a b = true \/ Dashboard.sql_leb b a = true.
Proof.
  unfold Dashboard.sql_leb.
  destruct (SQL.is_null a); [now left|].
  destruct (SQL.is_null b); [now right|]. apply cell_leb_total.
Qed.

Lemma sql_leb_trans a b c :
  Dashboard.sql_leb a b = true -> Dashboard.sql_leb b c = true ->
  Dashboard.sql_leb a c = true.
Proof.
  unfold Dashboard.sql_leb.
  destruct (SQL.is_null a); [reflexivity|].
  destruct (SQL.is_null b); [discriminate|].
  destruct (SQL.is_null c); [intros _ H; discriminate H|]. apply cell_leb_trans.
Qed.

#[global] Instance types_order_total l : Total (Dashboard.types_order l).
Proof.
  intros r1 r2. unfold Dashboard.types_order, Dashboard.types_leb.
  destruct (sql_leb_total (cell_at 0 r1) (cell_at 0 r2)) as [H|H]; rewrite H.
  - destruct (Dashboard.sql_leb (cell_at 0 r2) (cell_at 0 r1)); [|now left].
    cbn [andb negb orb].
    destruct (Nat.leb_spec (Dashboard.count_of l r2) (Dashboard.count_of l r1));
      [now left | right; apply Nat.leb_le; lia].
  - destruct (Dashboard.sql_leb (cell_at 0 r1) (cell_at 0 r2)); [|now right].
    cbn [andb negb orb].
    destruct (Nat.leb_spec (Dashboard.count_of l r2) (Dashboard.count_of l r1));
      [now left | right; apply Nat.leb_le; lia].
Qed.

#[global] Instance types_order_trans l : Transitive (Dashboard.types_order l).
Proof.
  intros r1 r2 r3. unfold Dashboard.types_order, Dashboard.types_leb.
  intros H12 H23.
  apply andb_true_iff in H12 as [L12 C12]. apply andb_true_iff in H23 as [L23 C23].
  rewrite (sql_leb_trans _ _ _ L12 L23). cbn [andb].
  destruct (Dashboard.sql_leb (cell_at 0 r3) (cell_at 0 r1)) eqn:L31; [|reflexivity].
  rewrite (sql_leb_trans _ _ _ L31 L12) in C23.
  rewrite (sql_leb_trans _ _ _ L23 L31) in C12.
  cbn [negb orb] in *. apply Nat.leb_le in C12, C23. apply Nat.leb_le. lia.
Qed.

Lemma types_query_run db : Dashboard.types_query db (Dashboard.run_types_query db).
Proof.
  unfold Dashboard.types_query, Dashboard.run_types_query.
  destruct (Dashboard.substance_rows db) as [l|e]; [|reflexivity].
  cbn [mbind result_bind]. eexists. split; [reflexivity|]. split.
  - apply merge_sort_Permutation.
  - apply (StronglySorted_merge_sort (Dashboard.types_order l)); apply _.
Qed.

Lemma all_substances_query_run db :
  Dashboard.all_substances_query db (Dashboard.run_all_substances_query db).
Proof.
  unfold Dashboard.all_substances_query, Dashboard.run_all_substances_query.
  destruct (Dashboard.fact_substance_rows db) as [l|e]; [|reflexivity].
  cbn [mbind result_bind]. eexists. split; reflexivity.
Qed.

Lemma substances_query_run db :
  Dashboard.substances_query db (Dashboard.run_substances_query db).
Proof.
  unfold Dashboard.substances_query, Dashboard.run_substances_query.
  destruct (Dashboard.substance_rows db) as [l|e]; [|reflexivity].
  cbn [mbind result_bind]. eexists. split; reflexivity.
Qed.

Lemma data_query_run db : Dashboard.data_query db (Dashboard.joined_rows db).
Proof.
  unfold Dashboard.data_query.
  destruct (Dashboard.joined_rows db) as [l|e]; [|reflexivity].
  eexists. split; reflexivity.
Qed.

Section DashboardRuns.

Variable float_repr : Float.t -> string.

Lemma get_all_codes_with_descriptions_run db :
  Dashboard.get_all_codes_with_descriptions float_repr db
    (Dashboard.run_get_all_codes_with_descriptions float_repr db).
Proof. exists (Dashboard.run_codes_query db). split; [apply codes_query_run | reflexivity]. Qed.

Lemma load_data_run db :
  Dashboard.load_data float_repr db (Dashboard.run_load_data float_repr db).
Proof.
  exists (Dashboard.run_substances_query db). split; [apply substances_query_run|].
  unfold Dashboard.run_load_data.
  destruct (Dashboard.run_substances_query db) as [substances|e]; [|reflexivity].
  exists (Dashboard.joined_rows db). split; [apply data_query_run | reflexivity].
Qed.

Lemma get_all_substances_with_types_run db :
  Dashboard.get_all_substances_with_types float_repr db
    (Dashboard.run_get_all_substances_with_types float_repr db).
Proof.
  exists (Dashboard.run_types_query db). split; [apply types_query_run|].
  unfold Dashboard.run_get_all_substances_with_types.
  destruct (Dashboard.run_types_query db) as [rs|e]; [|reflexivity].
  cbn [mbind result_bind].
  destruct (Dashboard.substances_of_rows float_repr rs) as [d|e]; [|reflexivity].
  exists (Dashboard.run_all_substances_query db).
  split; [apply all_substances_query_run | reflexivity].
Qed.

End DashboardRuns.

(** ** The functions on the sample store *)

Lemma sample_store_facts : tables sample_store !! "air_emissions" = Some sample_facts.
Proof. vm_compute. reflexivity. Qed.

Lemma sample_store_codes : tables sample_store !! "indicator_codes" = Some sample_codes.
Proof. vm_compute. reflexivity. Qed.

Lemma sample_store_locations :
  tables sample_store !! "location_codes" = Some sample_locations.
Proof. vm_compute. reflexivity. Qed.

Lemma undescribed_cleaned_Ok :
  transform_data_body undescribed_raw = Ok undescribed_cleaned.
Proof. vm_compute. reflexivity. Qed.

Lemma undescribed_raw_canonical : canonical undescribed_raw.
Proof. split; [reflexivity | compute_done]. Qed.

Lemma undescribed_raw_text : text_frame undescribed_raw.
Proof. repeat constructor. Qed.

Lemma codes_with_text_descriptions_witness :
  exists codes_dict codes_display_dict,
    Dashboard.run_get_all_codes_with_descriptions sample_float_repr sample_store
    = Ok (codes_dict, codes_display_dict)
    /\ Dashboard.lookup_key (Str "B2") codes_dict = Some (Str "Emitted", [])
    /\ Dashboard.lookup_key (Str "B2") codes_display_dict = Some "B2 - Emitted".
Proof.
  assert (Htext : forall r, r ∈ rows sample_codes ->
                   Dashboard.named (cell_at 0 r) = true ->
                   is_text (cell_at 1 r) = true).
  { intros r Hr _. unfold sample_codes in Hr. cbn [rows] in Hr.
    repeat (apply elem_of_cons in Hr as [->|Hr]; [reflexivity|]).
    now apply elem_of_nil in Hr. }
  destruct (codes_with_text_descriptions sample_float_repr sample_store sample_codes
              0 1 _ sample_store_codes eq_refl eq_refl Htext
              (get_all_codes_with_descriptions_run sample_float_repr sample_store))
    as (cd & cdd & Hres & _ & H).
  exists cd, cdd. split; [exact Hres|].
  apply (H "B2" "Emitted").
  - discriminate.
  - exists [Str "B2"; Str "Emitted"]. split; [compute_done | split; reflexivity].
  - intros r Hr Hc. unfold sample_codes in Hr. cbn [rows] in Hr.
    repeat (apply elem_of_cons in Hr as [->|Hr];
            [first [discriminate Hc | reflexivity]|]).
    now apply elem_of_nil in Hr.
Defined.

Lemma dashboard_codes_fail_on_missing_description_witness :
  match create_database_tables undescribed_cleaned "air_emissions.db"
          (world_with undescribed_raw) with
  | (Ok _, w') =>
      Dashboard.run_get_all_codes_with_descriptions sample_float_repr
        (database_at "air_emissions.db" w') = Raise TypeError
  | (Raise _, _) => False
  end.
Proof.
  destruct (create_database_tables undescribed_cleaned "air_emissions.db"
              (world_with undescribed_raw)) as [[res|e] w'] eqn:E.
  - apply (dashboard_codes_fail_on_missing_description sample_float_repr
             undescribed_raw undescribed_cleaned "air_emissions.db"
             (world_with undescribed_raw) res w' "A1" "Captured"
             (nth 0 (rows undescribed_cleaned) []) (nth 1 (rows undescribed_cleaned) [])
             undescribed_raw_canonical undescribed_raw_text undescribed_cleaned_Ok E).
    + discriminate.
    + compute_done.
    + reflexivity.
    + reflexivity.
    + compute_done.
    + reflexivity.
    + reflexivity.
    + intros r Hr _. unfold undescribed_cleaned in Hr. cbn [rows] in Hr.
      repeat (apply elem_of_cons in Hr as [->|Hr]; [auto|]).
      now apply elem_of_nil in Hr.
    + apply get_all_codes_with_descriptions_run.
  - vm_compute in E. discriminate E.
Defined.

Lemma load_data_repeats_facts_witness :
  match Dashboard.run_load_data sample_float_repr sample_store with
  | Ok out => length (rows out) = 5
  | Raise _ => False
  end.
Proof.
  destruct (Dashboard.run_load_data sample_float_repr sample_store) as [out|e] eqn:E.
  - rewrite (load_data_repeats_facts sample_float_repr sample_store
               sample_facts sample_codes sample_locations out
               sample_store_facts eq_refl sample_store_codes eq_refl
               sample_store_locations eq_refl).
    + vm_compute. reflexivity.
    + rewrite <- E. apply load_data_run.
  - vm_compute in E. discriminate E.
Defined.

Lemma load_data_positive_facts_witness :
  match Dashboard.run_load_data sample_float_repr sample_store with
  | Ok out =>
      forall r, r ∈ rows out ->
        length r = 12
        /\ exists f, f ∈ rows sample_facts
                     /\ Dashboard.positive (cell_at 3 f) = Some true
                     /\ cell_at 1 r = Dashboard.fetch 1 f
  | Raise _ => False
  end.
Proof.
  destruct (Dashboard.run_load_data sample_float_repr sample_store) as [out|e] eqn:E.
  - intros r Hr.
    destruct (load_data_positive_facts sample_float_repr sample_store
                sample_facts sample_codes sample_locations out r
                sample_store_facts eq_refl sample_store_codes eq_refl
                sample_store_locations eq_refl)
      as (Hlen & f & Hf & Hpos & Htake & _).
    + rewrite <- E. apply load_data_run.
    + exact Hr.
    + split; [exact Hlen|]. exists f. split; [exact Hf|]. split; [exact Hpos|].
      transitivity (cell_at 1 (take 6 r)).
      * unfold cell_at. now rewrite lookup_take_lt by lia.
      * now rewrite Htake.
  - vm_compute in E. discriminate E.
Defined.

Lemma dashboard_names_after_load_witness :
  match create_database_tables sample_cleaned "air_emissions.db" sample_world with
  | (Ok _, w') =>
      exists frame,
        Dashboard.run_load_data sample_float_repr (database_at "air_emissions.db" w')
        = Ok frame
        /\ forall r, r ∈ rows frame -> cell_at 11 r = cell_at 10 r
  | (Raise _, _) => False
  end.
Proof.
  destruct (create_database_tables sample_cleaned "air_emissions.db" sample_world)
    as [[res|e] w'] eqn:E.
  - destruct (dashboard_names_after_load sample_float_repr
                sample_raw sample_cleaned "air_emissions.db" sample_world res w' _
                sample_raw_canonical sample_raw_text sample_cleaned_Ok E
                (load_data_run sample_float_repr _))
      as (frame & Hres & _ & Hrows).
    exists frame. split; [exact Hres|]. intros r Hr.
    destruct (Hrows r Hr) as (s & _ & _ & H). exact H.
  - vm_compute in E. discriminate E.
Defined.

Lemma dashboard_substances_after_load_witness :
  match create_database_tables sample_cleaned "air_emissions.db" sample_world with
  | (Ok _, w') =>
      exists d,
        Dashboard.run_get_all_substances_with_types sample_float_repr
          (database_at "air_emissions.db" w') = Ok d
        /\ Dashboard.lookup_key (Str "SO2") d = Some (Str "stationary")
        /\ Dashboard.lookup_key (Str "NO") d = Some (Str "mobile")
  | (Raise _, _) => False
  end.
Proof.
  destruct (create_database_tables sample_cleaned "air_emissions.db" sample_world)
    as [[res|e] w'] eqn:E.
  - destruct (dashboard_substances_after_load sample_float_repr
                sample_raw sample_cleaned "air_emissions.db" sample_world res w' _
                sample_raw_canonical sample_raw_text sample_cleaned_Ok E
                (get_all_substances_with_types_run sample_float_repr _))
      as (d & Hres & Hd & _).
    exists d. split; [exact Hres|]. split.
    + apply (Hd (nth 0 (rows sample_cleaned) []) (nth 0 (rows sample_cleaned) []));
        [compute_done | reflexivity].
    + apply (Hd (nth 2 (rows sample_cleaned) []) (nth 2 (rows sample_cleaned) []));
        [compute_done | reflexivity].
  - vm_compute in E. discriminate E.
Defined.
